(** * docling-av-transcriber: a shallow embedding of the transcription pipeline

    The first half of the file follows the Python sources module by module:
    - [Py], [PyStr], [PySort], [PyPath], [Json]: the parts of the Python
      runtime the code relies on (outcomes, strings, [sorted], [pathlib],
      the values [json.loads] builds);
    - [Eff], [Files], [Net]: the world the code acts on (files and external
      processes, file reads, HTTP exchanges and sleeps);
    - [Types] and [NumTypes], [DocumentBuilder], [Audio], [Video],
      [Pipeline], [Asr] and [AsrSdk], [Vision], [Config]: [types.py],
      [pipelines/document_builder.py], [media/audio.py], [media/video.py],
      [pipelines/asr_pipeline.py] with [media/backend.py],
      [models/aliyun_bailian.py], [models/aliyun_vision.py] and [config.py].
    The second half ([...Facts], [...More], [...Runs]) states and proves the
    properties.

    Conventions.  Python [str] values are modelled as [string] (sequences of
    8-bit characters); the case and white-space operations are the ASCII
    restrictions of the Python ones.  Time stamps of conversation items come
    in two models.  [Types] has integral milliseconds ([Z]): the annotation
    [Optional[float]] admits Python [int], which is what [describe_frames]
    builds, and the order of the items and the document builder are stated
    there.  [NumTypes] has Python numbers, floats with their infinities and
    NaN included, as the speech service may send them, and gives [_format_ms]
    and [to_string] with the [int(ms)] conversion and its exceptions; on
    integral stamps the two agree.  Keyframe time stamps in seconds are
    floats and stay abstract.  What the program finds outside itself (names
    of temporary files, exit status and diagnostics of processes, answers of
    the services, file contents) is an argument of the model. *)

From Stdlib Require Import ZArith QArith List String Ascii Strings.Byte Bool Lia.
From stdpp Require Import base list strings gmap.
From Equations Require Import Equations.
Import ListNotations.
Local Open Scope string_scope.
Local Open Scope Z_scope.
Local Open Scope list_scope.

(** ** Python outcomes: a value or a raised exception *)
Module Py.

(** The exception classes the sources raise or let through.  Repository
    exceptions carry their message. *)
Inductive exn : Type :=
| TypeError
| ZeroDivisionError
| UnboundLocalError
| AttributeError
| ValueError
| OSError
| FileNotFoundError
| RuntimeError (msg : string)
| NoAudioStreamError (msg : string)
| AsrServiceError (msg : string)
| VisionServiceError (msg : string)
| OverflowError.

Inductive result (A : Type) : Type :=
| Ok (a : A)
| Raise (e : exn).
Arguments Ok {A} a.
Arguments Raise {A} e.

Definition bind {A B : Type} (r : result A) (k : A -> result B) : result B :=
  match r with
  | Ok a => k a
  | Raise e => Raise e
  end.

End Py.

Notation "'let*' x ':=' c 'in' k" := (Py.bind c (fun x => k))
  (at level 10, x name, c at level 100, k at level 200).

(** ** Python string primitives *)
Module PyStr.

(** [str.lower] on ASCII letters; other characters are unchanged. *)
Definition lower_char (c : ascii) : ascii :=
  let n := nat_of_ascii c in
  if ((65 <=? n) && (n <=? 90))%nat then ascii_of_nat (n + 32) else c.

Fixpoint lower (s : string) : string :=
  match s with
  | EmptyString => EmptyString
  | String c r => String (lower_char c) (lower r)
  end.

(** [s.startswith(p)] *)
Fixpoint startswith (p s : string) : bool :=
  match p, s with
  | EmptyString, _ => true
  | String a p', String b s' => Ascii.eqb a b && startswith p' s'
  | String _ _, EmptyString => false
  end.

(** [p in s] for strings: [p] occurs as a contiguous run of [s]. *)
Fixpoint contains (p s : string) : bool :=
  startswith p s ||
  match s with
  | EmptyString => false
  | String _ s' => contains p s'
  end.

(** [s.endswith(p)] *)
Definition endswith (p s : string) : bool :=
  let lp := String.length p in
  let ls := String.length s in
  (lp <=? ls)%nat && String.eqb (substring (ls - lp) lp s) p.

(** [s[n:]] *)
Fixpoint drop (n : nat) (s : string) : string :=
  match n, s with
  | O, _ => s
  | S n', String _ r => drop n' r
  | S _, EmptyString => EmptyString
  end.

(** The characters [str.isspace] accepts below 128. *)
Definition is_space (c : ascii) : bool :=
  let n := nat_of_ascii c in
  (((9 <=? n) && (n <=? 13)) || ((28 <=? n) && (n <=? 32)))%nat.

(** [s.lstrip()] *)
Fixpoint lstrip (s : string) : string :=
  match s with
  | String c r => if is_space c then lstrip r else s
  | EmptyString => EmptyString
  end.

(** [s.rstrip()]: trailing white space is dropped from the right. *)
Fixpoint rstrip (s : string) : string :=
  match s with
  | EmptyString => EmptyString
  | String c r =>
      match rstrip r with
      | EmptyString => if is_space c then EmptyString else String c EmptyString
      | r' => String c r'
      end
  end.

(** [s.strip()] *)
Definition strip (s : string) : string := rstrip (lstrip s).

Definition newline : ascii := ascii_of_nat 10.

(** [s.partition("\n")]: head, separator found, rest. *)
Fixpoint partition_nl (s : string) : string * bool * string :=
  match s with
  | EmptyString => (EmptyString, false, EmptyString)
  | String c r =>
      if Ascii.eqb c newline then (EmptyString, true, r)
      else let '(h, sep, t) := partition_nl r in (String c h, sep, t)
  end.

(** [sep.join(parts)] *)
Fixpoint join (sep : string) (parts : list string) : string :=
  match parts with
  | [] => EmptyString
  | [x] => x
  | x :: rest => x +:+ sep +:+ join sep rest
  end.

(** Truthiness of a string: [bool(s)]. *)
Definition nonempty (s : string) : bool :=
  match s with EmptyString => false | _ => true end.

(** Decimal rendering of a natural number (most significant digit first). *)
Definition digit_char (d : Z) : ascii := ascii_of_nat (48 + Z.to_nat d).

Fixpoint digits_fuel (fuel : nat) (n : Z) (acc : string) : string :=
  match fuel with
  | O => acc
  | S f =>
      let acc' := String (digit_char (n mod 10)) acc in
      if n / 10 =? 0 then acc' else digits_fuel f (n / 10) acc'
  end.

(** [str(n)] for [0 <= n]; the binary length bounds the decimal one. *)
Definition digits (n : Z) : string :=
  digits_fuel (S (Z.to_nat (Z.log2 n))) n EmptyString.

Fixpoint zeros (k : nat) : string :=
  match k with O => EmptyString | S k' => String "0"%char (zeros k') end.

(** [format(n, "0w")]: sign-aware zero padding to width [w]. *)
Definition zero_pad (w : nat) (n : Z) : string :=
  if n <? 0 then
    let d := digits (- n) in
    String "-"%char (zeros (w - 1 - String.length d) +:+ d)
  else
    let d := digits n in
    zeros (w - String.length d) +:+ d.

(** [str(n)] for a Python [int]. *)
Definition str_of_int (n : Z) : string :=
  if n <? 0 then String "-"%char (digits (- n)) else digits n.

End PyStr.

(** ** types.py *)
Module Types.
Import PyStr.

Definition KEYFRAME_PREFIX : string := "[[KEYFRAME_START]]".
Definition KEYFRAME_SUFFIX : string := "[[KEYFRAME_END]]".

(** [_format_ms]: [divmod] is floor division, as [Z.div] and [Z.modulo] are
    for a positive divisor. *)
Definition _format_ms (ms : option Z) : string :=
  match ms with
  | None => "--:--:--.---"
  | Some ms_int =>
      let seconds := ms_int / 1000 in
      let millis := ms_int mod 1000 in
      let minutes := seconds / 60 in
      let seconds := seconds mod 60 in
      let hours := minutes / 60 in
      let minutes := minutes mod 60 in
      zero_pad 2 hours +:+ ":" +:+ zero_pad 2 minutes +:+ ":" +:+
      zero_pad 2 seconds +:+ "." +:+ zero_pad 3 millis
  end.

Record ConversationWord := mkWord {
  w_text : string;
  w_start_time : option Z;
  w_end_time : option Z
}.

Record ConversationItem := mkItem {
  text : string;
  start_time : option Z;
  end_time : option Z;
  speaker_id : option Z;
  speaker : option string;
  words : list ConversationWord
}.

(** The [time_tag] local of [to_string]: set only when both bounds are. *)
Definition time_tag (it : ConversationItem) : option string :=
  match start_time it, end_time it with
  | Some s, Some e =>
      Some ("[time: " +:+ _format_ms (Some s) +:+ "-" +:+ _format_ms (Some e) +:+ "]")
  | _, _ => None
  end.

(** [if x: parts.append(x)] for an optional string. *)
Definition append_if_truthy (o : option string) (parts : list string) : list string :=
  match o with
  | Some s => if nonempty s then parts ++ [s] else parts
  | None => parts
  end.

Definition to_string (it : ConversationItem) : string :=
  let tag := time_tag it in
  if startswith KEYFRAME_PREFIX (text it) then
    let '(header, sep, rest) := partition_nl (text it) in
    let header_body := lstrip (drop (String.length KEYFRAME_PREFIX) header) in
    let new_header_parts := [KEYFRAME_PREFIX] in
    let new_header_parts := append_if_truthy tag new_header_parts in
    let new_header_parts := append_if_truthy (Some header_body) new_header_parts in
    let new_header := join " " new_header_parts in
    if sep then new_header +:+ String newline rest else new_header
  else
    let chunks := append_if_truthy tag [] in
    let chunks :=
      match speaker it with
      | Some sp => chunks ++ ["[speaker:" +:+ sp +:+ "]"]
      | None => chunks
      end in
    join " " (chunks ++ [text it]).

(** *** Ordering generated by [@dataclass(order=True)]

    [__lt__] compares the tuples of all fields in declaration order.  Python
    compares two tuples by finding the first position whose elements are not
    [==] and applying [<] there; [None < x] raises [TypeError]. *)

(** One position of a tuple comparison. *)
Inductive step : Type :=
| Same                      (* elements are equal, go on *)
| Decided (r : Py.result bool).  (* first difference: the value of [<] *)

Definition str_step (a b : string) : step :=
  if String.eqb a b then Same
  else Decided (Py.Ok (match String.compare a b with Lt => true | _ => false end)).

Definition num_step (a b : Z) : step :=
  if a =? b then Same else Decided (Py.Ok (a <? b)).

Definition opt_step {A : Type} (f : A -> A -> step) (a b : option A) : step :=
  match a, b with
  | None, None => Same
  | Some x, Some y => f x y
  | _, _ => Decided (Py.Raise Py.TypeError)
  end.

(** Chaining positions: the first one that decides, decides. *)
Definition then_step (s : step) (k : step) : step :=
  match s with Same => k | Decided r => Decided r end.

Definition word_step (a b : ConversationWord) : step :=
  then_step (str_step (w_text a) (w_text b))
  (then_step (opt_step num_step (w_start_time a) (w_start_time b))
             (opt_step num_step (w_end_time a) (w_end_time b))).

(** [list.__lt__]: element-wise, then the shorter list is the smaller. *)
Fixpoint words_step (a b : list ConversationWord) : step :=
  match a, b with
  | [], [] => Same
  | [], _ :: _ => Decided (Py.Ok true)
  | _ :: _, [] => Decided (Py.Ok false)
  | x :: a', y :: b' => then_step (word_step x y) (words_step a' b')
  end.

Definition item_step (a b : ConversationItem) : step :=
  then_step (str_step (text a) (text b))
  (then_step (opt_step num_step (start_time a) (start_time b))
  (then_step (opt_step num_step (end_time a) (end_time b))
  (then_step (opt_step num_step (speaker_id a) (speaker_id b))
  (then_step (opt_step str_step (speaker a) (speaker b))
             (words_step (words a) (words b)))))).

(** [a < b] on conversation items ([ConversationItem.__lt__]). *)
Definition item_lt (a b : ConversationItem) : Py.result bool :=
  match item_step a b with
  | Same => Py.Ok false
  | Decided r => r
  end.

End Types.

(** ** types.py, with the time fields as Python numbers

    The annotation [Optional[float]] of the time fields admits [int] and
    [float], and [_parse_items] stores the number of the JSON answer as it
    came.  [Types] above is the case of integral time stamps, which is what
    [describe_frames] builds; here [_format_ms] and [to_string] are modelled
    on every number, with the conversion [int(ms)] they start with. *)
Module NumTypes.
Import PyStr.

(** A Python [float]: a finite one is the rational it denotes. *)
Inductive pyfloat : Type :=
| Finite (q : Q)
| Infinite (negative : bool)
| NaN.

Inductive number : Type :=
| Int (z : Z)
| Float (f : pyfloat).

(** [int(x)]: a float is truncated towards zero; [nan] raises [ValueError]
    and an infinity [OverflowError]. *)
Definition int (x : number) : Py.result Z :=
  match x with
  | Int z => Py.Ok z
  | Float (Finite q) => Py.Ok (Z.quot (Qnum q) (Z.pos (Qden q)))
  | Float (Infinite _) => Py.Raise Py.OverflowError
  | Float NaN => Py.Raise Py.ValueError
  end.

(** [_format_ms]: [divmod] is floor division, as [Z.div] and [Z.modulo] are
    for a positive divisor. *)
Definition _format_ms (ms : option number) : Py.result string :=
  match ms with
  | None => Py.Ok "--:--:--.---"
  | Some ms =>
      let* ms_int := int ms in
      let seconds := ms_int / 1000 in
      let millis := ms_int mod 1000 in
      let minutes := seconds / 60 in
      let seconds := seconds mod 60 in
      let hours := minutes / 60 in
      let minutes := minutes mod 60 in
      Py.Ok (zero_pad 2 hours +:+ ":" +:+ zero_pad 2 minutes +:+ ":" +:+
             zero_pad 2 seconds +:+ "." +:+ zero_pad 3 millis)
  end.

Record ConversationWord := mkWord {
  w_text : string;
  w_start_time : option number;
  w_end_time : option number
}.

Record ConversationItem := mkItem {
  text : string;
  start_time : option number;
  end_time : option number;
  speaker_id : option Z;
  speaker : option string;
  words : list ConversationWord
}.

(** The [time_tag] local of [to_string]: set only when both bounds are; the
    two calls of [_format_ms] are made from left to right. *)
Definition time_tag (it : ConversationItem) : Py.result (option string) :=
  match start_time it, end_time it with
  | Some s, Some e =>
      let* fs := _format_ms (Some s) in
      let* fe := _format_ms (Some e) in
      Py.Ok (Some ("[time: " +:+ fs +:+ "-" +:+ fe +:+ "]"))
  | _, _ => Py.Ok None
  end.

(** [if x: parts.append(x)] for an optional string. *)
Definition append_if_truthy (o : option string) (parts : list string) : list string :=
  match o with
  | Some s => if nonempty s then parts ++ [s] else parts
  | None => parts
  end.

Definition to_string (it : ConversationItem) : Py.result string :=
  let* tag := time_tag it in
  if startswith Types.KEYFRAME_PREFIX (text it) then
    let '(header, sep, rest) := partition_nl (text it) in
    let header_body := lstrip (drop (String.length Types.KEYFRAME_PREFIX) header) in
    let new_header_parts := [Types.KEYFRAME_PREFIX] in
    let new_header_parts := append_if_truthy tag new_header_parts in
    let new_header_parts := append_if_truthy (Some header_body) new_header_parts in
    let new_header := join " " new_header_parts in
    Py.Ok (if sep then new_header +:+ String newline rest else new_header)
  else
    let chunks := append_if_truthy tag [] in
    let chunks :=
      match speaker it with
      | Some sp => chunks ++ ["[speaker:" +:+ sp +:+ "]"]
      | None => chunks
      end in
    Py.Ok (join " " (chunks ++ [text it])).

End NumTypes.

(** ** [sorted] *)
Module PySort.

Section Sorted.
Context {A : Type} (lt : A -> A -> Py.result bool).

(** Insertion of [x] in front of a sorted run: [x] goes before the first
    element that is not smaller than it, so equal elements keep their
    order.  Only [<] is asked, as [list.sort] does. *)
Fixpoint insert (x : A) (l : list A) : Py.result (list A) :=
  match l with
  | [] => Py.Ok [x]
  | y :: r =>
      let* b := lt y x in
      if b then (let* r' := insert x r in Py.Ok (y :: r'))
      else Py.Ok (x :: y :: r)
  end.

(** [sorted(l)]: a stable sort; a comparison that raises aborts it.  The
    comparisons asked are those of an insertion sort: for two elements the
    single one [list.sort] asks, and for longer lists the same result
    whenever no comparison raises and [lt] is a strict weak order. *)
Fixpoint sorted (l : list A) : Py.result (list A) :=
  match l with
  | [] => Py.Ok []
  | x :: r => let* r' := sorted r in insert x r'
  end.
End Sorted.

End PySort.

(** ** pipelines/document_builder.py *)
Module DocumentBuilder.
Import PyStr Types.

(** The arguments of the call [DocumentOrigin(filename=..., mimetype=...,
    binary_hash=...)].  What the class of docling_core makes of them (it
    checks the MIME type and reads the digest as a number) is not modelled. *)
Record DocumentOrigin := mkOrigin {
  o_filename : string;
  o_mimetype : string;
  o_binary_hash : string
}.

(** The part of [DoclingDocument] the builder fills: name, origin and the
    text items in the order [add_text] was called. *)
Record DoclingDocument := mkDoc {
  d_name : string;
  d_origin : DocumentOrigin;
  d_texts : list string
}.

Definition build_docling_document
    (filename mimetype binary_hash : string)
    (conversation : list ConversationItem)
    (summary : option string) : Py.result DoclingDocument :=
  let origin := mkOrigin filename mimetype binary_hash in
  let head :=
    match summary with
    | Some s => if nonempty s then ["[summary] " +:+ strip s] else []
    | None => []
    end in
  let* ordered := PySort.sorted item_lt conversation in
  Py.Ok (mkDoc filename origin (head ++ map to_string ordered)).

End DocumentBuilder.

(** ** The world the pipeline acts on

    Files that exist and the trace of calls to external collaborators; every
    effectful function of the sources is a state transformer that returns a
    Python outcome. *)
Module Eff.

Inductive event : Type :=
| Subprocess (cmd : list string)       (* [subprocess.run(cmd, ...)] of the conversion *)
| SpeechToText (wav : string)          (* a call of the speech provider *)
| VisualFallback (filename : string).  (* the keyframe branch was entered *)

Record world := mkWorld {
  files : gset string;
  trace : list event
}.

Definition M (A : Type) : Type := world -> Py.result A * world.

Definition ret {A : Type} (a : A) : M A := fun w => (Py.Ok a, w).
Definition raise {A : Type} (e : Py.exn) : M A := fun w => (Py.Raise e, w).

Definition bind {A B : Type} (m : M A) (k : A -> M B) : M B :=
  fun w =>
    match m w with
    | (Py.Ok a, w') => k a w'
    | (Py.Raise e, w') => (Py.Raise e, w')
    end.

(** [try: m  except <handled>: h]: the handler says which exceptions it takes. *)
Definition catch {A : Type} (m : M A) (h : Py.exn -> option (M A)) : M A :=
  fun w =>
    match m w with
    | (Py.Ok a, w') => (Py.Ok a, w')
    | (Py.Raise e, w') =>
        match h e with
        | Some k => k w'
        | None => (Py.Raise e, w')
        end
    end.

(** [try: m  finally: c]: [c] sees the outcome and runs on every exit. *)
Definition finally {A : Type} (m : M A) (c : Py.result A -> M unit) : M A :=
  fun w =>
    let '(r, w') := m w in
    match c r w' with
    | (Py.Ok _, w'') => (r, w'')
    | (Py.Raise e, w'') => (Py.Raise e, w'')
    end.

Definition lift {A : Type} (r : Py.result A) : M A := fun w => (r, w).

(** A temporary file is created under the name the system picked. *)
Definition create_file (name : string) : M string :=
  fun w => (Py.Ok name, mkWorld ({[name]} ∪ files w) (trace w)).

(** [p.unlink(missing_ok=True)] *)
Definition unlink (p : string) : M unit :=
  fun w => (Py.Ok tt, mkWorld (files w ∖ {[p]}) (trace w)).

Definition emit (e : event) : M unit :=
  fun w => (Py.Ok tt, mkWorld (files w) (trace w ++ [e])).

End Eff.

Notation "'let+' x ':=' c 'in' k" := (Eff.bind c (fun x => k))
  (at level 10, x name, c at level 100, k at level 200).

(** ** pathlib *)
Module PyPath.
Import PyStr.

Fixpoint split_on (sep : ascii) (s : string) : list string :=
  match s with
  | EmptyString => [EmptyString]
  | String c r =>
      if Ascii.eqb c sep then EmptyString :: split_on sep r
      else
        match split_on sep r with
        | h :: t => String c h :: t
        | [] => [String c EmptyString]
        end
  end.

(** The components [PurePosixPath] keeps: empty ones and ["."] are dropped. *)
Definition kept_part (p : string) : bool :=
  negb (String.eqb p "") && negb (String.eqb p ".").

(** [Path(p).name]: the last component, [""] when there is none. *)
Definition name (p : string) : string :=
  List.last (List.filter kept_part (split_on "/" p)) "".

(** The tail of [s] that starts at its last dot. *)
Fixpoint last_dot_tail (s : string) : option string :=
  match s with
  | EmptyString => None
  | String c r =>
      match last_dot_tail r with
      | Some t => Some t
      | None => if Ascii.eqb c "." then Some s else None
      end
  end.

(** [Path(p).suffix]: [name[i:]] for [i = name.rfind(".")] when
    [0 < i < len(name) - 1], else [""] (pathlib up to Python 3.13; later
    versions differ only on names that end in a dot). *)
Definition suffix (p : string) : string :=
  match name p with
  | EmptyString => ""
  | String _ r =>
      match last_dot_tail r with
      | Some t => if (1 <? String.length t)%nat then t else ""
      | None => ""
      end
  end.

End PyPath.

(** ** media/audio.py *)
Module Audio.
Import PyStr Eff.

Definition _NO_AUDIO_ERROR_MARKERS : list string :=
  ["Output file does not contain any stream";
   "Stream specifier ':a'";
   "matches no streams"].

(** What [subprocess.run] reports back. *)
Record CompletedProcess := mkProcess {
  returncode : Z;
  stderr : string
}.

Definition ffmpeg_cmd (source tmp : string) : list string :=
  ["ffmpeg"; "-i"; source; "-ac"; "1"; "-ar"; "16000"; tmp; "-y"].

(** [ensure_wav_audio source]: [tmp] is the name [tempfile.mkstemp] picks and
    [run] the conversion process, both consulted only when they are in the
    source. *)
Definition ensure_wav_audio
    (tmp : string) (run : list string -> CompletedProcess)
    (source : string) : M string :=
  if String.eqb (lower (PyPath.suffix source)) ".wav" then ret source
  else
    let+ tmp := create_file tmp in
    let cmd := ffmpeg_cmd source tmp in
    let+ _ := emit (Subprocess cmd) in
    let process := run cmd in
    if negb (returncode process =? 0) then
      let+ _ := unlink tmp in
      let stderr_lower := lower (stderr process) in
      if existsb (fun marker => contains (lower marker) stderr_lower)
                 _NO_AUDIO_ERROR_MARKERS
      then raise (Py.NoAudioStreamError ("No audio stream found in file: " +:+ source))
      else raise (Py.RuntimeError ("ffmpeg conversion failed: " +:+ stderr process))
    else ret tmp.

End Audio.

(** ** media/video.py *)
Module Video.

(** Python slices. *)
Section Slices.
Context {A : Type}.

(** [l[::step]] for [1 <= step]: [skip] elements are passed over before the
    next one is kept. *)
Fixpoint every_nth (step skip : nat) (l : list A) : list A :=
  match l with
  | [] => []
  | x :: r =>
      match skip with
      | O => x :: every_nth step (step - 1) r
      | S k => every_nth step k r
      end
  end.

Definition slice_step (step : nat) (l : list A) : list A := every_nth step 0 l.

(** [l[:m]]: a negative bound counts from the end. *)
Definition slice_to (m : Z) (l : list A) : list A :=
  if m <? 0 then take (Z.to_nat (Z.of_nat (length l) + m)) l
  else take (Z.to_nat m) l.
End Slices.

(** One run of the external frame extraction: the time stamps parsed from
    its diagnostic stream by [_parse_pts] and the frame files found by the
    sorted [glob]; a non-zero exit raises [RuntimeError]. *)
Record ffmpeg_pass (T : Type) := mkPass {
  p_timestamps : list T;
  p_frames : list string
}.
Arguments mkPass {T} _ _.
Arguments p_timestamps {T} _.
Arguments p_frames {T} _.

Section Keyframes.
(** The type of Python floats (seconds); nothing is computed on them here. *)
Context {T : Type}.

(** Pairing of frames and time stamps, with the protective clamp. *)
Definition pair_frames (frames : list string) (timestamps : list T)
    : list (string * T) :=
  let pairs := zip frames timestamps in
  if (length frames =? length timestamps)%nat then pairs
  else
    let n := Nat.min (length frames) (length timestamps) in
    zip (take n frames) (take n timestamps).

(** The downsampling step: [if len(pairs) > max_frames: ...]. *)
Definition downsample (pairs : list (string * T)) (max_frames : Z)
    : Py.result (list (string * T)) :=
  let n := Z.of_nat (length pairs) in
  if max_frames <? n then
    if max_frames =? 0 then Py.Raise Py.ZeroDivisionError
    else
      let step := Z.max 1 (n / max_frames) in
      Py.Ok (slice_to max_frames (slice_step (Z.to_nat step) pairs))
  else Py.Ok pairs.

(** [extract_keyframes_with_timestamps]: [source_exists] is what
    [source.exists()] finds, [scene] is the scene-change pass, [uniform] the
    outcomes of the uniform-sampling passes in the order they are run.  The
    directory made by [mkdtemp] and the frame files in it are seen through
    these outcomes only. *)
Definition extract_keyframes_with_timestamps
    (source_exists : bool)
    (scene : Py.result (ffmpeg_pass T))
    (uniform1 uniform2 : Py.result (ffmpeg_pass T))
    (max_frames : Z) : Py.result (list (string * T)) :=
  let* _ := if negb source_exists then Py.Raise Py.FileNotFoundError else Py.Ok tt in
  let* first :=
    match scene with
    | Py.Ok r => Py.Ok (r, false)
    | Py.Raise (Py.RuntimeError _) =>
        let* r := uniform1 in Py.Ok (r, true)
    | Py.Raise e => Py.Raise e
    end in
  let '(r, used_uniform) := first in
  let* r :=
    match p_frames r with
    | [] => if used_uniform then uniform2 else uniform1
    | _ :: _ => Py.Ok r
    end in
  match p_frames r with
  | [] => Py.Ok []
  | _ :: _ => downsample (pair_frames (p_frames r) (p_timestamps r)) max_frames
  end.
End Keyframes.

End Video.

(** ** Reading files *)
Module Files.

(** What [open(p, "rb")] finds: a file that cannot be opened, or one whose
    reads return [content], the read call number [fail_at] (from 0) raising
    [OSError] when set. *)
Inductive file_state : Type :=
| Unopenable
| Opens (content : list byte) (fail_at : option nat).

Definition inspect {A : Type} (a : A) : {b : A | a = b} := exist _ a eq_refl.

Lemma read_shrinks {A : Type} (n : nat) (rest : list A) c cs :
  take n rest = c :: cs -> (length (drop n rest) < length rest)%nat.
Proof.
  intros Hc. destruct n; [rewrite take_0 in Hc; discriminate|].
  destruct rest; [discriminate|]. rewrite length_drop. simpl. lia.
Qed.

(** [for chunk in iter(lambda: handle.read(size), b""): hasher.update(chunk)]
    with the hasher as the bytes fed to it so far; [k] counts the reads. *)
Equations read_loop (size : nat) (fail_at : option nat) (k : nat)
    (rest : list byte) (hasher : list byte) : Py.result (list byte)
    by wf (length rest) lt :=
  read_loop size fail_at k rest hasher with decide (fail_at = Some k) := {
    | left _ => Py.Raise Py.OSError
    | right _ with inspect (take size rest) := {
        | exist _ [] _ => Py.Ok hasher
        | exist _ (c :: cs) Hc =>
            read_loop size fail_at (S k) (drop size rest) (hasher ++ c :: cs) } }.
Next Obligation. eapply read_shrinks; eassumption. Qed.

(** [handle.read()]: the whole content in one read. *)
Definition read_whole (f : file_state) : Py.result (list byte) :=
  match f with
  | Unopenable => Py.Raise Py.OSError
  | Opens content fail_at =>
      if decide (fail_at = Some 0%nat) then Py.Raise Py.OSError else Py.Ok content
  end.

End Files.

(** ** pipelines/asr_pipeline.py *)
Module Pipeline.
Import PyStr Types Eff Files.

Definition VIDEO_EXTENSIONS : list string :=
  [".mp4"; ".mov"; ".avi"; ".mkv"; ".webm"].

(** [_is_video_file] *)
Definition _is_video_file (filename : option string) : bool :=
  match filename with
  | None => false
  | Some f =>
      if nonempty f
      then existsb (fun ext => endswith ext (lower f)) VIDEO_EXTENSIONS
      else false
  end.

Inductive path_or_stream : Type :=
| IsPath (p : string)
| IsBytesIO (data : list byte).

Record BackendResult := mkBackend {
  b_input : path_or_stream;
  b_filename : string
}.

(** [str.encode("utf-8", "ignore")] on the 8-bit strings of the model. *)
Definition encode (s : string) : list byte := list_byte_of_string s.

Definition CHUNK : nat := N.to_nat 1048576.

Section Pipeline.
(** Python floats (keyframe time stamps in seconds) stay abstract. *)
Context {T : Type}.
(** [hashlib.sha256(data).hexdigest()] *)
Variable sha256_hex : list byte -> string.

(** models/base.py: the provider interfaces. *)
Record SpeechToTextProvider := mkSpeech {
  transcribe_path : string -> string -> Py.result (list ConversationItem);
  transcribe_bytes :
    list byte -> string -> string -> Py.result (list ConversationItem)
}.

Record ImageCaptionProvider := mkVision {
  describe_frames : list (string * T) -> Py.result (list ConversationItem)
}.

Record AsrPipelineLite := mkPipeline {
  provider : SpeechToTextProvider;
  vision_provider : option ImageCaptionProvider
}.

(** [_init_default_vision_provider]: [made] is what [AliyunVisionClient()]
    does; both [except] clauses end in [return None]. *)
Definition _init_default_vision_provider
    (made : Py.result ImageCaptionProvider) : option ImageCaptionProvider :=
  match made with
  | Py.Ok v => Some v
  | Py.Raise _ => None
  end.

(** [AsrPipelineLite.__init__]: the defaults are built only when the
    argument is missing. *)
Definition new_pipeline
    (provider_arg : option SpeechToTextProvider)
    (vision_arg : option ImageCaptionProvider)
    (default_provider : Py.result SpeechToTextProvider)
    (default_vision : Py.result ImageCaptionProvider)
    : Py.result AsrPipelineLite :=
  let* p :=
    match provider_arg with
    | Some p => Py.Ok p
    | None => default_provider
    end in
  let v :=
    match vision_arg with
    | Some v => Some v
    | None => _init_default_vision_provider default_vision
    end in
  Py.Ok (mkPipeline p v).

(** What the run finds outside the program. *)
Record environment := mkEnv {
  env_file : string -> file_state;
  env_mkstemp : string;                       (* [tempfile.mkstemp(suffix=".wav")] *)
  env_named_temp : string -> string;          (* [NamedTemporaryFile(suffix=...)] *)
  env_ffmpeg : list string -> Audio.CompletedProcess;
  env_scene : Py.result (Video.ffmpeg_pass T);
  env_uniform1 : Py.result (Video.ffmpeg_pass T);
  env_uniform2 : Py.result (Video.ffmpeg_pass T)
}.

Variable env : environment.

(** media/backend.py, [validate_input]. *)
Definition validate_input (input : path_or_stream) (filename : option string)
    : M BackendResult :=
  match input with
  | IsPath p =>
      fun w =>
        if decide (p ∈ files w)
        then (Py.Ok (mkBackend (IsPath p) (PyPath.name p)), w)
        else (Py.Raise Py.FileNotFoundError, w)
  | IsBytesIO data =>
      match filename with
      | Some f =>
          if nonempty f then
            match data with
            | [] => raise Py.ValueError
            | _ :: _ => ret (mkBackend (IsBytesIO data) f)
            end
          else raise Py.ValueError
      | None => raise Py.ValueError
      end
  end.

(** [_compute_binary_hash]: every exception of the [try] block ends in the
    hash of the file name. *)
Definition _compute_binary_hash (backend_result : BackendResult) : string :=
  let fed :=
    match b_input backend_result with
    | IsPath p =>
        match env_file env p with
        | Unopenable => Py.Raise Py.OSError
        | Opens content fail_at => read_loop CHUNK fail_at 0 content []
        end
    | IsBytesIO data => Py.Ok ([] ++ data)
    end in
  match fed with
  | Py.Ok hasher => sha256_hex hasher
  | Py.Raise _ => sha256_hex (encode (b_filename backend_result))
  end.

(** [_write_temp_file] *)
Definition _write_temp_file (filename : string) : M string :=
  let suffix :=
    if nonempty (PyPath.suffix filename) then PyPath.suffix filename else ".bin" in
  create_file (env_named_temp env suffix).

(** [_prepare_wav_artifact] *)
Definition _prepare_wav_artifact (backend_result : BackendResult)
    : M (option string) :=
  let+ temp_source :=
    match b_input backend_result with
    | IsPath _ => ret None
    | IsBytesIO _ =>
        let+ t := _write_temp_file (b_filename backend_result) in ret (Some t)
    end in
  let source_path :=
    match b_input backend_result, temp_source with
    | IsPath p, _ => p
    | IsBytesIO _, Some t => t
    | IsBytesIO _, None => ""
    end in
  finally
    (catch
       (let+ wav_path :=
          Audio.ensure_wav_audio (env_mkstemp env) (env_ffmpeg env) source_path in
        ret (Some wav_path))
       (fun e =>
          match e with
          | Py.NoAudioStreamError _ => Some (ret None)
          | _ => None
          end))
    (fun outcome =>
       let wav_path := match outcome with Py.Ok o => o | Py.Raise _ => None end in
       match temp_source with
       | Some t =>
           match wav_path with
           | None => unlink t
           | Some wp => if String.eqb wp t then ret tt else unlink t
           end
       | None => ret tt
       end).

Variable self : AsrPipelineLite.

(** [_should_use_visual_fallback] *)
Definition _should_use_visual_fallback
    (is_video_file : bool) (conversation : list ConversationItem) : bool :=
  is_video_file
  && match conversation with [] => true | _ :: _ => false end
  && match vision_provider self with Some _ => true | None => false end.

(** [_describe_video_frames]: [except Exception] turns every failure of
    the block into an empty result.  Of the files the block handles, [world]
    follows the temporary copy of the input only: the directory of frames
    that the extraction makes and leaves behind, and its runs of ffmpeg, are
    seen through [env_scene], [env_uniform1] and [env_uniform2] and are
    recorded neither in [files] nor in [trace]. *)
Definition _describe_video_frames (backend_result : BackendResult)
    : M (list ConversationItem) :=
  match vision_provider self with
  | None => ret []
  | Some vp =>
      let+ temp_source :=
        match b_input backend_result with
        | IsPath _ => ret None
        | IsBytesIO _ =>
            let+ t := _write_temp_file (b_filename backend_result) in ret (Some t)
        end in
      let video_path :=
        match b_input backend_result, temp_source with
        | IsPath p, _ => p
        | IsBytesIO _, Some t => t
        | IsBytesIO _, None => ""
        end in
      finally
        (catch
           (let+ source_exists :=
              (fun w => (Py.Ok (bool_decide (video_path ∈ files w)), w)) in
            let+ frames :=
              lift (Video.extract_keyframes_with_timestamps source_exists
                      (env_scene env) (env_uniform1 env) (env_uniform2 env) 16) in
            match frames with
            | [] => ret []
            | _ :: _ => lift (describe_frames vp frames)
            end)
           (fun _ => Some (ret [])))
        (fun _ =>
           match temp_source with
           | Some t => unlink t
           | None => ret tt
           end)
  end.

Record TranscriptionResult := mkResult {
  document : DocumentBuilder.DoclingDocument;
  audio_path : option string
}.

(** The first half of [transcribe_with_artifacts]: input validation, WAV
    preparation and the speech-to-text stage. *)
Definition speech_stage
    (input : path_or_stream) (filename : option string) (language : string)
    : M (BackendResult * option string * list ConversationItem) :=
  let+ backend_result := validate_input input filename in
  let+ wav_path := _prepare_wav_artifact backend_result in
  let+ conversation :=
    match wav_path with
    | None => ret []
    | Some wav =>
        match b_input backend_result with
        | IsPath _ =>
            let+ _ := emit (SpeechToText wav) in
            lift (transcribe_path (provider self) wav language)
        | IsBytesIO _ =>
            let+ wav_bytes := lift (read_whole (env_file env wav)) in
            let+ _ := emit (SpeechToText wav) in
            lift (transcribe_bytes (provider self) wav_bytes
                    (b_filename backend_result) language)
        end
    end in
  ret (backend_result, wav_path, conversation).

(** [transcribe_with_artifacts] *)
Definition transcribe_with_artifacts
    (input : path_or_stream) (filename : option string)
    (language : string) (summary : option string) : M TranscriptionResult :=
  let+ staged := speech_stage input filename language in
  let '(backend_result, wav_path, conversation) := staged in
  let binary_hash := _compute_binary_hash backend_result in
  let is_video_file := _is_video_file (Some (b_filename backend_result)) in
  let+ conversation :=
    if _should_use_visual_fallback is_video_file conversation then
      let+ _ := emit (VisualFallback (b_filename backend_result)) in
      let+ visual_items := _describe_video_frames backend_result in
      ret (conversation ++ visual_items)
    else ret conversation in
  let mimetype := if is_video_file then "video/mp4" else "audio/wav" in
  let+ doc :=
    lift (DocumentBuilder.build_docling_document
            (b_filename backend_result) mimetype binary_hash conversation summary) in
  ret (mkResult doc wav_path).

End Pipeline.

End Pipeline.

(** ** JSON values as Python objects *)
Module Json.
Import PyStr.

(** What [json.loads] builds.  [JNull] is Python's [None]; a float is the
    rational it denotes; a dict is its items in insertion order, with
    distinct keys. *)
#[local] Unset Elimination Schemes.
Inductive json : Type :=
| JNull
| JBool (b : bool)
| JInt (z : Z)
| JFloat (q : Q)
| JStr (s : string)
| JList (l : list json)
| JDict (items : list (string * json)).
#[local] Set Elimination Schemes.

(** [bool(v)] *)
Definition truthy (v : json) : bool :=
  match v with
  | JNull => false
  | JBool b => b
  | JInt z => negb (z =? 0)
  | JFloat q => negb (Qeq_bool q 0)
  | JStr s => nonempty s
  | JList l => match l with [] => false | _ :: _ => true end
  | JDict m => match m with [] => false | _ :: _ => true end
  end.

(** [a or b] *)
Definition py_or (a b : json) : json := if truthy a then a else b.

Fixpoint lookup (key : string) (items : list (string * json)) : option json :=
  match items with
  | [] => None
  | (k, v) :: rest => if String.eqb k key then Some v else lookup key rest
  end.

(** [v.get(key)]: only a dict has [get]. *)
Definition get (v : json) (key : string) : Py.result json :=
  match v with
  | JDict items =>
      Py.Ok (match lookup key items with Some x => x | None => JNull end)
  | _ => Py.Raise Py.AttributeError
  end.

(** [v.get(key, default)] *)
Definition get_default (v : json) (key : string) (default : json) : Py.result json :=
  match v with
  | JDict items =>
      Py.Ok (match lookup key items with Some x => x | None => default end)
  | _ => Py.Raise Py.AttributeError
  end.

(** [for x in v]: lists give their elements, strings their characters,
    dicts their keys; nothing else is iterable. *)
Definition iterate (v : json) : Py.result (list json) :=
  match v with
  | JList l => Py.Ok l
  | JStr s => Py.Ok (map (fun c => JStr (String c EmptyString)) (list_ascii_of_string s))
  | JDict items => Py.Ok (map (fun kv => JStr kv.1) items)
  | _ => Py.Raise Py.TypeError
  end.

(** [hash(v)] succeeds: lists and dicts are unhashable. *)
Definition hashable (v : json) : bool :=
  match v with JList _ | JDict _ => false | _ => true end.

End Json.

(** ** HTTP exchanges *)
Module Net.

(** What the program does towards the network and the clock. *)
Inductive event : Type :=
| Post (attempt : Z)        (* [requests.post], in the given attempt *)
| Sleep (seconds : Z).      (* [time.sleep] *)

Record Response := mkResponse {
  status_code : Z;
  body_text : string;
  body_json : option Json.json     (* [None]: [response.json()] cannot decode *)
}.

(** The outcome of one [requests.post]. *)
Inductive exchange : Type :=
| NetworkError (msg : string)      (* a [RequestException] *)
| Answer (r : Response).

(** A computation with its log. *)
Definition W (A : Type) : Type := Py.result A * list event.

Definition ret {A : Type} (a : A) : W A := (Py.Ok a, []).
Definition raise {A : Type} (e : Py.exn) : W A := (Py.Raise e, []).
Definition lift {A : Type} (r : Py.result A) : W A := (r, []).
Definition emit (e : event) : W unit := (Py.Ok tt, [e]).

Definition bind {A B : Type} (m : W A) (k : A -> W B) : W B :=
  match m with
  | (Py.Ok a, log) => let '(r, log') := k a in (r, log ++ log')
  | (Py.Raise e, log) => (Py.Raise e, log)
  end.

(** [try: m  except <handled>: h] *)
Definition catch {A : Type} (m : W A) (h : Py.exn -> option (W A)) : W A :=
  match m with
  | (Py.Ok a, log) => (Py.Ok a, log)
  | (Py.Raise e, log) =>
      match h e with
      | Some k => let '(r, log') := k in (r, log ++ log')
      | None => (Py.Raise e, log)
      end
  end.

Definition posts (log : list event) : list Z :=
  omap (fun e => match e with Post a => Some a | Sleep _ => None end) log.

Definition sleeps (log : list event) : list Z :=
  omap (fun e => match e with Sleep s => Some s | Post _ => None end) log.

End Net.

Notation "'let^' x ':=' c 'in' k" := (Net.bind c (fun x => k))
  (at level 10, x name, c at level 100, k at level 200).

(** ** models/aliyun_bailian.py *)
Module Asr.
Import PyStr Json Net.

Record AliyunBailianSettings := mkAsrSettings {
  api_key : option string;
  retries : Z
}.

(** [AliyunBailianAsrClient.__init__] *)
Definition new_client (settings : AliyunBailianSettings)
    : Py.result AliyunBailianSettings :=
  match api_key settings with
  | Some k =>
      if nonempty k then Py.Ok settings
      else Py.Raise (Py.AsrServiceError "Aliyun Bailian API key is missing.")
  | None => Py.Raise (Py.AsrServiceError "Aliyun Bailian API key is missing.")
  end.

(** The arguments [_parse_items] hands to the dataclass constructors.  The
    constructors do not check the annotations, so every field but the
    stripped text holds the JSON value as it came. *)
Record RawWord := mkRawWord {
  rw_text : json;
  rw_start_time : json;
  rw_end_time : json
}.

Record RawItem := mkRawItem {
  ri_text : string;
  ri_start_time : json;
  ri_end_time : json;
  ri_speaker_id : json;
  ri_speaker : json;
  ri_words : list RawWord
}.

(** [v.get(primary) or v.get(secondary)] *)
Definition alias (v : json) (primary secondary : string) : Py.result json :=
  let* a := get v primary in
  if truthy a then Py.Ok a else get v secondary.

Fixpoint mapM {A B : Type} (f : A -> Py.result B) (l : list A) : Py.result (list B) :=
  match l with
  | [] => Py.Ok []
  | x :: r =>
      let* y := f x in
      let* ys := mapM f r in
      Py.Ok (y :: ys)
  end.

Definition parse_word (word : json) : Py.result RawWord :=
  let* t := alias word "text" "word" in
  let* s := alias word "start" "start_time" in
  let* e := alias word "end" "end_time" in
  Py.Ok (mkRawWord (py_or t (JStr "")) s e).

Definition parse_segment (segment : json) : Py.result RawItem :=
  let* ws := get_default segment "words" (JList []) in
  let* wl := iterate ws in
  let* words := mapM parse_word wl in
  let* t := alias segment "text" "sentence" in
  let* text :=
    match py_or t (JStr "") with
    | JStr s => Py.Ok (strip s)
    | _ => Py.Raise Py.AttributeError
    end in
  let* s := alias segment "start" "begin_time" in
  let* e := alias segment "end" "end_time" in
  let* spk_id := alias segment "speaker_id" "speaker" in
  let* spk := get segment "speaker_label" in
  Py.Ok (mkRawItem text s e spk_id spk words).

(** [_parse_items] *)
Definition _parse_items (result : json) : Py.result (list RawItem) :=
  let* segs := alias result "segments" "sentences" in
  let* l := iterate (py_or segs (JList [])) in
  mapM parse_segment l.

(** The conversation item a raw item is when its fields have the annotated
    types (integral time stamps). *)
Definition opt_int (v : json) : option (option Z) :=
  match v with
  | JNull => Some None
  | JInt z => Some (Some z)
  | _ => None
  end.

Definition opt_str (v : json) : option (option string) :=
  match v with
  | JNull => Some None
  | JStr s => Some (Some s)
  | _ => None
  end.

Definition to_word (w : RawWord) : option Types.ConversationWord :=
  match rw_text w, opt_int (rw_start_time w), opt_int (rw_end_time w) with
  | JStr t, Some s, Some e => Some (Types.mkWord t s e)
  | _, _, _ => None
  end.

Definition to_item (it : RawItem) : option Types.ConversationItem :=
  match opt_int (ri_start_time it), opt_int (ri_end_time it),
        opt_int (ri_speaker_id it), opt_str (ri_speaker it),
        mapM (fun w => match to_word w with
                       | Some x => Py.Ok x
                       | None => Py.Raise Py.TypeError
                       end) (ri_words it) with
  | Some s, Some e, Some i, Some p, Py.Ok ws =>
      Some (Types.mkItem (ri_text it) s e i p ws)
  | _, _, _, _, _ => None
  end.

(** The same with the time fields as any JSON number: a float of the answer
    is stored as it came. *)
Definition opt_number (v : json) : option (option NumTypes.number) :=
  match v with
  | JNull => Some None
  | JInt z => Some (Some (NumTypes.Int z))
  | JFloat q => Some (Some (NumTypes.Float (NumTypes.Finite q)))
  | _ => None
  end.

Definition to_num_word (w : RawWord) : option NumTypes.ConversationWord :=
  match rw_text w, opt_number (rw_start_time w), opt_number (rw_end_time w) with
  | JStr t, Some s, Some e => Some (NumTypes.mkWord t s e)
  | _, _, _ => None
  end.

Definition to_num_item (it : RawItem) : option NumTypes.ConversationItem :=
  match opt_number (ri_start_time it), opt_number (ri_end_time it),
        opt_int (ri_speaker_id it), opt_str (ri_speaker it),
        mapM (fun w => match to_num_word w with
                       | Some x => Py.Ok x
                       | None => Py.Raise Py.TypeError
                       end) (ri_words it) with
  | Some s, Some e, Some i, Some p, Py.Ok ws =>
      Some (NumTypes.mkItem (ri_text it) s e i p ws)
  | _, _, _, _, _ => None
  end.

Section Direct.
Variable settings : AliyunBailianSettings.
(** The outcome of the [requests.post] of each attempt. *)
Variable post : Z -> exchange.

(** The [for attempt in range(1, retries + 1)] loop of
    [_transcribe_direct]: [remaining] attempts are left in the range and
    [response] is the variable of that name, unbound at first. *)
Fixpoint direct_loop (remaining : nat) (attempt : Z) (response : option Response)
    : W (option Response) :=
  match remaining with
  | O => ret response
  | S remaining' =>
      let^ _ := emit (Post attempt) in
      match post attempt with
      | Answer r =>
          if (500 <=? status_code r) && (attempt <? retries settings) then
            let^ _ := emit (Sleep (2 ^ attempt)) in
            direct_loop remaining' (attempt + 1) (Some r)
          else ret (Some r)
      | NetworkError msg =>
          if attempt <? retries settings then
            let^ _ := emit (Sleep (2 ^ attempt)) in
            direct_loop remaining' (attempt + 1) response
          else raise (Py.AsrServiceError ("Network error during transcription: " +:+ msg))
      end
  end.

(** The part of [_transcribe_direct] after the loop, where no request is
    sent any more: [response] is the loop variable.  The messages that
    would print a decoding error or an arbitrary value are cut to their
    fixed part. *)
Definition read_response (response : option Response) : Py.result (list RawItem) :=
  match response with
  | None => Py.Raise Py.UnboundLocalError
  | Some r =>
      if negb (status_code r =? 200) then
        Py.Raise (Py.AsrServiceError
                    ("Aliyun Bailian request failed with status " +:+
                     str_of_int (status_code r) +:+ ": " +:+ body_text r))
      else
        match body_json r with
        | None => Py.Raise (Py.AsrServiceError "Failed to decode JSON response")
        | Some content =>
            let* code := get content "code" in
            if negb (hashable code) then Py.Raise Py.TypeError
            else
              match code with
              | JNull | JStr "Success" =>
                  let* data := alias content "data" "output" in
                  _parse_items (py_or data (JDict []))
              | _ => Py.Raise (Py.AsrServiceError "Aliyun Bailian returned error code")
              end
        end
  end.

(** [_transcribe_direct] *)
Definition _transcribe_direct : W (list RawItem) :=
  let^ response := direct_loop (Z.to_nat (retries settings)) 1 None in
  lift (read_response response).
End Direct.

End Asr.

(** ** models/aliyun_vision.py *)
Module Vision.
Import PyStr Json Net Files Types.

Record AliyunVisionSettings := mkVisionSettings {
  api_key : option string;
  retries : Z
}.

(** [AliyunVisionClient.__init__] *)
Definition new_client (settings : AliyunVisionSettings)
    : Py.result AliyunVisionSettings :=
  match api_key settings with
  | Some k =>
      if nonempty k then Py.Ok settings
      else Py.Raise (Py.VisionServiceError "Aliyun vision API key is missing.")
  | None => Py.Raise (Py.VisionServiceError "Aliyun vision API key is missing.")
  end.

(** [isinstance(v, str) and v.strip()] *)
Definition usable_text (v : json) : option string :=
  match v with
  | JStr s => if nonempty (strip s) then Some s else None
  | _ => None
  end.

Definition field (items : list (string * json)) (key : string) : json :=
  match lookup key items with Some x => x | None => JNull end.

(** The first element of a list for which [f] finds a text. *)
Fixpoint first_text {A : Type} (f : A -> option string) (l : list A) : option string :=
  match l with
  | [] => None
  | x :: r => match f x with Some t => Some t | None => first_text f r end
  end.

Definition or_else (a b : option string) : option string :=
  match a with Some t => Some t | None => b end.

Definition block_text (block : json) : option string :=
  match block with
  | JDict b => usable_text (field b "text")
  | _ => None
  end.

Definition message_text (message : json) : option string :=
  match message with
  | JDict m =>
      or_else
        match field m "content" with
        | JList blocks => first_text block_text blocks
        | _ => None
        end
        (usable_text (field m "text"))
  | _ => None
  end.

Definition choice_text (choice : json) : option string :=
  match choice with
  | JDict c => or_else (message_text (field c "message")) (usable_text (field c "text"))
  | _ => None
  end.

(** [_extract_text] *)
Definition _extract_text (payload : json) : Py.result string :=
  match payload with
  | JDict p =>
      let output := field p "output" in
      let from_output :=
        match output with
        | JDict o =>
            or_else
              match field o "choices" with
              | JList choices => first_text choice_text choices
              | _ => None
              end
              (usable_text (field o "text"))
        | _ => usable_text output
        end in
      Py.Ok match or_else from_output (usable_text (field p "output_text")) with
            | Some t => t
            | None => ""
            end
  | _ => Py.Raise Py.AttributeError
  end.

Section Client.
(** Python floats (seconds), with the two operations applied to them:
    [int(t * 1000)] and [f"{t:.3f}"]. *)
Context {T : Type}.
Variable to_ms : T -> Z.
Variable fmt3 : T -> string.
Variable settings : AliyunVisionSettings.

(** [_post_with_retry], for the exchanges [post] of one request. *)
Fixpoint post_loop (post : Z -> exchange) (remaining : nat) (attempt : Z) : W json :=
  match remaining with
  | O => raise (Py.VisionServiceError "Aliyun vision request exhausted retries")
  | S remaining' =>
      let^ _ := emit (Post attempt) in
      match post attempt with
      | NetworkError msg =>
          if retries settings <=? attempt then
            raise (Py.VisionServiceError ("Network error during vision request: " +:+ msg))
          else
            let^ _ := emit (Sleep (2 ^ attempt)) in
            post_loop post remaining' (attempt + 1)
      | Answer r =>
          if negb (status_code r =? 200) then
            if (500 <=? status_code r) && (attempt <? retries settings) then
              let^ _ := emit (Sleep (2 ^ attempt)) in
              post_loop post remaining' (attempt + 1)
            else
              raise (Py.VisionServiceError
                       ("Aliyun vision request failed with status " +:+
                        str_of_int (status_code r) +:+ ": " +:+ body_text r))
          else
            match body_json r with
            | Some data => ret data
            | None => raise (Py.VisionServiceError "Failed to decode vision response JSON")
            end
      end
  end.

Definition _post_with_retry (post : Z -> exchange) : W json :=
  post_loop post (Z.to_nat (retries settings)) 1.

(** [_describe_single_frame]: [frame] is what opening the frame file
    finds ([_build_payload] reads it). *)
Definition _describe_single_frame (frame : file_state) (post : Z -> exchange)
    : W string :=
  let^ image_bytes := lift (read_whole frame) in
  let^ response_data := _post_with_retry post in
  let^ raw := lift (_extract_text response_data) in
  let text := strip raw in
  if nonempty text then ret text
  else raise (Py.VisionServiceError "Aliyun vision response did not include text output").

(** [_wrap_keyframe_text] *)
Definition _wrap_keyframe_text (description : string) (timestamp_sec : T) (index : Z)
    : string :=
  let meta := "frame=" +:+ str_of_int index +:+ ";time=" +:+ fmt3 timestamp_sec +:+ "s" in
  KEYFRAME_PREFIX +:+ meta +:+ String newline description +:+
  String newline KEYFRAME_SUFFIX.

(** The item appended for a described frame. *)
Definition frame_item (description : string) (timestamp_sec : T) (idx : Z)
    : ConversationItem :=
  let start_ms := to_ms timestamp_sec in
  mkItem (_wrap_keyframe_text description timestamp_sec idx)
         (Some start_ms) (Some (start_ms + 1)) None None [].

(** What the run finds: the frame files and, per frame index and attempt,
    the outcome of the request. *)
Variable frame_file : string -> file_state.
Variable answers : Z -> Z -> exchange.

(** [describe_frames]: the loop over [enumerate(frames, start=1)], from
    index [idx] on. *)
Fixpoint describe_from (idx : Z) (frames : list (string * T))
    : W (list ConversationItem) :=
  match frames with
  | [] => ret []
  | (frame_path, timestamp_sec) :: rest =>
      let^ described :=
        catch
          (let^ d := _describe_single_frame (frame_file frame_path) (answers idx) in
           ret (Some d))
          (fun e =>
             match e with
             | Py.VisionServiceError _ => Some (ret None)
             | _ => None
             end) in
      let^ items := describe_from (idx + 1) rest in
      match described with
      | Some description => ret (frame_item description timestamp_sec idx :: items)
      | None => ret items
      end
  end.

Definition describe_frames (frames : list (string * T)) : W (list ConversationItem) :=
  describe_from 1 frames.
End Client.

End Vision.

(** ** config.py *)
Module Config.
Import PyStr.

(** The default of the field [api_key_envs], the same in both settings
    classes. *)
Definition api_key_envs : list string :=
  ["ALIYUN_BAILIAN_API_KEY"; "DASHSCOPE_API_KEY"].

(** The loop [for env_name in default_envs] of [from_env]; [api_key] is the
    variable of that name and [getenv] is [os.getenv]. *)
Fixpoint first_key (getenv : string -> option string) (names : list string)
    (api_key : option string) : option string :=
  match names with
  | [] => api_key
  | env_name :: rest =>
      let api_key := getenv env_name in
      if match api_key with Some k => nonempty k | None => false end
      then api_key
      else first_key getenv rest api_key
  end.

Section FromEnv.
Variable getenv : string -> option string.
(** [int(s)] on a string: [None] where it raises [ValueError]. *)
Variable int_of_str : string -> option Z.

(** [AliyunBailianSettings.from_env], for the fields the clients of the
    model read; the retry count keeps its default. *)
Definition bailian_from_env : Asr.AliyunBailianSettings :=
  Asr.mkAsrSettings (first_key getenv api_key_envs None) 3.

(** [int(os.getenv(name, default))] *)
Definition int_env (name : string) (default : Z) : Py.result Z :=
  match getenv name with
  | None => Py.Ok default
  | Some s =>
      match int_of_str s with
      | Some z => Py.Ok z
      | None => Py.Raise Py.ValueError
      end
  end.

(** [AliyunVisionSettings.from_env] *)
Definition vision_from_env : Py.result Vision.AliyunVisionSettings :=
  let api_key := first_key getenv api_key_envs None in
  let* timeout := int_env "ALIYUN_VISION_TIMEOUT" 120 in
  let* retries := int_env "ALIYUN_VISION_RETRIES" 3 in
  Py.Ok (Vision.mkVisionSettings api_key retries).

(** [AliyunBailianAsrClient()] and [AliyunVisionClient()], without settings:
    [settings or from_env()] followed by the check of the key. *)
Definition default_asr_client : Py.result Asr.AliyunBailianSettings :=
  Asr.new_client bailian_from_env.

Definition default_vision_client : Py.result Vision.AliyunVisionSettings :=
  let* settings := vision_from_env in
  Vision.new_client settings.

(** [AsrPipelineLite()], without arguments: [speech] and [vision] are the
    provider objects that the two clients are. *)
Definition default_pipeline {T : Type}
    (speech : Asr.AliyunBailianSettings -> Pipeline.SpeechToTextProvider)
    (vision : Vision.AliyunVisionSettings -> Pipeline.ImageCaptionProvider (T := T))
    : Py.result Pipeline.AsrPipelineLite :=
  Pipeline.new_pipeline None None
    (let* client := default_asr_client in Py.Ok (speech client))
    (let* client := default_vision_client in Py.Ok (vision client)).
End FromEnv.

End Config.

(** ** models/aliyun_bailian.py: the DashScope upload and SDK paths *)
Module AsrSdk.
Import PyStr Json Net Files Asr.

(** [_segments_from_transcripts]: the word, the sentence and the two loops. *)
Definition transcript_word (word : json) : Py.result json :=
  let* t := get word "text" in
  let* s := get word "begin_time" in
  let* e := get word "end_time" in
  Py.Ok (JDict [("text", t); ("start", s); ("end", e)]).

Definition transcript_sentence (transcript sentence : json) : Py.result json :=
  let* ws := get_default sentence "words" (JList []) in
  let* wl := iterate ws in
  let* words := mapM transcript_word wl in
  let* t := get_default sentence "text" (JStr "") in
  let* s := get sentence "begin_time" in
  let* e := get sentence "end_time" in
  let* speaker := get transcript "speaker" in
  let* speaker_label := get transcript "speaker_label" in
  let* speaker_id := get transcript "speaker_id" in
  Py.Ok (JDict [("text", t); ("start", s); ("end", e); ("words", JList words);
                ("speaker", speaker); ("speaker_label", speaker_label);
                ("speaker_id", speaker_id)]).

Definition transcript_sentences (transcript : json) : Py.result (list json) :=
  let* ss := get_default transcript "sentences" (JList []) in
  let* sl := iterate ss in
  mapM (transcript_sentence transcript) sl.

Definition _segments_from_transcripts (transcripts : json) : Py.result (list json) :=
  let* tl := iterate transcripts in
  let* groups := mapM transcript_sentences tl in
  Py.Ok (concat groups).

(** [_parse_dashscope_result], from the decoded transcription on. *)
Definition parse_transcription (transcription_data : json) : Py.result (list RawItem) :=
  let* transcripts := get transcription_data "transcripts" in
  if truthy transcripts then
    let* segments := _segments_from_transcripts transcripts in
    _parse_items (JDict [("segments", JList segments)])
  else _parse_items transcription_data.

(** [_parse_dashscope_result], from the download of the transcription on:
    [download] is the outcome of [requests.get]. *)
Definition read_transcription (download : exchange) : Py.result (list RawItem) :=
  match download with
  | NetworkError msg =>
      Py.Raise (Py.AsrServiceError ("Failed to download DashScope transcription: " +:+ msg))
  | Answer r =>
      if negb (status_code r =? 200) then
        Py.Raise (Py.AsrServiceError
                    ("Failed to download transcription: " +:+ str_of_int (status_code r)))
      else
        match body_json r with
        | None => Py.Ok []
        | Some transcription_data => parse_transcription transcription_data
        end
  end.

(** [a or b] where [b] may raise. *)
Definition or_get (a : json) (b : Py.result json) : Py.result json :=
  if truthy a then Py.Ok a else b.

(** [_upload_file_to_dashscope]: [upload] is the outcome of its
    [requests.post]. *)
Definition _upload_file_to_dashscope (upload : exchange) : Py.result (list json) :=
  match upload with
  | NetworkError msg =>
      Py.Raise (Py.AsrServiceError ("Failed to upload audio to DashScope: " +:+ msg))
  | Answer r =>
      if negb (status_code r =? 200) then
        Py.Raise (Py.AsrServiceError
                    ("DashScope file upload failed with status " +:+
                     str_of_int (status_code r) +:+ ": " +:+ body_text r))
      else
        match body_json r with
        | None => Py.Raise (Py.AsrServiceError "DashScope file upload returned invalid JSON")
        | Some payload =>
            let* output := get_default payload "output" (JDict []) in
            let* a := get output "file_urls" in
            let* file_urls :=
              or_get a
                (let* b := get payload "file_urls" in
                 or_get b
                   (let* data := get_default payload "data" (JDict []) in
                    let* c := get data "file_urls" in
                    or_get c
                      (let* data := get_default payload "data" (JDict []) in
                       get data "urls"))) in
            if negb (truthy file_urls) then
              Py.Raise (Py.AsrServiceError
                          "DashScope file upload did not return any file_urls")
            else
              match file_urls with
              | JStr s => Py.Ok [JStr s]
              | _ => iterate file_urls
              end
        end
  end.

(** What a call of [_transcribe_with_sdk] ends in.  [ImportError] is kept
    apart: [_transcribe] handles it on its own. *)
Inductive sdk_result : Type :=
| SdkItems (items : list RawItem)
| SdkImportError
| SdkRaise (e : Py.exn).

(** What the log of [_transcribe] records: the upload and the events of the
    direct path, nothing else.  The traffic of [_transcribe_with_sdk] (the
    calls of the DashScope SDK, and the [requests.get] with which
    [_parse_dashscope_result] downloads the transcription) happens inside
    [sdk] below and is not part of the log; [read_transcription] above
    models that download on its own. *)
Inductive request : Type :=
| Upload                       (* the [requests.post] of the upload *)
| Direct (e : Net.event).      (* a request or sleep of [_transcribe_direct] *)

Section Client.
Variable settings : AliyunBailianSettings.
(** [_transcribe_with_sdk] on the given URLs. *)
Variable sdk : list json -> sdk_result.
(** The outcome of the upload, and of each attempt of the direct request. *)
Variable upload : exchange.
Variable post : Z -> exchange.

(** [_transcribe_with_sdk_upload] *)
Definition _transcribe_with_sdk_upload : sdk_result * list request :=
  match _upload_file_to_dashscope upload with
  | Py.Ok file_urls => (sdk file_urls, [Upload])
  | Py.Raise e => (SdkRaise e, [Upload])
  end.

(** [_transcribe]: [data] and [file_urls] may be [None].  The message that
    would print the exception of the SDK is cut to its fixed part. *)
Definition _transcribe (data : option (list byte)) (file_urls : option (list json))
    : Py.result (list RawItem) * list request :=
  match file_urls with
  | Some (u :: us) =>
      match sdk (u :: us) with
      | SdkItems items => (Py.Ok items, [])
      | SdkImportError =>
          (Py.Raise (Py.AsrServiceError
                       "DashScope SDK is required for remote URL transcription."), [])
      | SdkRaise _ =>
          (Py.Raise (Py.AsrServiceError "DashScope SDK transcription failed"), [])
      end
  | _ =>
      match data with
      | None =>
          (Py.Raise (Py.AsrServiceError
                       ("Audio bytes must be provided when file_urls are not supplied. " +:+
                        "If you already uploaded the file, call transcribe_remote_urls(file_urls=[...]).")),
           [])
      | Some _ =>
          match _transcribe_with_sdk_upload with
          | (SdkItems items, log) => (Py.Ok items, log)
          | (SdkRaise (Py.AsrServiceError msg), log) =>
              (Py.Raise (Py.AsrServiceError msg), log)
          | (_, log) =>
              let '(r, direct_log) := _transcribe_direct settings post in
              (r, log ++ map Direct direct_log)
          end
      end
  end.

(** [transcribe_path]: [audio] is what opening the file finds. *)
Definition transcribe_path (audio : file_state)
    : Py.result (list RawItem) * list request :=
  match read_whole audio with
  | Py.Ok data => _transcribe (Some data) None
  | Py.Raise e => (Py.Raise e, [])
  end.

(** [transcribe_bytes] *)
Definition transcribe_bytes (data : list byte) (file_urls : option (list string))
    : Py.result (list RawItem) * list request :=
  _transcribe (Some data) (option_map (map JStr) file_urls).

(** [transcribe_remote_urls] *)
Definition transcribe_remote_urls (file_urls : list string)
    : Py.result (list RawItem) * list request :=
  match file_urls with
  | [] => (Py.Raise (Py.AsrServiceError "file_urls must not be empty"), [])
  | _ :: _ => _transcribe None (Some (map JStr file_urls))
  end.
End Client.

End AsrSdk.

(** ** Facts about types.py *)
Module TypesFacts.
Import PyStr Types.

Lemma below_forallb (P : Z -> bool) (k : nat) :
  forallb (fun i => P (Z.of_nat i)) (seq 0 k) = true ->
  forall n, 0 <= n < Z.of_nat k -> P n = true.
Proof.
  intros Hall n Hn.
  rewrite forallb_forall in Hall.
  rewrite <- (Z2Nat.id n) by lia.
  apply Hall, in_seq. lia.
Qed.

(** *** The order used by [sorted] *)

(** The order the specification describes, for items whose time stamps are
    set: lexicographic on (start_time, end_time, text). *)
Definition chronological_lt (a b : ConversationItem) : option bool :=
  match start_time a, start_time b, end_time a, end_time b with
  | Some sa, Some sb, Some ea, Some eb =>
      Some (if sa =? sb then
              if ea =? eb then
                match String.compare (text a) (text b) with Lt => true | _ => false end
              else ea <? eb
            else sa <? sb)
  | _, _, _, _ => None
  end.

Definition early_item : ConversationItem :=
  mkItem "b" (Some 0) (Some 1000) None None [].
Definition late_item : ConversationItem :=
  mkItem "a" (Some 5000) (Some 6000) None None [].

(** The items [describe_frames] builds for the second and the tenth
    keyframe of a video (captions "x" and "y"). *)
Definition frame2_item : ConversationItem :=
  mkItem ("[[KEYFRAME_START]]frame=2;time=1.000s" +:+ String newline "x" +:+
          String newline "[[KEYFRAME_END]]") (Some 1000) (Some 1001) None None [].
Definition frame10_item : ConversationItem :=
  mkItem ("[[KEYFRAME_START]]frame=10;time=9.000s" +:+ String newline "y" +:+
          String newline "[[KEYFRAME_END]]") (Some 9000) (Some 9001) None None [].

(** [item_lt] looks at the text first: equal texts are needed before a time
    stamp is compared. *)
Lemma item_lt_text_first a b :
  String.eqb (text a) (text b) = false ->
  item_lt a b =
    Py.Ok (match String.compare (text a) (text b) with Lt => true | _ => false end).
Proof.
  intros Hne. unfold item_lt, item_step, str_step. rewrite Hne. reflexivity.
Qed.

Lemma item_lt_text_first_witness :
  item_lt late_item early_item = Py.Ok true.
Proof.
  rewrite (item_lt_text_first late_item early_item); reflexivity.
Defined.

(** C1: the order applied by [sorted] in [build_docling_document] is not the
    lexicographic order on (start_time, end_time, text): the generated
    [__lt__] compares the text first.  Two items with all time stamps set are
    put in reverse chronological order, and so are two keyframe items. *)
Theorem C1_sorted_compares_text_first :
  chronological_lt early_item late_item = Some true
  /\ item_lt early_item late_item = Py.Ok false
  /\ item_lt late_item early_item = Py.Ok true
  /\ PySort.sorted item_lt [early_item; late_item] = Py.Ok [late_item; early_item]
  /\ chronological_lt frame2_item frame10_item = Some true
  /\ PySort.sorted item_lt [frame2_item; frame10_item]
       = Py.Ok [frame10_item; frame2_item].
Proof. repeat split; vm_compute; reflexivity. Qed.

End TypesFacts.

(** ** Facts about media/video.py *)
Module VideoFacts.
Import Video.

Section SliceFacts.
Context {A : Type}.
Implicit Types l : list A.

Lemma every_nth_sublist step k l : sublist (every_nth step k l) l.
Proof.
  revert k. induction l as [|x r IH]; intros k; simpl.
  - constructor.
  - destruct k.
    + apply sublist_skip, IH.
    + apply sublist_cons, IH.
Qed.

(** The [i]-th kept element is the one at index [skip + i * step]. *)
Lemma every_nth_lookup step k l i :
  (1 <= step)%nat ->
  every_nth step k l !! i = l !! (k + i * step)%nat.
Proof.
  intros Hstep. revert k i. induction l as [|x r IH]; intros k i; simpl.
  - rewrite !lookup_nil. reflexivity.
  - destruct k as [|k'].
    + destruct i as [|i']; simpl; [reflexivity|].
      rewrite IH.
      replace (step + i' * step)%nat with (S (step - 1 + i' * step)) by lia.
      reflexivity.
    + rewrite IH. reflexivity.
Qed.

Lemma slice_step_length_ge step l m :
  (1 <= step)%nat -> (1 <= m)%nat ->
  ((m - 1) * step < length l)%nat ->
  (m <= length (slice_step step l))%nat.
Proof.
  intros Hstep Hm Hlt.
  destruct (le_lt_dec m (length (slice_step step l))) as [|Hshort]; [assumption|].
  exfalso.
  assert (Hnone : slice_step step l !! (m - 1)%nat = None)
    by (apply lookup_ge_None; lia).
  unfold slice_step in Hnone. rewrite every_nth_lookup in Hnone by assumption.
  apply lookup_ge_None in Hnone. simpl in Hnone. lia.
Qed.
End SliceFacts.

Lemma stride_fits (n m : Z) :
  1 <= m -> m < n -> (m - 1) * Z.max 1 (n / m) < n.
Proof.
  intros Hm Hn.
  assert (Hq : 1 <= n / m) by (apply Z.div_le_lower_bound; lia).
  rewrite Z.max_r by lia.
  pose proof (Z.mul_div_le n m ltac:(lia)). nia.
Qed.

(** A single pair and a run of two, for the corner cases of [max_frames]. *)
Definition one_pair : list (string * Z) := [("frame_0001.jpg", 0)].
Definition two_pairs : list (string * Z) :=
  [("frame_0001.jpg", 0); ("frame_0002.jpg", 1)].
Definition five_pairs : list (string * Z) :=
  [("frame_0001.jpg", 0); ("frame_0002.jpg", 1); ("frame_0003.jpg", 2);
   ("frame_0004.jpg", 3); ("frame_0005.jpg", 4)].

(** C3, as amended: for [N] aligned pairs and [1 <= max_frames = M < N] the
    downsampling step returns the first [M] pairs of every [stride]-th pair,
    [stride = max(1, N // M)]: exactly [M] pairs, the [i]-th being the input
    pair at index [i * stride], a subsequence of the input in input order. *)
Theorem C3_downsample_stride {T : Type} (pairs : list (string * T)) (M : Z) :
  1 <= M -> M < Z.of_nat (length pairs) ->
  let stride := Z.to_nat (Z.max 1 (Z.of_nat (length pairs) / M)) in
  exists out,
    downsample pairs M = Py.Ok out
    /\ out = take (Z.to_nat M) (slice_step stride pairs)
    /\ Z.of_nat (length out) = M
    /\ (forall i, (i < Z.to_nat M)%nat -> out !! i = pairs !! (i * stride)%nat)
    /\ sublist out pairs.
Proof.
  intros HM HN stride.
  assert (Hstride : (1 <= stride)%nat) by (unfold stride; lia).
  assert (Hlen : (Z.to_nat M <= length (slice_step stride pairs))%nat).
  { apply slice_step_length_ge; [assumption | lia |].
    pose proof (stride_fits (Z.of_nat (length pairs)) M HM HN) as Hfit.
    unfold stride. nia. }
  exists (take (Z.to_nat M) (slice_step stride pairs)).
  split; [|split; [reflexivity|split; [|split]]].
  - unfold downsample.
    destruct (Z.ltb_spec M (Z.of_nat (length pairs))) as [_|]; [|lia].
    destruct (Z.eqb_spec M 0) as [|_]; [lia|].
    unfold slice_to. destruct (Z.ltb_spec M 0) as [|_]; [lia|]. reflexivity.
  - rewrite length_take. lia.
  - intros i Hi. rewrite lookup_take_lt by assumption.
    unfold slice_step. rewrite every_nth_lookup by assumption. reflexivity.
  - etransitivity; [apply sublist_take|]. apply every_nth_sublist.
Qed.

Lemma C3_downsample_stride_witness :
  exists out,
    downsample five_pairs 2 = Py.Ok out
    /\ out = [("frame_0001.jpg", 0); ("frame_0003.jpg", 2)].
Proof.
  destruct (C3_downsample_stride five_pairs 2) as (out & Hrun & Hout & _).
  - lia.
  - simpl. lia.
  - exists out. split; [exact Hrun|]. rewrite Hout. reflexivity.
Defined.

(** C3, as stated for every [max_frames] below [N], fails at the bounds that
    are not positive: with [max_frames = 0] the stride computation divides by
    zero, and with a negative bound the second slice keeps more than
    [max_frames] pairs. *)
Lemma C3_nonpositive_max_frames :
  0 < Z.of_nat (length one_pair)
  /\ downsample one_pair 0 = Py.Raise Py.ZeroDivisionError
  /\ -1 < Z.of_nat (length two_pairs)
  /\ downsample two_pairs (-1) = Py.Ok [("frame_0001.jpg", 0)]
  /\ ~ (exists out, downsample one_pair 0 = Py.Ok out
                    /\ Z.of_nat (length out) <= 0).
Proof.
  repeat split; try reflexivity.
  intros (out & Hrun & _). discriminate Hrun.
Qed.

End VideoFacts.

(** ** Facts about media/audio.py *)
Module AudioFacts.
Import PyStr Eff Audio.

(** The diagnostic stream names a missing audio stream. *)
Definition no_audio_marker (diagnostics : string) : bool :=
  existsb (fun marker => contains (lower marker) (lower diagnostics))
          _NO_AUDIO_ERROR_MARKERS.

(** The world after the conversion process ran on a new temporary file. *)
Definition after_run (tmp source : string) (w : world) : world :=
  mkWorld ({[tmp]} ∪ files w) (trace w ++ [Subprocess (ffmpeg_cmd source tmp)]).

(** The same, once the temporary file has been unlinked. *)
Definition after_cleanup (tmp source : string) (w : world) : world :=
  mkWorld (({[tmp]} ∪ files w) ∖ {[tmp]})
          (trace w ++ [Subprocess (ffmpeg_cmd source tmp)]).

Lemma ensure_wav_audio_wav tmp run source w :
  lower (PyPath.suffix source) = ".wav" ->
  ensure_wav_audio tmp run source w = (Py.Ok source, w).
Proof.
  intros Hs. unfold ensure_wav_audio. rewrite Hs. reflexivity.
Qed.

Lemma ensure_wav_audio_convert tmp run source w :
  lower (PyPath.suffix source) <> ".wav" ->
  ensure_wav_audio tmp run source w =
    let process := run (ffmpeg_cmd source tmp) in
    if returncode process =? 0 then (Py.Ok tmp, after_run tmp source w)
    else if no_audio_marker (stderr process)
    then (Py.Raise (Py.NoAudioStreamError ("No audio stream found in file: " +:+ source)),
          after_cleanup tmp source w)
    else (Py.Raise (Py.RuntimeError ("ffmpeg conversion failed: " +:+ stderr process)),
          after_cleanup tmp source w).
Proof.
  intros Hs. unfold ensure_wav_audio.
  destruct (String.eqb_spec (lower (PyPath.suffix source)) ".wav") as [|_]; [contradiction|].
  unfold bind, create_file, emit, unlink, raise, ret, no_audio_marker,
    after_run, after_cleanup; simpl.
  destruct (returncode (run (ffmpeg_cmd source tmp)) =? 0); simpl; [reflexivity|].
  repeat match goal with
         | |- context [if ?b then _ else _] => destruct b; simpl
         end; reflexivity.
Qed.

Lemma after_cleanup_gone tmp source w : tmp ∉ files (after_cleanup tmp source w).
Proof.
  simpl. intros [_ Hn]%elem_of_difference. apply Hn, elem_of_singleton. reflexivity.
Qed.

(** Concrete runs. *)
Definition empty_world : world := mkWorld ∅ [].
Definition exits (code : Z) (diagnostics : string) (cmd : list string)
    : CompletedProcess := mkProcess code diagnostics.

(** C5: a path whose suffix is [.wav] in any letter case comes back as it
    is, the world untouched (no process is run, no file is made); for any
    other suffix a path that is returned is the temporary file made by
    [mkstemp], which differs from the source, and it is returned exactly when
    the conversion exits with 0. *)
Theorem C5_ensure_wav_audio_paths
    (tmp : string) (run : list string -> CompletedProcess)
    (source : string) (w : world) :
  PyPath.suffix tmp = ".wav" ->
  (lower (PyPath.suffix source) = ".wav" ->
     ensure_wav_audio tmp run source w = (Py.Ok source, w))
  /\ (lower (PyPath.suffix source) <> ".wav" ->
        tmp <> source
        /\ (returncode (run (ffmpeg_cmd source tmp)) = 0 ->
              ensure_wav_audio tmp run source w = (Py.Ok tmp, after_run tmp source w)
              /\ tmp ∈ files (after_run tmp source w))
        /\ (forall out w', ensure_wav_audio tmp run source w = (Py.Ok out, w') ->
              out = tmp /\ returncode (run (ffmpeg_cmd source tmp)) = 0)).
Proof.
  intros Htmp. split.
  - apply ensure_wav_audio_wav.
  - intros Hs. split; [|split].
    + intros ->. apply Hs. rewrite Htmp. reflexivity.
    + intros Hrc. rewrite ensure_wav_audio_convert by assumption. simpl.
      rewrite Hrc. simpl. split; [reflexivity|].
      apply elem_of_union_l, elem_of_singleton. reflexivity.
    + intros out w' Hrun. rewrite ensure_wav_audio_convert in Hrun by assumption.
      simpl in Hrun.
      destruct (Z.eqb_spec (returncode (run (ffmpeg_cmd source tmp))) 0) as [Hrc|_].
      * injection Hrun as <- _. split; [reflexivity|assumption].
      * destruct (no_audio_marker _); discriminate.
Qed.

Lemma C5_ensure_wav_audio_paths_witness :
  ensure_wav_audio "/tmp/tmpk3_2x9qa.wav" (exits 0 "") "/data/Talk.WAV" empty_world
    = (Py.Ok "/data/Talk.WAV", empty_world)
  /\ ensure_wav_audio "/tmp/tmpk3_2x9qa.wav" (exits 0 "") "/data/talk.mp3" empty_world
    = (Py.Ok "/tmp/tmpk3_2x9qa.wav",
       after_run "/tmp/tmpk3_2x9qa.wav" "/data/talk.mp3" empty_world).
Proof.
  split.
  - apply (C5_ensure_wav_audio_paths "/tmp/tmpk3_2x9qa.wav" (exits 0 "")
             "/data/Talk.WAV" empty_world); reflexivity.
  - apply (C5_ensure_wav_audio_paths "/tmp/tmpk3_2x9qa.wav" (exits 0 "")
             "/data/talk.mp3" empty_world); [reflexivity|discriminate|reflexivity].
Defined.

End AudioFacts.

(** ** Facts about the document builder *)
Module BuilderFacts.
Import Types DocumentBuilder.

(** The only exception [sorted] lets through is the [TypeError] of a
    comparison with an unset field. *)
Lemma item_lt_raises a b e : item_lt a b = Py.Raise e -> e = Py.TypeError.
Proof.
  unfold item_lt, item_step, then_step, str_step, opt_step, num_step.
  destruct (String.eqb (text a) (text b)); [|discriminate].
  assert (Hw : forall u v e', match words_step u v with
                              | Same => Py.Ok false
                              | Decided r => r
                              end = Py.Raise e' -> e' = Py.TypeError).
  { clear. induction u as [|x u IH]; intros [|y v] e'; simpl; try discriminate.
    unfold word_step, then_step, str_step, opt_step, num_step.
    destruct (String.eqb (w_text x) (w_text y)); [|discriminate].
    destruct (w_start_time x) as [sx|], (w_start_time y) as [sy|];
      try (intros [= <-]; reflexivity);
      try destruct (sx =? sy); try discriminate;
      destruct (w_end_time x) as [ex|], (w_end_time y) as [ey|];
      try (intros [= <-]; reflexivity);
      try destruct (ex =? ey); try discriminate; apply IH. }
  destruct (start_time a) as [sa|], (start_time b) as [sb|];
    try (intros [= <-]; reflexivity);
    try destruct (sa =? sb); try discriminate;
    destruct (end_time a) as [ea|], (end_time b) as [eb|];
    try (intros [= <-]; reflexivity);
    try destruct (ea =? eb); try discriminate;
    destruct (speaker_id a) as [ia|], (speaker_id b) as [ib|];
    try (intros [= <-]; reflexivity);
    try destruct (ia =? ib); try discriminate;
    destruct (speaker a) as [pa|], (speaker b) as [pb|];
    try (intros [= <-]; reflexivity);
    try destruct (String.eqb pa pb); try discriminate; apply Hw.
Qed.

Lemma insert_raises x l e :
  PySort.insert item_lt x l = Py.Raise e -> e = Py.TypeError.
Proof.
  induction l as [|y r IH]; simpl; [discriminate|].
  destruct (item_lt y x) as [[|]|e0] eqn:Hlt; simpl.
  - destruct (PySort.insert item_lt x r); simpl; [discriminate|].
    intros [= <-]. apply IH. reflexivity.
  - discriminate.
  - intros [= <-]. eapply item_lt_raises, Hlt.
Qed.

Lemma sorted_raises l e :
  PySort.sorted item_lt l = Py.Raise e -> e = Py.TypeError.
Proof.
  induction l as [|x r IH]; simpl; [discriminate|].
  destruct (PySort.sorted item_lt r) as [r'|e0]; simpl.
  - apply insert_raises.
  - intros [= <-]. apply IH. reflexivity.
Qed.

Lemma build_docling_document_raises f m h conv s e :
  build_docling_document f m h conv s = Py.Raise e -> e = Py.TypeError.
Proof.
  unfold build_docling_document.
  destruct (PySort.sorted item_lt conv) eqn:Hs; simpl; [discriminate|].
  intros [= <-]. eapply sorted_raises, Hs.
Qed.

End BuilderFacts.

(** ** Facts about the effect layer *)
Module EffFacts.
Import Eff.

Definition is_fallback (e : event) : bool :=
  match e with VisualFallback _ => true | _ => false end.

(** The visual-fallback path has run in a trace. *)
Definition fallback_ran (tr : list event) : bool := existsb is_fallback tr.

(** A computation that leaves [fallback_ran] as it found it. *)
Definition quiet {A : Type} (m : M A) : Prop :=
  forall w, fallback_ran (trace (m w).2) = fallback_ran (trace w).

Lemma quiet_ret {A : Type} (a : A) : quiet (ret a).
Proof. intros w. reflexivity. Qed.

Lemma quiet_raise {A : Type} e : quiet (raise (A := A) e).
Proof. intros w. reflexivity. Qed.

Lemma quiet_lift {A : Type} (r : Py.result A) : quiet (lift r).
Proof. intros w. reflexivity. Qed.

Lemma quiet_create_file name : quiet (create_file name).
Proof. intros w. reflexivity. Qed.

Lemma quiet_unlink p : quiet (unlink p).
Proof. intros w. reflexivity. Qed.

Lemma quiet_emit e : is_fallback e = false -> quiet (emit e).
Proof.
  intros He w. unfold emit, fallback_ran. simpl.
  rewrite existsb_app. simpl. rewrite He. rewrite !orb_false_r. reflexivity.
Qed.

Lemma quiet_bind {A B : Type} (m : M A) (k : A -> M B) :
  quiet m -> (forall a, quiet (k a)) -> quiet (bind m k).
Proof.
  intros Hm Hk w. unfold bind. specialize (Hm w).
  destruct (m w) as [[a|e] w1]; simpl in *.
  - rewrite Hk. exact Hm.
  - exact Hm.
Qed.

Lemma quiet_catch {A : Type} (m : M A) (h : Py.exn -> option (M A)) :
  quiet m -> (forall e k, h e = Some k -> quiet k) -> quiet (catch m h).
Proof.
  intros Hm Hh w. unfold catch. specialize (Hm w).
  destruct (m w) as [[a|e] w1]; simpl in *; [exact Hm|].
  destruct (h e) as [k|] eqn:He; simpl; [|exact Hm].
  rewrite (Hh e k He). exact Hm.
Qed.

Lemma quiet_finally {A : Type} (m : M A) (c : Py.result A -> M unit) :
  quiet m -> (forall r, quiet (c r)) -> quiet (finally m c).
Proof.
  intros Hm Hc w. unfold finally. specialize (Hm w).
  destruct (m w) as [r w1]; simpl in *.
  specialize (Hc r w1). destruct (c r w1) as [[u|e] w2]; simpl in *; congruence.
Qed.

Lemma fallback_ran_emit tr e :
  fallback_ran (tr ++ [e]) = fallback_ran tr || is_fallback e.
Proof. unfold fallback_ran. rewrite existsb_app. simpl. rewrite orb_false_r. reflexivity. Qed.

End EffFacts.

(** ** Facts about reading files *)
Module FilesFacts.
Import Files.

(** Whether one of the reads of a file of [len] bytes, from read number [k]
    on, is the one that raises. *)
Definition read_raises (size : nat) (fail_at : option nat) (k len : nat) : bool :=
  match fail_at with
  | Some j => ((k <=? j) && ((j - k) * size <? len + size))%nat
  | None => false
  end.

Lemma read_raises_step size fail_at k len :
  (0 < size)%nat -> (0 < len)%nat -> fail_at <> Some k ->
  read_raises size fail_at (S k) (len - size) = read_raises size fail_at k len.
Proof.
  intros Hsize Hlen Hk. destruct fail_at as [j|]; [|reflexivity].
  unfold read_raises.
  assert (j <> k) by congruence.
  destruct (Nat.leb_spec (S k) j) as [Hle|Hgt], (Nat.leb_spec k j) as [Hle'|Hgt'];
    try lia; rewrite ?andb_true_l, ?andb_false_l; try reflexivity.
  destruct (Nat.ltb_spec ((j - S k) * size) (len - size + size)) as [H1|H1],
           (Nat.ltb_spec ((j - k) * size) (len + size)) as [H2|H2];
    try reflexivity; exfalso.
  - replace (j - k)%nat with (S (j - S k)) in H2 by lia. simpl in H2.
    destruct (le_lt_dec size len); [lia|].
    replace (len - size + size)%nat with size in H1 by lia.
    destruct (j - S k)%nat; simpl in *; nia.
  - replace (j - k)%nat with (S (j - S k)) in H2 by lia. simpl in H2.
    destruct (le_lt_dec size len); [lia|].
    replace (len - size + size)%nat with size in H1 by lia.
    destruct (j - S k)%nat; simpl in *; nia.
Qed.

(** The read loop feeds the whole content to the hasher, chunk by chunk,
    unless one of its reads raises. *)
Lemma read_loop_spec size fail_at k rest hasher :
  (0 < size)%nat ->
  read_loop size fail_at k rest hasher =
    if read_raises size fail_at k (length rest) then Py.Raise Py.OSError
    else Py.Ok (hasher ++ rest).
Proof.
  intros Hsize. funelim (read_loop size fail_at k rest hasher); clear Heqcall.
  - subst fail_at. unfold read_raises. rewrite Nat.leb_refl, Nat.sub_diag.
    destruct (Nat.ltb_spec (0 * size) (length rest + size)); [reflexivity|lia].
  - match goal with Ht : take _ _ = [] |- _ =>
      assert (rest = []) as -> by
        (destruct size; [lia|]; destruct rest; [reflexivity|discriminate Ht])
    end.
    rewrite app_nil_r.
    destruct fail_at as [j|]; [|reflexivity]. unfold read_raises.
    destruct (Nat.leb_spec k j); rewrite ?andb_true_l, ?andb_false_l; [|reflexivity].
    assert (j <> k) by congruence. simpl length.
    destruct (Nat.ltb_spec ((j - k) * size) (0 + size)); [nia|reflexivity].
  - match goal with IH : _ -> read_loop _ _ _ _ _ = _ |- _ => rewrite IH by assumption end.
    rewrite length_drop, read_raises_step; try assumption.
    + rewrite <- Hc, <- app_assoc, take_drop. reflexivity.
    + clear -Hc. destruct rest; [rewrite take_nil in Hc; discriminate Hc|simpl; lia].
Qed.

Lemma read_loop_readable size content :
  (0 < size)%nat -> read_loop size None 0 content [] = Py.Ok content.
Proof. intros Hsize. rewrite read_loop_spec by assumption. reflexivity. Qed.

End FilesFacts.

(** ** Facts about pipelines/asr_pipeline.py *)
Module PipelineFacts.
Import PyStr Types Eff EffFacts Files FilesFacts Audio AudioFacts Pipeline.

Section Runs.
Context {T : Type}.
Variable sha256_hex : list byte -> string.
Variable env : environment (T := T).
Variable self : AsrPipelineLite (T := T).

Lemma quiet_ensure_wav_audio tmp run source :
  quiet (ensure_wav_audio tmp run source).
Proof.
  unfold ensure_wav_audio.
  destruct (String.eqb _ _); [apply quiet_ret|].
  apply quiet_bind; [apply quiet_create_file|intros t].
  apply quiet_bind; [apply quiet_emit; reflexivity|intros _].
  destruct (negb _); [|apply quiet_ret].
  apply quiet_bind; [apply quiet_unlink|intros _].
  destruct (existsb _ _); apply quiet_raise.
Qed.

Lemma quiet_validate_input input filename : quiet (validate_input input filename).
Proof.
  destruct input as [p|data]; simpl.
  - intros w. destruct (decide (p ∈ files w)); reflexivity.
  - destruct filename as [f|]; [|apply quiet_raise].
    destruct (nonempty f); [|apply quiet_raise].
    destruct data; [apply quiet_raise|apply quiet_ret].
Qed.

Lemma quiet_prepare_wav_artifact backend_result :
  quiet (_prepare_wav_artifact env backend_result).
Proof.
  unfold _prepare_wav_artifact.
  apply quiet_bind.
  - destruct (b_input backend_result); [apply quiet_ret|].
    apply quiet_bind; [apply quiet_create_file|intros; apply quiet_ret].
  - intros temp_source. apply quiet_finally.
    + apply quiet_catch.
      * apply quiet_bind; [apply quiet_ensure_wav_audio|intros; apply quiet_ret].
      * intros e k He. destruct e; try discriminate.
        injection He as <-. apply quiet_ret.
    + intros r. destruct temp_source as [t|]; [|apply quiet_ret].
      destruct (match r with Py.Ok o => o | Py.Raise _ => None end) as [wp|];
        [|apply quiet_unlink].
      destruct (String.eqb wp t); [apply quiet_ret|apply quiet_unlink].
Qed.

Lemma quiet_speech_stage input filename language :
  quiet (speech_stage env self input filename language).
Proof.
  unfold speech_stage.
  apply quiet_bind; [apply quiet_validate_input|intros backend_result].
  apply quiet_bind; [apply quiet_prepare_wav_artifact|intros wav_path].
  apply quiet_bind; [|intros; apply quiet_ret].
  destruct wav_path as [wav|]; [|apply quiet_ret].
  destruct (b_input backend_result).
  - apply quiet_bind; [apply quiet_emit; reflexivity|intros; apply quiet_lift].
  - apply quiet_bind; [apply quiet_lift|intros wav_bytes].
    apply quiet_bind; [apply quiet_emit; reflexivity|intros; apply quiet_lift].
Qed.

Lemma quiet_describe_video_frames backend_result :
  quiet (_describe_video_frames env self backend_result).
Proof.
  unfold _describe_video_frames.
  destruct (vision_provider self) as [vp|]; [|apply quiet_ret].
  apply quiet_bind.
  - destruct (b_input backend_result); [apply quiet_ret|].
    apply quiet_bind; [apply quiet_create_file|intros; apply quiet_ret].
  - intros temp_source. apply quiet_finally.
    + apply quiet_catch.
      * apply quiet_bind; [intros w; reflexivity|intros present].
        apply quiet_bind; [apply quiet_lift|intros frames].
        destruct frames; [apply quiet_ret|apply quiet_lift].
      * intros e k [= <-]. apply quiet_ret.
    + intros r. destruct temp_source; [apply quiet_unlink|apply quiet_ret].
Qed.

(** [_describe_video_frames] never raises. *)
Lemma describe_video_frames_returns backend_result w :
  exists items w',
    _describe_video_frames env self backend_result w = (Py.Ok items, w').
Proof.
  unfold _describe_video_frames.
  destruct (vision_provider self) as [vp|]; [|eexists _, _; reflexivity].
  unfold bind at 1.
  match goal with |- context [match ?m w with _ => _ end] =>
    assert (Hm : exists ts w1, m w = (Py.Ok ts, w1)) end.
  { destruct (b_input backend_result); eexists _, _; reflexivity. }
  destruct Hm as (ts & w1 & ->).
  unfold finally, catch.
  match goal with |- context [bind ?m ?k w1] => destruct (bind m k w1) as [[a|e] w2] end;
    simpl; destruct ts; simpl; eexists _, _; reflexivity.
Qed.

Lemma is_video_file_by_extension f :
  _is_video_file (Some f) =
    existsb (fun ext => endswith ext (lower f)) VIDEO_EXTENSIONS.
Proof. destruct f; reflexivity. Qed.

Lemma should_use_visual_fallback_iff is_video_file conversation :
  _should_use_visual_fallback self is_video_file conversation = true
  <-> is_video_file = true /\ conversation = [] /\ vision_provider self <> None.
Proof.
  unfold _should_use_visual_fallback.
  destruct is_video_file, conversation, (vision_provider self); simpl;
    split; try discriminate; try (intros (? & ? & ?); congruence);
    intros _; repeat split; discriminate.
Qed.

(** C4: in a run of [transcribe_with_artifacts] the keyframe branch is
    entered exactly when the speech stage came back with zero items, the
    file name has a video extension and a vision provider is set; it is
    never entered for a name that is not a video, and a default vision
    provider that fails to initialise leaves the pipeline built, with no
    vision provider and hence no fallback. *)
Theorem C4_visual_fallback_decision
    (input : path_or_stream) (filename : option string)
    (language : string) (summary : option string) (w : world) :
  fallback_ran (trace w) = false ->
  (fallback_ran
     (trace (transcribe_with_artifacts sha256_hex env self
               input filename language summary w).2) = true
   <-> exists backend_result wav_path w1,
         speech_stage env self input filename language w
           = (Py.Ok (backend_result, wav_path, []), w1)
         /\ existsb (fun ext => endswith ext (lower (b_filename backend_result)))
                    VIDEO_EXTENSIONS = true
         /\ vision_provider self <> None)
  /\ (forall conversation,
        _should_use_visual_fallback self false conversation = false)
  /\ (forall p default_provider e,
        new_pipeline (T := T) (Some p) None default_provider (Py.Raise e)
          = Py.Ok (mkPipeline p None))
  /\ (vision_provider self = None ->
      forall is_video_file conversation,
        _should_use_visual_fallback self is_video_file conversation = false).
Proof.
  intros Hfresh. split; [|split; [|split]].
  - unfold transcribe_with_artifacts. unfold bind at 1.
    pose proof (quiet_speech_stage input filename language w) as Hq.
    rewrite Hfresh in Hq.
    destruct (speech_stage env self input filename language w)
      as [[[[backend_result wav_path] conversation]|e] w1] eqn:Hstage; simpl in Hq.
    2:{ simpl. rewrite Hq. split; [discriminate|].
        intros (? & ? & ? & Habs & _). discriminate Habs. }
    destruct (_should_use_visual_fallback self
                (_is_video_file (Some (b_filename backend_result))) conversation)
      eqn:Huse.
    + apply should_use_visual_fallback_iff in Huse as (Hv & -> & Hp).
      split.
      * intros _. exists backend_result, wav_path, w1.
        rewrite <- is_video_file_by_extension. auto.
      * intros _.
        unfold bind at 1. unfold bind at 1. unfold emit at 1.
        destruct (describe_video_frames_returns backend_result
                    (mkWorld (files w1) (trace w1 ++ [VisualFallback (b_filename backend_result)])))
          as (items & w2 & Hd).
        pose proof (quiet_describe_video_frames backend_result
                    (mkWorld (files w1) (trace w1 ++ [VisualFallback (b_filename backend_result)])))
          as Hq2.
        unfold bind at 1. rewrite Hd in *. simpl in Hq2.
        rewrite fallback_ran_emit in Hq2. simpl in Hq2. rewrite orb_true_r in Hq2.
        unfold ret at 1. unfold bind, lift, ret.
        destruct (DocumentBuilder.build_docling_document _ _ _ _ _); simpl; exact Hq2.
    + split.
      * intros Hran. exfalso.
        unfold bind, lift, ret in Hran.
        destruct (DocumentBuilder.build_docling_document _ _ _ _ _) in Hran;
          simpl in Hran; congruence.
      * intros (b' & wav' & w1' & [= -> -> -> ->] & Hv & Hp). exfalso.
        rewrite <- is_video_file_by_extension in Hv.
        assert (Htrue : _should_use_visual_fallback self
                          (_is_video_file (Some (b_filename b'))) [] = true)
          by (apply should_use_visual_fallback_iff; auto).
        congruence.
  - intros conversation. reflexivity.
  - intros p dp e. reflexivity.
  - intros Hnone v c. unfold _should_use_visual_fallback. rewrite Hnone.
    apply andb_false_r.
Qed.

(** The path handed to [ensure_wav_audio]: the input path, or the temporary
    copy of an in-memory input. *)
Definition source_of (backend_result : BackendResult) : string :=
  match b_input backend_result with
  | IsPath p => p
  | IsBytesIO _ =>
      env_named_temp env
        (if nonempty (PyPath.suffix (b_filename backend_result))
         then PyPath.suffix (b_filename backend_result) else ".bin")
  end.

(** The conversion process as [_prepare_wav_artifact] runs it. *)
Definition conversion (backend_result : BackendResult) : CompletedProcess :=
  env_ffmpeg env (ffmpeg_cmd (source_of backend_result) (env_mkstemp env)).

Lemma prepare_wav_artifact_failed backend_result w :
  lower (PyPath.suffix (source_of backend_result)) <> ".wav" ->
  returncode (conversion backend_result) <> 0 ->
  exists w',
    (env_mkstemp env ∉ files w')
    /\ _prepare_wav_artifact env backend_result w =
         (if no_audio_marker (stderr (conversion backend_result))
          then Py.Ok None
          else Py.Raise (Py.RuntimeError
                 ("ffmpeg conversion failed: " +:+ stderr (conversion backend_result))),
          w').
Proof.
  intros Hs Hrc. unfold _prepare_wav_artifact, conversion, source_of in *.
  destruct backend_result as [[p|data] fname]; simpl in *.
  - unfold bind, finally, catch, ret. simpl.
    rewrite ensure_wav_audio_convert by assumption. simpl.
    destruct (Z.eqb_spec (returncode (env_ffmpeg env (ffmpeg_cmd p (env_mkstemp env)))) 0);
      [contradiction|].
    destruct (no_audio_marker _); simpl; eexists; (split; [|reflexivity]);
      apply (after_cleanup_gone _ p w).
  - unfold bind, finally, catch, ret, _write_temp_file, create_file. simpl.
    rewrite ensure_wav_audio_convert by assumption. simpl.
    match goal with |- context [returncode ?x =? 0] =>
      destruct (Z.eqb_spec (returncode x) 0); [contradiction|] end.
    destruct (no_audio_marker _); simpl; eexists; (split; [|reflexivity]); simpl;
      intros [[_ Hn]%elem_of_difference _]%elem_of_difference;
      apply Hn, elem_of_singleton; reflexivity.
Qed.

Lemma speech_stage_failed input filename language backend_result w :
  validate_input input filename w = (Py.Ok backend_result, w) ->
  lower (PyPath.suffix (source_of backend_result)) <> ".wav" ->
  returncode (conversion backend_result) <> 0 ->
  exists w',
    speech_stage env self input filename language w =
      (if no_audio_marker (stderr (conversion backend_result))
       then Py.Ok (backend_result, None, [])
       else Py.Raise (Py.RuntimeError
              ("ffmpeg conversion failed: " +:+ stderr (conversion backend_result))),
       w').
Proof.
  intros Hval Hs Hrc. unfold speech_stage. unfold bind at 1. rewrite Hval.
  destruct (prepare_wav_artifact_failed backend_result w Hs Hrc) as (w' & _ & Hprep).
  unfold bind at 1. rewrite Hprep.
  destruct (no_audio_marker _); eexists; reflexivity.
Qed.

(** C6: when the conversion exits non-zero, the temporary output is
    unlinked; if the diagnostics carry one of the no-audio markers (in any
    letter case) [NoAudioStreamError] is raised, caught by
    [_prepare_wav_artifact] (which returns [None]) and the run goes on with
    no items and no audio path, so that error never leaves the pipeline; any
    other non-zero exit raises the error that carries the diagnostics, and
    the pipeline passes it on. *)
Theorem C6_conversion_failure_outcomes
    (input : path_or_stream) (filename : option string)
    (language : string) (summary : option string)
    (backend_result : BackendResult) (w w0 : world) :
  validate_input input filename w = (Py.Ok backend_result, w) ->
  lower (PyPath.suffix (source_of backend_result)) <> ".wav" ->
  returncode (conversion backend_result) <> 0 ->
  let src := source_of backend_result in
  let tmp := env_mkstemp env in
  let diagnostics := stderr (conversion backend_result) in
  (no_audio_marker diagnostics = true ->
     ensure_wav_audio tmp (env_ffmpeg env) src w0 =
       (Py.Raise (Py.NoAudioStreamError ("No audio stream found in file: " +:+ src)),
        after_cleanup tmp src w0)
     /\ (tmp ∉ files (after_cleanup tmp src w0))
     /\ (exists w1, _prepare_wav_artifact env backend_result w = (Py.Ok None, w1)
                    /\ tmp ∉ files w1)
     /\ (exists w2, speech_stage env self input filename language w
                      = (Py.Ok (backend_result, None, []), w2))
     /\ match (transcribe_with_artifacts sha256_hex env self
                 input filename language summary w).1 with
        | Py.Ok r => audio_path r = None
        | Py.Raise e => e = Py.TypeError
        end)
  /\ (no_audio_marker diagnostics = false ->
       ensure_wav_audio tmp (env_ffmpeg env) src w0 =
         (Py.Raise (Py.RuntimeError ("ffmpeg conversion failed: " +:+ diagnostics)),
          after_cleanup tmp src w0)
       /\ (tmp ∉ files (after_cleanup tmp src w0))
       /\ (transcribe_with_artifacts sha256_hex env self
             input filename language summary w).1
          = Py.Raise (Py.RuntimeError ("ffmpeg conversion failed: " +:+ diagnostics))).
Proof.
  intros Hval Hs Hrc src tmp diagnostics.
  assert (Hrun : ensure_wav_audio tmp (env_ffmpeg env) src w0 =
                 if no_audio_marker diagnostics
                 then (Py.Raise (Py.NoAudioStreamError
                                   ("No audio stream found in file: " +:+ src)),
                       after_cleanup tmp src w0)
                 else (Py.Raise (Py.RuntimeError
                                   ("ffmpeg conversion failed: " +:+ diagnostics)),
                       after_cleanup tmp src w0)).
  { rewrite ensure_wav_audio_convert by assumption. simpl.
    change (env_ffmpeg env (ffmpeg_cmd src tmp)) with (conversion backend_result).
    destruct (Z.eqb_spec (returncode (conversion backend_result)) 0);
      [contradiction|reflexivity]. }
  destruct (prepare_wav_artifact_failed backend_result w Hs Hrc) as (w1 & Hgone & Hprep).
  destruct (speech_stage_failed input filename language backend_result w Hval Hs Hrc)
    as (w2 & Hstage).
  fold diagnostics in Hprep, Hstage.
  split; intros Hm; rewrite Hm in *.
  - split; [exact Hrun|]. split; [apply after_cleanup_gone|].
    split; [exists w1; auto|]. split; [exists w2; exact Hstage|].
    unfold transcribe_with_artifacts. unfold bind at 1. rewrite Hstage.
    destruct (_should_use_visual_fallback self _ []).
    + unfold bind at 1. unfold bind at 1. unfold emit at 1.
      destruct (describe_video_frames_returns backend_result
                  (mkWorld (files w2)
                     (trace w2 ++ [VisualFallback (b_filename backend_result)])))
        as (items & w3 & Hd).
      unfold bind at 1. rewrite Hd. unfold ret at 1. unfold bind, lift, ret.
      destruct (DocumentBuilder.build_docling_document _ _ _ _ _) eqn:Hb; simpl;
        [reflexivity|].
      eapply BuilderFacts.build_docling_document_raises, Hb.
    + unfold bind, lift, ret.
      destruct (DocumentBuilder.build_docling_document _ _ _ _ _) eqn:Hb; simpl;
        [reflexivity|].
      eapply BuilderFacts.build_docling_document_raises, Hb.
  - split; [exact Hrun|]. split; [apply after_cleanup_gone|].
    unfold transcribe_with_artifacts. unfold bind at 1. rewrite Hstage. reflexivity.
Qed.

Lemma CHUNK_pos : (0 < CHUNK)%nat.
Proof. unfold CHUNK. lia. Qed.

(** The bytes of the input when every read of it succeeds. *)
Definition input_bytes (backend_result : BackendResult) : option (list byte) :=
  match b_input backend_result with
  | IsBytesIO data => Some data
  | IsPath p =>
      match env_file env p with
      | Unopenable => None
      | Opens content fail_at =>
          if read_raises CHUNK fail_at 0 (length content) then None else Some content
      end
  end.

Lemma compute_binary_hash_spec backend_result :
  _compute_binary_hash sha256_hex env backend_result =
    match input_bytes backend_result with
    | Some bytes => sha256_hex bytes
    | None => sha256_hex (encode (b_filename backend_result))
    end.
Proof.
  unfold _compute_binary_hash, input_bytes.
  destruct (b_input backend_result) as [p|data]; [|reflexivity].
  destruct (env_file env p) as [|content fail_at]; [reflexivity|].
  rewrite read_loop_spec by apply CHUNK_pos.
  destruct (read_raises _ _ _ _); reflexivity.
Qed.

(** C7: the fingerprint is the digest of the input's bytes whenever they
    can be read, so two inputs with the same bytes get the same fingerprint
    whatever their file names (and whether they are files or buffers); a
    file read in full without an error is such an input; when the input
    cannot be read the fingerprint is the digest of the file name.  The
    function returns a string in every case. *)
Theorem C7_fingerprint_of_bytes :
  (forall backend_result bytes,
     input_bytes backend_result = Some bytes ->
     _compute_binary_hash sha256_hex env backend_result = sha256_hex bytes)
  /\ (forall b1 b2 bytes,
        input_bytes b1 = Some bytes -> input_bytes b2 = Some bytes ->
        _compute_binary_hash sha256_hex env b1
          = _compute_binary_hash sha256_hex env b2)
  /\ (forall data name1 name2,
        _compute_binary_hash sha256_hex env (mkBackend (IsBytesIO data) name1)
          = _compute_binary_hash sha256_hex env (mkBackend (IsBytesIO data) name2))
  /\ (forall p content name,
        env_file env p = Opens content None ->
        _compute_binary_hash sha256_hex env (mkBackend (IsPath p) name)
          = sha256_hex content)
  /\ (forall backend_result,
        input_bytes backend_result = None ->
        _compute_binary_hash sha256_hex env backend_result
          = sha256_hex (encode (b_filename backend_result))).
Proof.
  split; [|split; [|split; [|split]]].
  - intros b bytes Hb. rewrite compute_binary_hash_spec, Hb. reflexivity.
  - intros b1 b2 bytes H1 H2. rewrite !compute_binary_hash_spec, H1, H2. reflexivity.
  - intros data name1 name2. reflexivity.
  - intros p content name Hp. rewrite compute_binary_hash_spec.
    unfold input_bytes. simpl. rewrite Hp. reflexivity.
  - intros b Hb. rewrite compute_binary_hash_spec, Hb. reflexivity.
Qed.
End Runs.
End PipelineFacts.

(** ** Concrete runs of the pipeline *)
Module PipelineRuns.
Import PyStr Types Eff EffFacts Files Audio AudioFacts Pipeline PipelineFacts.

(** A stand-in for the digest: any function of the bytes will do here. *)
Definition toy_digest (bytes : list byte) : string := string_of_list_byte bytes.

Definition silent_provider : SpeechToTextProvider :=
  mkSpeech (fun _ _ => Py.Ok []) (fun _ _ _ => Py.Ok []).

Definition caption_provider : ImageCaptionProvider (T := Z) :=
  mkVision (fun frames =>
    Py.Ok (map (fun '(_, t) => mkItem "frame" (Some t) (Some (t + 1)) None None [])
               frames)).

(** A video without an audio stream: the conversion exits with 1 and names
    the missing stream. *)
Definition silent_video_env : environment (T := Z) :=
  mkEnv (fun _ => Opens ["a"%byte; "b"%byte] None)
        "/tmp/tmpk3_2x9qa.wav"
        (fun suffix => "/tmp/tmp5h1c0zde" +:+ suffix)
        (exits 1 "Stream map '0:a' matches no streams.")
        (Py.Ok (Video.mkPass [0; 3500] ["frame_0001.jpg"; "frame_0002.jpg"]))
        (Py.Raise (Py.RuntimeError "unused"))
        (Py.Raise (Py.RuntimeError "unused")).

(** The same input with a conversion that fails for another reason. *)
Definition broken_video_env : environment (T := Z) :=
  mkEnv (fun _ => Opens ["a"%byte; "b"%byte] None)
        "/tmp/tmpk3_2x9qa.wav"
        (fun suffix => "/tmp/tmp5h1c0zde" +:+ suffix)
        (exits 1 "Invalid data found when processing input")
        (Py.Ok (Video.mkPass [0; 3500] ["frame_0001.jpg"; "frame_0002.jpg"]))
        (Py.Raise (Py.RuntimeError "unused"))
        (Py.Raise (Py.RuntimeError "unused")).

Definition with_vision : AsrPipelineLite :=
  mkPipeline silent_provider (Some caption_provider).

Definition clip_world : world := mkWorld {["/data/clip.mp4"]} [].
Definition clip_backend : BackendResult := mkBackend (IsPath "/data/clip.mp4") "clip.mp4".

Lemma C4_visual_fallback_decision_witness :
  fallback_ran
    (trace (transcribe_with_artifacts toy_digest silent_video_env with_vision
              (IsPath "/data/clip.mp4") None "zh" None clip_world).2) = true.
Proof.
  apply (C4_visual_fallback_decision toy_digest silent_video_env with_vision
           (IsPath "/data/clip.mp4") None "zh" None clip_world); [reflexivity|].
  eexists _, _, _. split; [vm_compute; reflexivity|].
  split; [reflexivity|discriminate].
Defined.

Lemma C6_conversion_failure_outcomes_witness :
  (exists w2, speech_stage silent_video_env with_vision
                (IsPath "/data/clip.mp4") None "zh" clip_world
              = (Py.Ok (clip_backend, None, []), w2))
  /\ (transcribe_with_artifacts toy_digest broken_video_env with_vision
        (IsPath "/data/clip.mp4") None "zh" None clip_world).1
     = Py.Raise (Py.RuntimeError
         "ffmpeg conversion failed: Invalid data found when processing input").
Proof.
  split.
  - apply (C6_conversion_failure_outcomes toy_digest silent_video_env with_vision
             (IsPath "/data/clip.mp4") None "zh" None clip_backend clip_world clip_world);
      [vm_compute; reflexivity | discriminate | discriminate | reflexivity].
  - apply (C6_conversion_failure_outcomes toy_digest broken_video_env with_vision
             (IsPath "/data/clip.mp4") None "zh" None clip_backend clip_world clip_world);
      [vm_compute; reflexivity | discriminate | discriminate | reflexivity].
Defined.

End PipelineRuns.

(** ** Facts about models/aliyun_bailian.py *)
Module AsrFacts.
Import PyStr Json Net Asr.

(** The value of [d.get(primary) or d.get(secondary)] on a dict. *)
Definition alias_value (items : list (string * json)) (primary secondary : string) : json :=
  let a := match lookup primary items with Some x => x | None => JNull end in
  if truthy a then a
  else match lookup secondary items with Some x => x | None => JNull end.

Lemma alias_dict items primary secondary :
  alias (JDict items) primary secondary = Py.Ok (alias_value items primary secondary).
Proof.
  unfold alias, alias_value. simpl.
  destruct (truthy match lookup primary items with Some x => x | None => JNull end);
    reflexivity.
Qed.

(** A falsy primary value leaves the alias, or [None] when that is absent. *)
Lemma alias_value_falsy items primary secondary v :
  lookup primary items = Some v -> truthy v = false ->
  alias_value items primary secondary =
    match lookup secondary items with Some x => x | None => JNull end.
Proof. intros Hp Hv. unfold alias_value. rewrite Hp, Hv. reflexivity. Qed.

Lemma parse_segment_fields items item :
  parse_segment (JDict items) = Py.Ok item ->
  ri_start_time item = alias_value items "start" "begin_time"
  /\ ri_end_time item = alias_value items "end" "end_time"
  /\ ri_speaker_id item = alias_value items "speaker_id" "speaker".
Proof.
  unfold parse_segment. rewrite !alias_dict.
  destruct (get_default (JDict items) "words" (JList [])) as [ws|]; simpl; [|discriminate].
  destruct (iterate ws) as [wl|]; simpl; [|discriminate].
  destruct (mapM parse_word wl) as [words|]; simpl; [|discriminate].
  destruct (py_or (alias_value items "text" "sentence") (JStr "")); simpl;
    try discriminate.
  intros [= <-]. simpl. auto.
Qed.

Lemma parse_word_fields items w :
  parse_word (JDict items) = Py.Ok w ->
  rw_text w = py_or (alias_value items "text" "word") (JStr "")
  /\ rw_start_time w = alias_value items "start" "start_time"
  /\ rw_end_time w = alias_value items "end" "end_time".
Proof.
  unfold parse_word. rewrite !alias_dict. simpl. intros [= <-]. simpl. auto.
Qed.

(** A word that is a dict always parses. *)
Lemma parse_word_dict items :
  parse_word (JDict items) =
    Py.Ok (mkRawWord (py_or (alias_value items "text" "word") (JStr ""))
                     (alias_value items "start" "start_time")
                     (alias_value items "end" "end_time")).
Proof. unfold parse_word. rewrite !alias_dict. reflexivity. Qed.

(** A segment without words whose text is a string (or missing) parses. *)
Lemma parse_segment_plain items s :
  lookup "words" items = None ->
  py_or (alias_value items "text" "sentence") (JStr "") = JStr s ->
  parse_segment (JDict items) =
    Py.Ok (mkRawItem (strip s)
             (alias_value items "start" "begin_time")
             (alias_value items "end" "end_time")
             (alias_value items "speaker_id" "speaker")
             (match lookup "speaker_label" items with Some x => x | None => JNull end)
             []).
Proof.
  intros Hw Ht. unfold parse_segment. rewrite !alias_dict. simpl.
  rewrite Hw. simpl. rewrite Ht. reflexivity.
Qed.

(** A response in the tests' shape, with a first segment that starts at 0. *)
Definition zero_start_result : json :=
  JDict [("segments",
          JList [JDict [("text", JStr "hello world");
                        ("start", JInt 0);
                        ("end", JInt 1200);
                        ("words",
                         JList [JDict [("word", JStr "hello");
                                       ("start", JInt 0); ("end", JInt 600)];
                                JDict [("text", JStr "");
                                       ("word", JStr "world");
                                       ("start", JInt 600); ("end", JInt 1200)]])]])].

(** C10: [_parse_items] resolves the field aliases by truthiness.  A segment
    whose "start" is 0 without "begin_time" gets [start_time] [None]; in
    general every falsy primary value ("start", "end", "speaker_id" of a
    segment; "start", "end", "text" of a word) gives way to its alias, or to
    [None] (to the empty string for a word's text) when the alias is absent.
    The last two parts run a response whose first segment and first word
    start at 0. *)
Theorem C10_aliases_by_truthiness :
  (forall items item,
     lookup "start" items = Some (JInt 0) ->
     lookup "begin_time" items = None ->
     parse_segment (JDict items) = Py.Ok item ->
     ri_start_time item = JNull)
  /\ (forall items item v,
        lookup "start" items = Some v -> truthy v = false ->
        parse_segment (JDict items) = Py.Ok item ->
        ri_start_time item =
          match lookup "begin_time" items with Some x => x | None => JNull end)
  /\ (forall items item v,
        lookup "end" items = Some v -> truthy v = false ->
        parse_segment (JDict items) = Py.Ok item ->
        ri_end_time item =
          match lookup "end_time" items with Some x => x | None => JNull end)
  /\ (forall items v,
        lookup "start" items = Some v -> truthy v = false ->
        exists w, parse_word (JDict items) = Py.Ok w
          /\ rw_start_time w =
               match lookup "start_time" items with Some x => x | None => JNull end)
  /\ (forall items v,
        lookup "text" items = Some v -> truthy v = false ->
        exists w, parse_word (JDict items) = Py.Ok w
          /\ rw_text w =
               py_or (match lookup "word" items with Some x => x | None => JNull end)
                     (JStr ""))
  /\ _parse_items zero_start_result =
       Py.Ok [mkRawItem "hello world" JNull (JInt 1200) JNull JNull
                [mkRawWord (JStr "hello") JNull (JInt 600);
                 mkRawWord (JStr "world") (JInt 600) (JInt 1200)]]
  /\ to_item (mkRawItem "hello world" JNull (JInt 1200) JNull JNull
                [mkRawWord (JStr "hello") JNull (JInt 600);
                 mkRawWord (JStr "world") (JInt 600) (JInt 1200)])
     = Some (Types.mkItem "hello world" None (Some 1200) None None
               [Types.mkWord "hello" None (Some 600);
                Types.mkWord "world" (Some 600) (Some 1200)]).
Proof.
  repeat split.
  - intros items item Hs Hb Hp.
    apply parse_segment_fields in Hp as (-> & _).
    rewrite (alias_value_falsy items _ _ (JInt 0)) by (assumption || reflexivity).
    rewrite Hb. reflexivity.
  - intros items item v Hs Hv Hp.
    apply parse_segment_fields in Hp as (-> & _).
    apply (alias_value_falsy items _ _ v); assumption.
  - intros items item v Hs Hv Hp.
    apply parse_segment_fields in Hp as (_ & -> & _).
    apply (alias_value_falsy items _ _ v); assumption.
  - intros items v Hs Hv. eexists. split; [apply parse_word_dict|]. simpl.
    apply (alias_value_falsy items _ _ v); assumption.
  - intros items v Hs Hv. eexists. split; [apply parse_word_dict|]. simpl.
    rewrite (alias_value_falsy items _ _ v) by assumption. reflexivity.
Qed.

End AsrFacts.

(** ** Facts about the retry loops *)
Module RetryFacts.
Import PyStr Json Net Asr.

(** An exchange after which the direct request is sent again: a network
    error or a server-side status. *)
Definition retryable (x : exchange) : bool :=
  match x with
  | NetworkError _ => true
  | Answer r => 500 <=? status_code r
  end.

(** What the loop of [_transcribe_direct] leaves when it ends at [x]. *)
Definition loop_outcome (x : exchange) : Py.result (option Response) :=
  match x with
  | Answer r => Py.Ok (Some r)
  | NetworkError msg =>
      Py.Raise (Py.AsrServiceError ("Network error during transcription: " +:+ msg))
  end.

Section Loop.
Variable settings : AliyunBailianSettings.
Variable post : Z -> exchange.

Lemma direct_loop_step n attempt response :
  direct_loop settings post (S n) attempt response =
    if retryable (post attempt) && (attempt <? retries settings) then
      let '(r, log) :=
        direct_loop settings post n (attempt + 1)
          match post attempt with Answer a => Some a | NetworkError _ => response end in
      (r, Post attempt :: Sleep (2 ^ attempt) :: log)
    else (loop_outcome (post attempt), [Post attempt]).
Proof.
  simpl. unfold bind, emit, ret, raise. simpl.
  destruct (post attempt) as [msg|a]; simpl.
  - destruct (attempt <? retries settings); [|reflexivity].
    destruct (direct_loop settings post n (attempt + 1) response) as [[?|?] ?];
      reflexivity.
  - destruct ((500 <=? status_code a) && (attempt <? retries settings)); [|reflexivity].
    destruct (direct_loop settings post n (attempt + 1) (Some a)) as [[?|?] ?];
      reflexivity.
Qed.

(** A run of the loop from [attempt] that ends at attempt [k]: the
    attempts before [k] were retryable and each was followed by a sleep of
    [2^i] seconds; [k] is not retryable unless it is the last one. *)
Definition ends_at (attempt k : Z) (run : W (option Response)) : Prop :=
  attempt <= k <= retries settings
  /\ posts run.2 = seqZ attempt (k - attempt + 1)
  /\ sleeps run.2 = map (fun i => 2 ^ i) (seqZ attempt (k - attempt))
  /\ (forall i, attempt <= i < k -> retryable (post i) = true)
  /\ (k < retries settings -> retryable (post k) = false)
  /\ run.1 = loop_outcome (post k).

Lemma direct_loop_spec remaining attempt response :
  (1 <= remaining)%nat ->
  attempt + Z.of_nat remaining = retries settings + 1 ->
  exists k, ends_at attempt k (direct_loop settings post remaining attempt response).
Proof.
  revert attempt response.
  induction remaining as [|n IH]; intros attempt response Hpos Hrange; [lia|].
  rewrite direct_loop_step.
  destruct (retryable (post attempt) && (attempt <? retries settings)) eqn:Hc.
  - apply andb_prop in Hc as [Hretry Hlt]. apply Z.ltb_lt in Hlt.
    destruct (IH (attempt + 1)
                match post attempt with Answer a => Some a | NetworkError _ => response end)
      as (k & Hk & Hposts & Hsleeps & Hbefore & Hat & Hout); [lia|lia|].
    exists k.
    destruct (direct_loop settings post n (attempt + 1) _) as [r log].
    unfold ends_at in *. simpl in *.
    split; [lia|]. split; [|split; [|split; [|split]]].
    + change (posts (Post attempt :: Sleep (2 ^ attempt) :: log))
        with (attempt :: posts log).
      rewrite Hposts, (seqZ_cons attempt) by lia. f_equal. f_equal; lia.
    + change (sleeps (Post attempt :: Sleep (2 ^ attempt) :: log))
        with (2 ^ attempt :: sleeps log).
      rewrite Hsleeps, (seqZ_cons attempt) by lia. simpl.
      f_equal. f_equal. f_equal; lia.
    + intros i Hi. destruct (Z.eq_dec i attempt) as [->|]; [assumption|].
      apply Hbefore. lia.
    + assumption.
    + assumption.
  - exists attempt. unfold ends_at. simpl.
    replace (attempt - attempt + 1) with 1 by lia.
    replace (attempt - attempt) with 0 by lia.
    repeat split; try reflexivity; try lia.
    intros Hlt. apply Z.ltb_lt in Hlt. rewrite Hlt, andb_true_r in Hc. exact Hc.
Qed.
End Loop.


Lemma transcribe_direct_run settings post :
  _transcribe_direct settings post =
    let '(r, log) := direct_loop settings post (Z.to_nat (retries settings)) 1 None in
    (match r with
     | Py.Ok response => read_response response
     | Py.Raise e => Py.Raise e
     end, log).
Proof.
  unfold _transcribe_direct, bind, lift.
  destruct (direct_loop settings post (Z.to_nat (retries settings)) 1 None)
    as [[response|e] log]; [rewrite app_nil_r|]; reflexivity.
Qed.

(** With at least one attempt configured: the attempts are numbered from 1
    and end at some [k] within the configured count; each attempt before [k]
    met a network error or a status of 500 or more and was followed by a
    sleep of [2^i] seconds; attempt [k] got an answer below 500, or is the
    last one.  A network error at the end, a final status other than 200 and
    a body that does not decode raise [AsrServiceError], and so does a body
    with an error code. *)
Theorem transcribe_direct_retries settings post :
  1 <= retries settings ->
  exists k,
    1 <= k <= retries settings
    /\ posts (_transcribe_direct settings post).2 = seqZ 1 k
    /\ sleeps (_transcribe_direct settings post).2 = map (fun i => 2 ^ i) (seqZ 1 (k - 1))
    /\ (forall i, 1 <= i < k -> retryable (post i) = true)
    /\ (k < retries settings -> retryable (post k) = false)
    /\ match post k with
       | NetworkError msg =>
           (_transcribe_direct settings post).1
             = Py.Raise (Py.AsrServiceError ("Network error during transcription: " +:+ msg))
       | Answer r =>
           (_transcribe_direct settings post).1 = read_response (Some r)
           /\ (status_code r <> 200 ->
                 read_response (Some r)
                   = Py.Raise (Py.AsrServiceError
                       ("Aliyun Bailian request failed with status " +:+
                        str_of_int (status_code r) +:+ ": " +:+ body_text r)))
           /\ (status_code r = 200 -> body_json r = None ->
                 read_response (Some r)
                   = Py.Raise (Py.AsrServiceError "Failed to decode JSON response"))
           /\ (forall items code,
                 status_code r = 200 -> body_json r = Some (JDict items) ->
                 lookup "code" items = Some code -> hashable code = true ->
                 code <> JNull -> code <> JStr "Success" ->
                 read_response (Some r)
                   = Py.Raise (Py.AsrServiceError "Aliyun Bailian returned error code"))
       end.
Proof.
  intros Hretries.
  destruct (direct_loop_spec settings post (Z.to_nat (retries settings)) 1 None)
    as (k & Hk & Hposts & Hsleeps & Hbefore & Hat & Hout); [lia|lia|].
  exists k. rewrite transcribe_direct_run.
  destruct (direct_loop settings post (Z.to_nat (retries settings)) 1 None) as [r log].
  simpl in *.
  split; [lia|]. split; [rewrite Hposts; f_equal; lia|].
  split; [rewrite Hsleeps; reflexivity|]. split; [assumption|]. split; [assumption|].
  subst r. destruct (post k) as [msg|a]; simpl; [reflexivity|].
  split; [reflexivity|]. split; [|split].
  - intros Hs. destruct (Z.eqb_spec (status_code a) 200); [contradiction|reflexivity].
  - intros Hs Hb. rewrite Hs, Hb. reflexivity.
  - intros items code Hs Hb Hc Hh Hn1 Hn2. rewrite Hs, Hb. simpl. rewrite Hc, Hh. simpl.
    destruct code as [| | | |s| |]; try reflexivity; try contradiction.
    destruct (String.eqb_spec s "Success") as [->|Hne]; [contradiction|].
    clear -Hne.
    repeat (destruct s as [|[[|][|][|][|][|][|][|][|]] s]; try reflexivity);
      contradiction.
Qed.

(** Three attempts: a 503, a network error, then a 200 with an error code. *)
Definition flaky_server (attempt : Z) : exchange :=
  if attempt =? 1 then Answer (mkResponse 503 "busy" None)
  else if attempt =? 2 then NetworkError "timed out"
  else Answer (mkResponse 200 "{}" (Some (JDict [("code", JStr "Failure")]))).

Lemma transcribe_direct_retries_witness :
  _transcribe_direct (mkAsrSettings (Some "key") 3) flaky_server
  = (Py.Raise (Py.AsrServiceError "Aliyun Bailian returned error code"),
     [Post 1; Sleep 2; Post 2; Sleep 4; Post 3])
  /\ exists k,
       1 <= k <= 3
       /\ posts (_transcribe_direct (mkAsrSettings (Some "key") 3) flaky_server).2
            = seqZ 1 k
       /\ sleeps (_transcribe_direct (mkAsrSettings (Some "key") 3) flaky_server).2
            = map (fun i => 2 ^ i) (seqZ 1 (k - 1)).
Proof.
  split; [reflexivity|].
  destruct (transcribe_direct_retries (mkAsrSettings (Some "key") 3) flaky_server)
    as (k & Hk & Hposts & Hsleeps & _); [simpl; lia|].
  exists k. auto.
Defined.

(** Never more requests than the configured count. *)
Lemma direct_loop_posts settings post remaining attempt response :
  (length (posts (direct_loop settings post remaining attempt response).2)
   <= remaining)%nat.
Proof.
  revert attempt response. induction remaining as [|n IH]; intros attempt response.
  - simpl. lia.
  - rewrite direct_loop_step.
    destruct (retryable (post attempt) && (attempt <? retries settings)).
    + specialize (IH (attempt + 1)
                     match post attempt with Answer a => Some a | NetworkError _ => response end).
      destruct (direct_loop settings post n (attempt + 1) _) as [r log].
      simpl in *. change (posts (Post attempt :: Sleep (2 ^ attempt) :: log))
                    with (attempt :: posts log). simpl. lia.
    + simpl. lia.
Qed.

Lemma transcribe_direct_posts settings post :
  (length (posts (_transcribe_direct settings post).2) <= Z.to_nat (retries settings))%nat.
Proof.
  rewrite transcribe_direct_run.
  pose proof (direct_loop_posts settings post (Z.to_nat (retries settings)) 1 None) as H.
  destruct (direct_loop settings post (Z.to_nat (retries settings)) 1 None). exact H.
Qed.

(** C8: with a retry count of 0 the loop of [_transcribe_direct] has no
    attempt; the response variable is still unbound when its status is read
    and [UnboundLocalError] is raised where the specification has
    [AsrServiceError].
    The loop of the vision client, of the same shape, ends in its own service
    error. *)
Theorem C8_zero_retries_unbound_response (key : option string) (post : Z -> exchange) :
  _transcribe_direct (mkAsrSettings key 0) post = (Py.Raise Py.UnboundLocalError, [])
  /\ Vision._post_with_retry (Vision.mkVisionSettings key 0) post
     = (Py.Raise (Py.VisionServiceError "Aliyun vision request exhausted retries"), []).
Proof. split; reflexivity. Qed.

End RetryFacts.

(** ** Facts about models/aliyun_vision.py *)
Module VisionFacts.
Import PyStr Json Net Files Types Vision.


(** Without an API key the client cannot be built, which is the failure
    [_init_default_vision_provider] turns into a missing provider. *)
Lemma new_client_without_key (tries : Z) :
  new_client (mkVisionSettings None tries)
    = Py.Raise (Py.VisionServiceError "Aliyun vision API key is missing.")
  /\ new_client (mkVisionSettings (Some "") tries)
    = Py.Raise (Py.VisionServiceError "Aliyun vision API key is missing.").
Proof. split; reflexivity. Qed.


Section Frames.
Context {T : Type}.
Variable to_ms : T -> Z.
Variable fmt3 : T -> string.
Variable settings : AliyunVisionSettings.
Variable frame_file : string -> file_state.
Variable answers : Z -> Z -> exchange.

(** The outcome of captioning the frame at [frame_path], the [idx]-th of
    the batch. *)
Definition caption (idx : Z) (frame_path : string) : Py.result string :=
  (_describe_single_frame settings (frame_file frame_path) (answers idx)).1.

(** The item kept for an enumerated frame, if its captioning succeeded. *)
Definition kept (entry : Z * (string * T)) : option ConversationItem :=
  let '(idx, (frame_path, timestamp_sec)) := entry in
  match caption idx frame_path with
  | Py.Ok description => Some (frame_item to_ms fmt3 description timestamp_sec idx)
  | Py.Raise _ => None
  end.


Lemma describe_from_cons idx frame_path timestamp_sec rest :
  (describe_from to_ms fmt3 settings frame_file answers idx
     ((frame_path, timestamp_sec) :: rest)).1 =
    match caption idx frame_path with
    | Py.Ok description =>
        match (describe_from to_ms fmt3 settings frame_file answers (idx + 1) rest).1 with
        | Py.Ok items => Py.Ok (frame_item to_ms fmt3 description timestamp_sec idx :: items)
        | Py.Raise e => Py.Raise e
        end
    | Py.Raise (Py.VisionServiceError _) =>
        (describe_from to_ms fmt3 settings frame_file answers (idx + 1) rest).1
    | Py.Raise e => Py.Raise e
    end.
Proof.
  simpl. unfold caption, bind at 1, catch, bind at 1.
  destruct (_describe_single_frame settings (frame_file frame_path) (answers idx))
    as [[d|e] log]; simpl.
  - unfold bind.
    destruct (describe_from to_ms fmt3 settings frame_file answers (idx + 1) rest)
      as [[items|e] log']; reflexivity.
  - destruct e; simpl; try reflexivity.
    unfold bind.
    destruct (describe_from to_ms fmt3 settings frame_file answers (idx + 1) rest)
      as [[items|e] log']; reflexivity.
Qed.



End Frames.

End VisionFacts.

(** ** Concrete batches of keyframes *)
Module VisionRuns.
Import PyStr Json Net Files Types Vision VisionFacts.

(** Whole seconds stand in for the floats. *)
Definition ms_of_seconds (t : Z) : Z := t * 1000.
Definition three_decimals (t : Z) : string := str_of_int t +:+ ".000".

Definition three_tries : AliyunVisionSettings := mkVisionSettings (Some "key") 3.

Definition described (caption_text : string) : exchange :=
  Answer (mkResponse 200 ""
    (Some (JDict [("output",
             JDict [("choices",
               JList [JDict [("message",
                 JDict [("content", JList [JDict [("text", JStr caption_text)]])])]])])]))).

Definition rejected : exchange := Answer (mkResponse 400 "bad request" None).


Definition image : file_state := Opens ["j"%byte] None.

Definition three_frames : list (string * Z) :=
  [("frame_0001.jpg", 0); ("frame_0002.jpg", 3); ("frame_0003.jpg", 7)].

(** The second frame is rejected by the service. *)
Definition second_rejected (idx attempt : Z) : exchange :=
  if idx =? 2 then rejected else described "a cat".






End VisionRuns.

(** ** More facts about strings *)
Module StrFacts.
Import PyStr.

Lemma append_cons (c : ascii) (a b : string) : String c a +:+ b = String c (a +:+ b).
Proof. reflexivity. Qed.

Lemma append_empty_r (a : string) : a +:+ "" = a.
Proof.
  induction a as [|c a IH]; [reflexivity|]. rewrite append_cons, IH. reflexivity.
Qed.

Lemma append_associative (a b c : string) : (a +:+ b) +:+ c = a +:+ (b +:+ c).
Proof.
  induction a as [|x a IH]; [reflexivity|].
  rewrite !append_cons, IH. reflexivity.
Qed.

Lemma startswith_append (p s : string) : startswith p (p +:+ s) = true.
Proof.
  induction p as [|c p IH]; [reflexivity|].
  rewrite append_cons. simpl. rewrite Ascii.eqb_refl. exact IH.
Qed.

Lemma drop_append (p s : string) : drop (String.length p) (p +:+ s) = s.
Proof.
  induction p as [|c p IH]; [reflexivity|]. rewrite append_cons. exact IH.
Qed.

(** No line feed in a string. *)
Fixpoint no_newline (s : string) : bool :=
  match s with
  | EmptyString => true
  | String c r => negb (Ascii.eqb c newline) && no_newline r
  end.

Lemma no_newline_append (a b : string) :
  no_newline (a +:+ b) = no_newline a && no_newline b.
Proof.
  induction a as [|c a IH]; [reflexivity|].
  rewrite append_cons. simpl. rewrite IH, andb_assoc. reflexivity.
Qed.

Lemma partition_nl_split (a rest : string) :
  no_newline a = true ->
  partition_nl (a +:+ String newline rest) = (a, true, rest).
Proof.
  induction a as [|c a IH]; intros Ha.
  - reflexivity.
  - simpl in Ha. apply andb_prop in Ha as [Hc Ha].
    rewrite append_cons. simpl.
    destruct (Ascii.eqb c newline); [discriminate|].
    rewrite (IH Ha). reflexivity.
Qed.

Lemma partition_nl_whole (a : string) :
  no_newline a = true -> partition_nl a = (a, false, "").
Proof.
  induction a as [|c a IH]; intros Ha; [reflexivity|].
  simpl in Ha. apply andb_prop in Ha as [Hc Ha]. simpl.
  destruct (Ascii.eqb c newline); [discriminate|].
  rewrite (IH Ha). reflexivity.
Qed.

(** Decimal digits carry no line feed. *)
Lemma digit_char_no_newline (d : Z) :
  0 <= d < 10 -> Ascii.eqb (digit_char d) newline = false.
Proof.
  intros Hd.
  assert (Hcases : d = 0 \/ d = 1 \/ d = 2 \/ d = 3 \/ d = 4 \/ d = 5 \/ d = 6
                   \/ d = 7 \/ d = 8 \/ d = 9) by lia.
  repeat (destruct Hcases as [->|Hcases]; [reflexivity|]). subst. reflexivity.
Qed.

Lemma digits_fuel_no_newline fuel n acc :
  no_newline acc = true -> no_newline (digits_fuel fuel n acc) = true.
Proof.
  revert n acc. induction fuel as [|f IH]; intros n acc Hacc; [exact Hacc|].
  cbn [digits_fuel].
  assert (Hstep : no_newline (String (digit_char (n mod 10)) acc) = true).
  { cbn [no_newline]. rewrite digit_char_no_newline, Hacc; [reflexivity|].
    apply Z.mod_pos_bound. lia. }
  destruct (n / 10 =? 0); [exact Hstep|]. apply IH, Hstep.
Qed.

Lemma str_of_int_no_newline n : no_newline (str_of_int n) = true.
Proof.
  unfold str_of_int, digits.
  destruct (n <? 0).
  - cbn [no_newline]. rewrite digits_fuel_no_newline by reflexivity. reflexivity.
  - apply digits_fuel_no_newline. reflexivity.
Qed.

End StrFacts.

(** ** More facts about types.py *)
Module TypesMore.
Import PyStr Types StrFacts.

(** *** Reading a rendered time stamp back *)

Definition digit_val (c : ascii) : Z := Z.of_nat (nat_of_ascii c) - 48.

(** The number of milliseconds a string [dd:dd:dd.ddd] stands for. *)
Definition parse_hms (s : string) : option Z :=
  match s with
  | String h1 (String h2 (String _ (String m1 (String m2 (String _
    (String s1 (String s2 (String _ (String f1 (String f2 (String f3
    EmptyString))))))))))) =>
      Some ((((10 * digit_val h1 + digit_val h2) * 60
              + (10 * digit_val m1 + digit_val m2)) * 60
             + (10 * digit_val s1 + digit_val s2)) * 1000
            + (100 * digit_val f1 + 10 * digit_val f2 + digit_val f3))
  | _ => None
  end.

Lemma zero_pad_2_digits n :
  0 <= n < 100 ->
  zero_pad 2 n = String (digit_char (n / 10)) (String (digit_char (n mod 10)) "").
Proof.
  intros Hn. apply String.eqb_eq. revert n Hn.
  apply (TypesFacts.below_forallb
           (fun n => String.eqb (zero_pad 2 n)
                       (String (digit_char (n / 10)) (String (digit_char (n mod 10)) "")))
           100).
  vm_compute. reflexivity.
Qed.

Lemma zero_pad_3_digits n :
  0 <= n < 1000 ->
  zero_pad 3 n =
    String (digit_char (n / 100))
      (String (digit_char ((n / 10) mod 10)) (String (digit_char (n mod 10)) "")).
Proof.
  intros Hn. apply String.eqb_eq. revert n Hn.
  apply (TypesFacts.below_forallb
           (fun n => String.eqb (zero_pad 3 n)
                       (String (digit_char (n / 100))
                          (String (digit_char ((n / 10) mod 10))
                             (String (digit_char (n mod 10)) ""))))
           1000).
  vm_compute. reflexivity.
Qed.

Lemma digit_val_char d : 0 <= d < 10 -> digit_val (digit_char d) = d.
Proof.
  intros Hd. unfold digit_val, digit_char.
  rewrite nat_ascii_embedding by lia. lia.
Qed.

Lemma format_ms_round_trip ms :
  0 <= ms < 360000000 -> parse_hms (_format_ms (Some ms)) = Some ms.
Proof.
  intros Hms. unfold _format_ms.
  set (h := ms / 1000 / 60 / 60).
  set (m := (ms / 1000 / 60) mod 60).
  set (s := (ms / 1000) mod 60).
  set (f := ms mod 1000).
  assert (Hh : 0 <= h < 100) by (subst h; Z.div_mod_to_equations; lia).
  assert (Hm : 0 <= m < 60) by (subst m; apply Z.mod_pos_bound; lia).
  assert (Hs : 0 <= s < 60) by (subst s; apply Z.mod_pos_bound; lia).
  assert (Hf : 0 <= f < 1000) by (subst f; apply Z.mod_pos_bound; lia).
  rewrite (zero_pad_2_digits h), (zero_pad_2_digits m), (zero_pad_2_digits s),
    (zero_pad_3_digits f) by lia.
  cbv beta iota zeta delta [append parse_hms].
  rewrite !digit_val_char by (Z.div_mod_to_equations; lia).
  f_equal. subst h m s f. Z.div_mod_to_equations. lia.
Qed.

(** *** Rendering of keyframe items *)

Lemma lstrip_keeps (s : string) :
  match s with String c _ => is_space c = false | EmptyString => True end ->
  lstrip s = s.
Proof. destruct s as [|c r]; [reflexivity|]. simpl. intros ->. reflexivity. Qed.

Lemma time_tag_nonempty it tag : time_tag it = Some tag -> nonempty tag = true.
Proof.
  unfold time_tag. destruct (start_time it), (end_time it); try discriminate.
  intros [= <-]. reflexivity.
Qed.

(** The header of a keyframe text: what stands between the marker and the
    first line feed. *)
Lemma to_string_keyframe_header meta rest it :
  text it = KEYFRAME_PREFIX +:+ meta +:+ String newline rest ->
  no_newline meta = true ->
  to_string it =
    join " " (append_if_truthy (Some (lstrip meta))
                (append_if_truthy (time_tag it) [KEYFRAME_PREFIX]))
    +:+ String newline rest.
Proof.
  intros Htext Hmeta. unfold to_string. rewrite Htext.
  rewrite startswith_append.
  rewrite <- append_associative.
  rewrite partition_nl_split.
  2:{ rewrite no_newline_append, Hmeta. reflexivity. }
  rewrite drop_append. reflexivity.
Qed.

(** A text under the keyframe marker is rendered by splicing the time range
    between the marker and the rest of its header line; the lines below the
    header are left as they are and no speaker tag is rendered.  With an unset
    bound only a blank is put after the marker. *)
Theorem to_string_keyframe_splice (meta rest : string) (it : ConversationItem) :
  text it = KEYFRAME_PREFIX +:+ meta +:+ String newline rest ->
  no_newline meta = true ->
  nonempty meta = true ->
  match meta with String c _ => is_space c = false | EmptyString => True end ->
  to_string it =
    match start_time it, end_time it with
    | Some s, Some e =>
        KEYFRAME_PREFIX +:+ " " +:+
        ("[time: " +:+ _format_ms (Some s) +:+ "-" +:+ _format_ms (Some e) +:+ "]")
        +:+ " " +:+ meta +:+ String newline rest
    | _, _ => KEYFRAME_PREFIX +:+ " " +:+ meta +:+ String newline rest
    end.
Proof.
  intros Htext Hmeta Hne Hfirst.
  rewrite (to_string_keyframe_header meta rest it Htext Hmeta).
  rewrite (lstrip_keeps meta Hfirst).
  unfold append_if_truthy at 1. rewrite Hne.
  unfold time_tag.
  destruct (start_time it) as [s|], (end_time it) as [e|];
    try (cbn [append_if_truthy app join]; rewrite !append_associative; reflexivity).
  generalize (_format_ms (Some s)) (_format_ms (Some e)). intros fs fe.
  assert (Htag : nonempty ("[time: " +:+ fs +:+ "-" +:+ fe +:+ "]") = true)
    by reflexivity.
  unfold append_if_truthy. rewrite Htag.
  cbn [app join]. rewrite !append_associative. reflexivity.
Qed.

Lemma to_string_keyframe_splice_witness :
  to_string TypesFacts.frame2_item =
    "[[KEYFRAME_START]] [time: 00:00:01.000-00:00:01.001] frame=2;time=1.000s"
    +:+ String newline "x" +:+ String newline "[[KEYFRAME_END]]".
Proof.
  rewrite (to_string_keyframe_splice "frame=2;time=1.000s"
             ("x" +:+ String newline "[[KEYFRAME_END]]") TypesFacts.frame2_item);
    reflexivity.
Defined.

(** *** The generated order, both ways round *)

(** A comparison seen from the other side. *)
Definition flip_step (s : step) : step :=
  match s with
  | Same => Same
  | Decided (Py.Ok b) => Decided (Py.Ok (negb b))
  | Decided (Py.Raise e) => Decided (Py.Raise e)
  end.

Lemma str_step_flip a b : str_step b a = flip_step (str_step a b).
Proof.
  unfold str_step. rewrite (String.eqb_sym b a).
  destruct (String.eqb_spec a b) as [|Hne]; [reflexivity|].
  rewrite (String.compare_antisym b a).
  destruct (String.compare a b) eqn:Hc; try reflexivity.
  apply String.compare_eq_iff in Hc. contradiction.
Qed.

Lemma num_step_flip a b : num_step b a = flip_step (num_step a b).
Proof.
  unfold num_step. rewrite (Z.eqb_sym b a).
  destruct (Z.eqb_spec a b) as [|Hne]; [reflexivity|]. simpl.
  do 2 f_equal. destruct (Z.ltb_spec b a), (Z.ltb_spec a b); try reflexivity; lia.
Qed.

Lemma opt_step_flip {A : Type} (f : A -> A -> step) a b :
  (forall x y, f y x = flip_step (f x y)) ->
  opt_step f b a = flip_step (opt_step f a b).
Proof. intros Hf. destruct a, b; simpl; try reflexivity. apply Hf. Qed.

Lemma then_step_flip s s' k k' :
  s' = flip_step s -> k' = flip_step k -> then_step s' k' = flip_step (then_step s k).
Proof. intros -> ->. destruct s as [|[b|e]]; reflexivity. Qed.

Lemma word_step_flip a b : word_step b a = flip_step (word_step a b).
Proof.
  unfold word_step.
  repeat (apply then_step_flip;
          [first [apply str_step_flip | apply opt_step_flip, num_step_flip]|]).
  apply opt_step_flip, num_step_flip.
Qed.

Lemma words_step_flip a b : words_step b a = flip_step (words_step a b).
Proof.
  revert b. induction a as [|x a IH]; intros [|y b]; try reflexivity.
  simpl. apply then_step_flip; [apply word_step_flip|apply IH].
Qed.

Lemma item_step_flip a b : item_step b a = flip_step (item_step a b).
Proof.
  unfold item_step.
  repeat (apply then_step_flip;
          [first [apply str_step_flip
                 | apply opt_step_flip, num_step_flip
                 | apply opt_step_flip, str_step_flip]|]).
  apply words_step_flip.
Qed.

(** Only identical values compare as equal. *)
Lemma str_step_same a b : str_step a b = Same -> a = b.
Proof.
  unfold str_step. destruct (String.eqb_spec a b); [auto|discriminate].
Qed.

Lemma num_step_same a b : num_step a b = Same -> a = b.
Proof. unfold num_step. destruct (Z.eqb_spec a b); [auto|discriminate]. Qed.

Lemma opt_step_same {A : Type} (f : A -> A -> step) a b :
  (forall x y, f x y = Same -> x = y) -> opt_step f a b = Same -> a = b.
Proof.
  intros Hf. destruct a, b; simpl; try discriminate; [|reflexivity].
  intros H. f_equal. apply Hf, H.
Qed.

Lemma then_step_same s k : then_step s k = Same -> s = Same /\ k = Same.
Proof. destruct s; simpl; [auto|discriminate]. Qed.

Lemma word_step_same a b : word_step a b = Same -> a = b.
Proof.
  unfold word_step. intros H.
  apply then_step_same in H as [Ht H]. apply then_step_same in H as [Hs He].
  apply str_step_same in Ht.
  apply (opt_step_same _ _ _ num_step_same) in Hs, He.
  destruct a, b; simpl in *; congruence.
Qed.

Lemma words_step_same a b : words_step a b = Same -> a = b.
Proof.
  revert b. induction a as [|x a IH]; intros [|y b]; simpl; try discriminate;
    [reflexivity|].
  intros H. apply then_step_same in H as [Hw H].
  apply word_step_same in Hw. apply IH in H. congruence.
Qed.

Lemma item_step_same a b : item_step a b = Same -> a = b.
Proof.
  unfold item_step. intros H.
  apply then_step_same in H as [Ht H]. apply then_step_same in H as [Hs H].
  apply then_step_same in H as [He H]. apply then_step_same in H as [Hi H].
  apply then_step_same in H as [Hp Hw].
  apply str_step_same in Ht.
  apply (opt_step_same _ _ _ num_step_same) in Hs, He, Hi.
  apply (opt_step_same _ _ _ str_step_same) in Hp.
  apply words_step_same in Hw.
  destruct a, b; simpl in *; congruence.
Qed.

Lemma str_step_refl a : str_step a a = Same.
Proof. unfold str_step. rewrite String.eqb_refl. reflexivity. Qed.

Lemma num_step_refl a : num_step a a = Same.
Proof. unfold num_step. rewrite Z.eqb_refl. reflexivity. Qed.

Lemma word_step_refl a : word_step a a = Same.
Proof.
  unfold word_step. rewrite str_step_refl. simpl.
  destruct (w_start_time a); simpl; rewrite ?num_step_refl; simpl;
    destruct (w_end_time a); simpl; rewrite ?num_step_refl; reflexivity.
Qed.

Lemma words_step_refl a : words_step a a = Same.
Proof.
  induction a as [|x a IH]; [reflexivity|]. simpl.
  rewrite word_step_refl, IH. reflexivity.
Qed.

Lemma item_step_refl a : item_step a a = Same.
Proof.
  unfold item_step. rewrite str_step_refl. simpl.
  destruct (start_time a); simpl; rewrite ?num_step_refl; simpl;
    destruct (end_time a); simpl; rewrite ?num_step_refl; simpl;
    destruct (speaker_id a); simpl; rewrite ?num_step_refl; simpl;
    destruct (speaker a); simpl; rewrite ?str_step_refl; simpl;
    apply words_step_refl.
Qed.

Lemma item_lt_asym a b : item_lt a b = Py.Ok true -> item_lt b a = Py.Ok false.
Proof.
  unfold item_lt. rewrite (item_step_flip a b).
  destruct (item_step a b) as [|[[|]|e]]; simpl; try discriminate. reflexivity.
Qed.

(** Two conversation items with integral time stamps (as those that
    [describe_frames] builds) compare in exactly one of four ways: they are
    identical and neither is less; the first is less and the second is not;
    the second is less and the first is not; or the comparison meets an unset
    field opposite a set one and raises [TypeError] whichever way it is
    asked. *)
Theorem item_lt_trichotomy (a b : ConversationItem) :
  (a = b /\ item_lt a b = Py.Ok false /\ item_lt b a = Py.Ok false)
  \/ (a <> b /\ item_lt a b = Py.Ok true /\ item_lt b a = Py.Ok false)
  \/ (a <> b /\ item_lt a b = Py.Ok false /\ item_lt b a = Py.Ok true)
  \/ (a <> b /\ item_lt a b = Py.Raise Py.TypeError
             /\ item_lt b a = Py.Raise Py.TypeError).
Proof.
  assert (Hne : forall r, item_step a b = Decided r -> a <> b).
  { intros r Hr ->. rewrite item_step_refl in Hr. discriminate. }
  pose proof (BuilderFacts.item_lt_raises a b) as Hraise.
  unfold item_lt in *. rewrite (item_step_flip a b).
  destruct (item_step a b) as [|[[|]|e]] eqn:Hstep; simpl.
  - left. split; [apply item_step_same, Hstep|auto].
  - right. left. eauto.
  - right. right. left. eauto.
  - right. right. right. rewrite (Hraise e eq_refl). eauto.
Qed.

(** Two items with the same text of which only one has a start time cannot
    be ordered: the comparison raises [TypeError] either way, and so does
    [sorted] on the two of them, in either order. *)
Theorem mixed_start_times_raise (a b : ConversationItem) (s : Z) :
  text a = text b -> start_time a = None -> start_time b = Some s ->
  item_lt a b = Py.Raise Py.TypeError
  /\ item_lt b a = Py.Raise Py.TypeError
  /\ PySort.sorted item_lt [a; b] = Py.Raise Py.TypeError
  /\ PySort.sorted item_lt [b; a] = Py.Raise Py.TypeError.
Proof.
  intros Ht Ha Hb.
  assert (Hab : item_lt a b = Py.Raise Py.TypeError).
  { unfold item_lt, item_step. rewrite Ht, str_step_refl, Ha, Hb. reflexivity. }
  assert (Hba : item_lt b a = Py.Raise Py.TypeError).
  { unfold item_lt, item_step. rewrite Ht, str_step_refl, Ha, Hb. reflexivity. }
  repeat split; try assumption; simpl; rewrite ?Hab, ?Hba; reflexivity.
Qed.

Lemma mixed_start_times_raise_witness :
  PySort.sorted item_lt
    [mkItem "hello" None None None None [];
     mkItem "hello" (Some 0) (Some 1200) None None []]
  = Py.Raise Py.TypeError.
Proof.
  apply (mixed_start_times_raise
           (mkItem "hello" None None None None [])
           (mkItem "hello" (Some 0) (Some 1200) None None []) 0); reflexivity.
Defined.

End TypesMore.

(** ** Facts about types.py on every number *)
Module NumTypesFacts.
Import PyStr NumTypes StrFacts.

(** *** The two models agree on integral time stamps *)

Definition of_word (w : Types.ConversationWord) : ConversationWord :=
  mkWord (Types.w_text w) (option_map Int (Types.w_start_time w))
         (option_map Int (Types.w_end_time w)).

Definition of_item (it : Types.ConversationItem) : ConversationItem :=
  mkItem (Types.text it) (option_map Int (Types.start_time it))
         (option_map Int (Types.end_time it)) (Types.speaker_id it)
         (Types.speaker it) (map of_word (Types.words it)).

Lemma format_ms_whole (x : number) (a : Z) :
  int x = Py.Ok a -> _format_ms (Some x) = Py.Ok (Types._format_ms (Some a)).
Proof. intros Hx. unfold _format_ms. rewrite Hx. reflexivity. Qed.

Lemma to_string_of_item (it : Types.ConversationItem) :
  to_string (of_item it) = Py.Ok (Types.to_string it).
Proof.
  unfold to_string, Types.to_string, time_tag, Types.time_tag, of_item.
  cbn [start_time end_time text speaker].
  destruct (Types.start_time it) as [s|], (Types.end_time it) as [e|];
    cbn [option_map Py.bind];
    try (rewrite (format_ms_whole (Int s) s eq_refl),
                 (format_ms_whole (Int e) e eq_refl)); cbn [Py.bind];
    destruct (startswith Types.KEYFRAME_PREFIX (Types.text it));
    try reflexivity;
    destruct (partition_nl (Types.text it)) as [[header sep] rest]; reflexivity.
Qed.

(** [int] of a float drops the fraction: the result is the whole number
    next to the float on the side of zero. *)
Lemma int_truncates (q : Q) (a : Z) :
  int (Float (Finite q)) = Py.Ok a ->
  ((0 <= q)%Q -> (inject_Z a <= q)%Q /\ (q < inject_Z a + 1)%Q)
  /\ ((q <= 0)%Q -> (inject_Z a - 1 < q)%Q /\ (q <= inject_Z a)%Q).
Proof.
  intros [= <-]. destruct q as [n d].
  pose proof (Z.quot_rem' n (Z.pos d)) as Hqr.
  pose proof (Z.rem_bound_pos_pos n (Z.pos d) eq_refl) as Hpos.
  pose proof (Z.rem_bound_pos_neg n (Z.pos d) eq_refl) as Hneg.
  cbn [Qnum Qden].
  set (k := Z.quot n (Z.pos d)) in *. set (r := Z.rem n (Z.pos d)) in *.
  clearbody k r.
  unfold Qminus, Qle, Qlt, Qplus, Qopp, inject_Z.
  cbn [Qnum Qden Pos.mul Z.opp].
  set (D := Z.pos d) in *. clearbody D.
  rewrite ?Z.mul_1_r, ?Z.mul_0_l.
  split; intros Hn; [specialize (Hpos Hn)|specialize (Hneg Hn)]; lia.
Qed.

(** *** The format of the specification *)

(** The decimal digits. *)
Definition decimal_digit (d : Z) : ascii :=
  match d with
  | 0 => "0" | 1 => "1" | 2 => "2" | 3 => "3" | 4 => "4"
  | 5 => "5" | 6 => "6" | 7 => "7" | 8 => "8" | _ => "9"
  end%char.

(** [HH:MM:SS.mmm]: the hours, minutes, seconds and milliseconds that [ms]
    milliseconds are, each with all its digits. *)
Definition hh_mm_ss_mmm (ms : Z) : string :=
  let hours := ms / 3600000 in
  let minutes := (ms / 60000) mod 60 in
  let seconds := (ms / 1000) mod 60 in
  let millis := ms mod 1000 in
  String (decimal_digit (hours / 10)) (String (decimal_digit (hours mod 10))
  (String ":"
  (String (decimal_digit (minutes / 10)) (String (decimal_digit (minutes mod 10))
  (String ":"
  (String (decimal_digit (seconds / 10)) (String (decimal_digit (seconds mod 10))
  (String "."
  (String (decimal_digit (millis / 100))
  (String (decimal_digit ((millis / 10) mod 10))
  (String (decimal_digit (millis mod 10)) ""))))))))))).

Lemma digit_char_decimal d : 0 <= d < 10 -> digit_char d = decimal_digit d.
Proof.
  intros Hd.
  assert (Hcases : d = 0 \/ d = 1 \/ d = 2 \/ d = 3 \/ d = 4 \/ d = 5 \/ d = 6
                   \/ d = 7 \/ d = 8 \/ d = 9) by lia.
  repeat (destruct Hcases as [->|Hcases]; [reflexivity|]). subst d. reflexivity.
Qed.

Lemma format_ms_hh_mm_ss_mmm ms :
  0 <= ms < 360000000 -> Types._format_ms (Some ms) = hh_mm_ss_mmm ms.
Proof.
  intros Hms. unfold Types._format_ms, hh_mm_ss_mmm. cbv zeta.
  replace (ms / 3600000) with (ms / 1000 / 60 / 60)
    by (rewrite !Z.div_div by lia; reflexivity).
  replace (ms / 60000) with (ms / 1000 / 60)
    by (rewrite !Z.div_div by lia; reflexivity).
  set (h := ms / 1000 / 60 / 60).
  set (m := (ms / 1000 / 60) mod 60).
  set (s := (ms / 1000) mod 60).
  set (f := ms mod 1000).
  assert (Hh : 0 <= h < 100) by (subst h; Z.div_mod_to_equations; lia).
  assert (Hm : 0 <= m < 60) by (subst m; apply Z.mod_pos_bound; lia).
  assert (Hs : 0 <= s < 60) by (subst s; apply Z.mod_pos_bound; lia).
  assert (Hf : 0 <= f < 1000) by (subst f; apply Z.mod_pos_bound; lia).
  rewrite (TypesMore.zero_pad_2_digits h), (TypesMore.zero_pad_2_digits m),
    (TypesMore.zero_pad_2_digits s), (TypesMore.zero_pad_3_digits f) by lia.
  rewrite !digit_char_decimal by (Z.div_mod_to_equations; lia).
  reflexivity.
Qed.

(** The bound of two-digit hours: 100 hours in milliseconds. *)
Definition HOURS_100 : Z := 360000000.

(** The speaker tag and the text, as [to_string] joins them. *)
Definition speaker_and_text (it : ConversationItem) : list string :=
  match speaker it with
  | Some sp => ["[speaker:" +:+ sp +:+ "]"]
  | None => []
  end ++ [text it].

Lemma to_string_plain it :
  startswith Types.KEYFRAME_PREFIX (text it) = false ->
  to_string it =
    let* tag := time_tag it in
    Py.Ok (join " " (match tag with Some t => [t] | None => [] end
                     ++ speaker_and_text it)).
Proof.
  intros Hk. unfold to_string, speaker_and_text. rewrite Hk.
  destruct (time_tag it) as [[t|]|e] eqn:Htag; cbn [Py.bind];
    [|destruct (speaker it); reflexivity|reflexivity].
  assert (Hne : nonempty t = true).
  { unfold time_tag in Htag.
    destruct (start_time it) as [s|], (end_time it) as [e|]; try discriminate.
    destruct (_format_ms (Some s)); [|discriminate].
    destruct (_format_ms (Some e)); [|discriminate].
    injection Htag as <-. reflexivity. }
  unfold append_if_truthy. rewrite Hne.
  destruct (speaker it); reflexivity.
Qed.

(** C2, as amended: for an item whose text does not start with the keyframe
    marker, [to_string] joins with single spaces the time tag, the optional
    speaker tag and the raw text.  With a bound unset there is no time tag at
    all, and nothing is converted.  With both bounds set each is converted by
    [int], which truncates a float, and the tag is
    [[time: HH:MM:SS.mmm-HH:MM:SS.mmm]], hours, minutes, seconds and
    milliseconds in decimal, for whole milliseconds from 0 to below 100 hours;
    a bound that [int] rejects makes [to_string] raise the exception of
    [int], the start time first.  [int] of a finite float is the whole
    number next to it on the side of zero; [nan] gives [ValueError] and an
    infinity [OverflowError]. *)
Theorem C2_to_string_plain_item (it : ConversationItem) :
  startswith Types.KEYFRAME_PREFIX (text it) = false ->
  (start_time it = None \/ end_time it = None ->
     to_string it = Py.Ok (join " " (speaker_and_text it)))
  /\ (forall s e a b,
        start_time it = Some s -> end_time it = Some e ->
        int s = Py.Ok a -> int e = Py.Ok b ->
        0 <= a < HOURS_100 -> 0 <= b < HOURS_100 ->
        to_string it =
          Py.Ok (join " "
                   (["[time: " +:+ hh_mm_ss_mmm a +:+ "-" +:+ hh_mm_ss_mmm b +:+ "]"]
                    ++ speaker_and_text it)))
  /\ (forall s e err,
        start_time it = Some s -> end_time it = Some e ->
        int s = Py.Raise err \/ ((exists a, int s = Py.Ok a) /\ int e = Py.Raise err) ->
        to_string it = Py.Raise err)
  /\ (forall q, exists a,
        int (Float (Finite q)) = Py.Ok a
        /\ ((0 <= q)%Q -> (inject_Z a <= q)%Q /\ (q < inject_Z a + 1)%Q)
        /\ ((q <= 0)%Q -> (inject_Z a - 1 < q)%Q /\ (q <= inject_Z a)%Q))
  /\ int (Float NaN) = Py.Raise Py.ValueError
  /\ (forall negative, int (Float (Infinite negative)) = Py.Raise Py.OverflowError).
Proof.
  intros Hk. rewrite (to_string_plain it Hk). unfold time_tag.
  split; [|split; [|split; [|split; [|split; [reflexivity|reflexivity]]]]].
  - intros [-> | ->]; [reflexivity|]. destruct (start_time it); reflexivity.
  - intros s e a b -> -> Hs He Ha Hb.
    rewrite (format_ms_whole s a Hs), (format_ms_whole e b He). cbn [Py.bind].
    rewrite !format_ms_hh_mm_ss_mmm by assumption. reflexivity.
  - intros s e err -> -> [Hs | [[a Hs] He]].
    + unfold _format_ms. rewrite Hs. reflexivity.
    + rewrite (format_ms_whole s a Hs). cbn [Py.bind].
      unfold _format_ms. rewrite He. reflexivity.
  - intros q. eexists. split; [reflexivity|]. apply int_truncates. reflexivity.
Qed.

(** A talk that starts 1200.75 ms in and ends at 2000 ms, a greeting without a start
    time, and an item whose start time is [nan]. *)
Definition timed_item : ConversationItem :=
  mkItem "hello world" (Some (Float (Finite (4803 # 4)))) (Some (Int 2000))
         None (Some "A") [].
Definition untimed_item : ConversationItem :=
  mkItem "hello" None (Some (Int 1200)) None None [].
Definition nan_item : ConversationItem :=
  mkItem "hello" (Some (Float NaN)) (Some (Int 1200)) None None [].

(** A segment of an answer of the speech service, with float time stamps. *)
Definition morning_segment : Json.json :=
  Json.JDict [("text", Json.JStr " good morning "); ("start", Json.JFloat (1 # 2));
              ("end", Json.JFloat (4801 # 2)); ("speaker_label", Json.JStr "A")].

Lemma C2_to_string_plain_item_witness :
  to_string timed_item
    = Py.Ok "[time: 00:00:01.200-00:00:02.000] [speaker:A] hello world"
  /\ to_string untimed_item = Py.Ok "hello"
  /\ to_string nan_item = Py.Raise Py.ValueError
  /\ (exists raw it,
        Asr.parse_segment morning_segment = Py.Ok raw
        /\ Asr.to_num_item raw = Some it
        /\ start_time it = Some (Float (Finite (1 # 2)))
        /\ to_string it
           = Py.Ok "[time: 00:00:00.000-00:00:02.400] [speaker:A] good morning").
Proof.
  split; [|split; [|split]];
    [| | |eexists _, _; repeat split; vm_compute; reflexivity].
  - destruct (C2_to_string_plain_item timed_item) as (_ & H & _); [reflexivity|].
    rewrite (H (Float (Finite (4803 # 4))) (Int 2000) 1200 2000);
      try reflexivity; unfold HOURS_100; lia.
  - destruct (C2_to_string_plain_item untimed_item) as (H & _); [reflexivity|].
    rewrite H; [reflexivity|]. left. reflexivity.
  - destruct (C2_to_string_plain_item nan_item) as (_ & _ & H & _); [reflexivity|].
    apply (H (Float NaN) (Int 1200)); try reflexivity. left. reflexivity.
Defined.

(** What the specification's sentence describes: the tag is always there and
    an unset bound is rendered by the placeholder of [_format_ms]. *)
Definition to_string_placeholder (it : ConversationItem) : Py.result string :=
  let* fs := _format_ms (start_time it) in
  let* fe := _format_ms (end_time it) in
  Py.Ok (join " " (["[time: " +:+ fs +:+ "-" +:+ fe +:+ "]"] ++ speaker_and_text it)).

(** C2, as stated, fails: with an unset start time no tag is rendered, so the
    placeholder never reaches the output. *)
Lemma C2_placeholder_not_rendered :
  startswith Types.KEYFRAME_PREFIX (text untimed_item) = false
  /\ to_string_placeholder untimed_item
     = Py.Ok "[time: --:--:--.----00:00:01.200] hello"
  /\ to_string untimed_item = Py.Ok "hello"
  /\ to_string untimed_item <> to_string_placeholder untimed_item.
Proof. repeat split; try reflexivity. discriminate. Qed.

(** *** Reading a rendered time stamp back *)

(** [_format_ms] renders the whole milliseconds [int(ms)] and nothing else:
    below 100 hours they can be read back from the text, so two time stamps
    render alike exactly when they have the same whole milliseconds. *)
Theorem format_ms_reads_whole_ms (x y : number) (a b : Z) :
  int x = Py.Ok a -> int y = Py.Ok b ->
  0 <= a < HOURS_100 -> 0 <= b < HOURS_100 ->
  (exists s, _format_ms (Some x) = Py.Ok s /\ TypesMore.parse_hms s = Some a)
  /\ (_format_ms (Some x) = _format_ms (Some y) <-> a = b).
Proof.
  intros Hx Hy Ha Hb.
  rewrite (format_ms_whole x a Hx), (format_ms_whole y b Hy).
  pose proof (TypesMore.format_ms_round_trip a Ha) as Hra.
  pose proof (TypesMore.format_ms_round_trip b Hb) as Hrb.
  split; [eauto|]. split; [|intros ->; reflexivity].
  revert Hra Hrb.
  generalize (Types._format_ms (Some a)) (Types._format_ms (Some b)).
  intros fa fb Hra Hrb [= ->]. congruence.
Qed.

Lemma format_ms_reads_whole_ms_witness :
  _format_ms (Some (Float (Finite 0))) = _format_ms (Some (Float (Finite (1 # 2))))
  /\ _format_ms (Some (Float (Finite (1 # 2)))) = Py.Ok "00:00:00.000"
  /\ _format_ms (Some (Int 3723004)) = Py.Ok "01:02:03.004".
Proof.
  split; [|split; reflexivity].
  apply (format_ms_reads_whole_ms (Float (Finite 0)) (Float (Finite (1 # 2))) 0 0);
    try reflexivity; unfold HOURS_100; lia.
Defined.

End NumTypesFacts.

(** ** More facts about [sorted] and the document builder *)
Module BuilderMore.
Import PyStr Types DocumentBuilder TypesMore.

Section SortedFacts.
Context {A : Type} (lt : A -> A -> Py.result bool).

Lemma insert_permutation x l l' :
  PySort.insert lt x l = Py.Ok l' -> l' ≡ₚ x :: l.
Proof.
  revert l'. induction l as [|y r IH]; intros l'; simpl.
  - intros [= <-]. reflexivity.
  - destruct (lt y x) as [[|]|e]; simpl; try discriminate.
    + destruct (PySort.insert lt x r) as [r'|e] eqn:Hins; simpl; [|discriminate].
      intros [= <-]. rewrite (IH r' eq_refl). apply Permutation_swap.
    + intros [= <-]. reflexivity.
Qed.

Lemma sorted_permutation l l' : PySort.sorted lt l = Py.Ok l' -> l' ≡ₚ l.
Proof.
  revert l'. induction l as [|x r IH]; intros l'; simpl.
  - intros [= <-]. reflexivity.
  - destruct (PySort.sorted lt r) as [r'|e] eqn:Hs; simpl; [|discriminate].
    intros Hins. apply insert_permutation in Hins. rewrite Hins, (IH r' eq_refl).
    reflexivity.
Qed.

(** No element is less than the one before it. *)
Definition ascending (l : list A) : Prop :=
  forall i a b, l !! i = Some a -> l !! S i = Some b -> lt b a = Py.Ok false.

Hypothesis lt_asym : forall a b, lt a b = Py.Ok true -> lt b a = Py.Ok false.

Lemma ascending_cons x y r :
  lt y x = Py.Ok false -> ascending (y :: r) -> ascending (x :: y :: r).
Proof.
  intros Hxy Hr [|i] a b Ha Hb; simpl in *.
  - injection Ha as <-. injection Hb as <-. exact Hxy.
  - apply (Hr i a b Ha Hb).
Qed.

Lemma ascending_tail x r : ascending (x :: r) -> ascending r.
Proof. intros Hr i a b Ha Hb. apply (Hr (S i) a b Ha Hb). Qed.

Lemma insert_head x l l' :
  PySort.insert lt x l = Py.Ok l' ->
  exists h t, l' = h :: t /\ (h = x \/ (exists r, l = h :: r /\ lt h x = Py.Ok true)).
Proof.
  destruct l as [|y r]; simpl.
  - intros [= <-]. eauto.
  - destruct (lt y x) as [[|]|e] eqn:Hlt; simpl; try discriminate.
    + destruct (PySort.insert lt x r) as [r'|e]; simpl; [|discriminate].
      intros [= <-]. exists y, r'. split; [reflexivity|]. right. eauto.
    + intros [= <-]. eauto.
Qed.

Lemma insert_ascending x l l' :
  ascending l -> PySort.insert lt x l = Py.Ok l' -> ascending l'.
Proof.
  revert l'. induction l as [|y r IH]; intros l' Hl; simpl.
  - intros [= <-]. intros [|i] a b Ha Hb; discriminate.
  - destruct (lt y x) as [[|]|e] eqn:Hlt; simpl; try discriminate.
    + destruct (PySort.insert lt x r) as [r'|e] eqn:Hins; simpl; [|discriminate].
      intros [= <-].
      pose proof (IH r' (ascending_tail y r Hl) eq_refl) as Hr'.
      destruct (insert_head x r r' Hins) as (h & t & -> & [->|(r0 & -> & Hh)]).
      * apply ascending_cons; [apply lt_asym, Hlt|exact Hr'].
      * apply ascending_cons; [|exact Hr'].
        apply (Hl 0%nat y h); reflexivity.
    + intros [= <-]. apply ascending_cons; assumption.
Qed.

Lemma sorted_ascending l l' : PySort.sorted lt l = Py.Ok l' -> ascending l'.
Proof.
  revert l'. induction l as [|x r IH]; intros l'; simpl.
  - intros [= <-]. intros [|i] a b Ha Hb; discriminate.
  - destruct (PySort.sorted lt r) as [r'|e] eqn:Hs; simpl; [|discriminate].
    apply insert_ascending, IH. reflexivity.
Qed.
End SortedFacts.

(** The line a summary adds in front of the items. *)
Definition summary_lines (summary : option string) : list string :=
  match summary with
  | Some s => if nonempty s then ["[summary] " +:+ strip s] else []
  | None => []
  end.

(** The texts of a document that is built are the summary line (when the
    summary is neither missing nor empty) followed by the rendering of every
    conversation item exactly once, in an order in which no item is less than
    the one before it. *)
Theorem build_docling_document_contents
    (filename mimetype binary_hash : string)
    (conversation : list ConversationItem) (summary : option string)
    (doc : DoclingDocument) :
  build_docling_document filename mimetype binary_hash conversation summary = Py.Ok doc ->
  exists ordered,
    ordered ≡ₚ conversation
    /\ ascending item_lt ordered
    /\ d_texts doc = summary_lines summary ++ map to_string ordered
    /\ length (d_texts doc)
       = (length (summary_lines summary) + length conversation)%nat.
Proof.
  unfold build_docling_document.
  destruct (PySort.sorted item_lt conversation) as [ordered|e] eqn:Hs; simpl;
    [|discriminate].
  intros [= <-]. simpl.
  exists ordered.
  pose proof (sorted_permutation item_lt conversation ordered Hs) as Hperm.
  split; [exact Hperm|]. split.
  - apply (sorted_ascending item_lt item_lt_asym conversation ordered Hs).
  - split; [reflexivity|].
    unfold summary_lines. rewrite length_app, length_map, Hperm. reflexivity.
Qed.

(** A digest as [_compute_binary_hash] gives it. *)
Definition talk_digest : string :=
  "9f86d081884c7d659a2feaa0c55ad015a3bf4f1b2b0b822cd15d6c15b0f00a08".

Lemma build_docling_document_contents_witness :
  exists ordered,
    ordered ≡ₚ [TypesFacts.early_item; TypesFacts.late_item]
    /\ ascending item_lt ordered
    /\ summary_lines (Some "talk") ++ map to_string ordered
       = ["[summary] talk"; "[time: 00:00:05.000-00:00:06.000] a";
          "[time: 00:00:00.000-00:00:01.000] b"].
Proof.
  destruct (build_docling_document_contents "a.mp4" "video/mp4" talk_digest
              [TypesFacts.early_item; TypesFacts.late_item] (Some "talk")
              (mkDoc "a.mp4" (mkOrigin "a.mp4" "video/mp4" talk_digest)
                 ["[summary] talk"; "[time: 00:00:05.000-00:00:06.000] a";
                  "[time: 00:00:00.000-00:00:01.000] b"]))
    as (ordered & Hperm & Hasc & Htexts & _); [reflexivity|].
  exists ordered. split; [assumption|]. split; [assumption|].
  symmetry. exact Htexts.
Defined.

End BuilderMore.

(** ** More facts about media/audio.py *)
Module AudioMore.
Import PyStr Eff Audio AudioFacts StrFacts.

Lemma lower_char_idempotent c : lower_char (lower_char c) = lower_char c.
Proof.
  destruct c as [[|] [|] [|] [|] [|] [|] [|] [|]]; reflexivity.
Qed.

Lemma lower_idempotent s : lower (lower s) = lower s.
Proof.
  induction s as [|c s IH]; [reflexivity|]. simpl.
  rewrite lower_char_idempotent, IH. reflexivity.
Qed.

Lemma lower_append a b : lower (a +:+ b) = lower a +:+ lower b.
Proof.
  induction a as [|c a IH]; [reflexivity|].
  rewrite append_cons. simpl. rewrite IH. reflexivity.
Qed.

Lemma contains_append_l p a s : contains p s = true -> contains p (a +:+ s) = true.
Proof.
  intros Hs. induction a as [|c a IH]; [exact Hs|].
  rewrite append_cons. simpl. rewrite IH. apply orb_true_r.
Qed.

Lemma contains_middle p a b : contains p (a +:+ p +:+ b) = true.
Proof.
  apply contains_append_l.
  destruct (p +:+ b) eqn:Hpb; simpl; rewrite <- Hpb, startswith_append; reflexivity.
Qed.

(** A marker is recognised wherever it stands in the diagnostics and in
    whatever letter case it is written. *)
Lemma no_audio_marker_found marker a b diagnostics :
  In marker _NO_AUDIO_ERROR_MARKERS ->
  lower diagnostics = lower (a +:+ marker +:+ b) ->
  no_audio_marker diagnostics = true.
Proof.
  intros Hin Hd. unfold no_audio_marker. apply existsb_exists.
  exists marker. split; [exact Hin|].
  rewrite Hd, !lower_append. apply contains_middle.
Qed.

(** A conversion that exits non-zero with one of the markers anywhere in its
    diagnostics, in any letter case, is reported as a missing audio stream,
    never as a failed conversion. *)
Theorem ensure_wav_audio_marker_any_case
    (tmp : string) (run : list string -> CompletedProcess) (source : string)
    (w : world) (marker a b : string) :
  lower (PyPath.suffix source) <> ".wav" ->
  returncode (run (ffmpeg_cmd source tmp)) <> 0 ->
  In marker _NO_AUDIO_ERROR_MARKERS ->
  lower (stderr (run (ffmpeg_cmd source tmp))) = lower (a +:+ marker +:+ b) ->
  (ensure_wav_audio tmp run source w).1
    = Py.Raise (Py.NoAudioStreamError ("No audio stream found in file: " +:+ source)).
Proof.
  intros Hs Hrc Hin Hd.
  rewrite ensure_wav_audio_convert by assumption. simpl.
  destruct (Z.eqb_spec (returncode (run (ffmpeg_cmd source tmp))) 0); [contradiction|].
  rewrite (no_audio_marker_found marker a b _ Hin Hd). reflexivity.
Qed.

Lemma ensure_wav_audio_marker_any_case_witness :
  (ensure_wav_audio "/tmp/t.wav"
     (exits 1 "[out#0] OUTPUT FILE DOES NOT CONTAIN ANY STREAM (check -map)")
     "/data/clip.mp4" empty_world).1
  = Py.Raise (Py.NoAudioStreamError "No audio stream found in file: /data/clip.mp4").
Proof.
  apply (ensure_wav_audio_marker_any_case "/tmp/t.wav" _ "/data/clip.mp4" empty_world
           "Output file does not contain any stream" "[out#0] " " (check -map)").
  - discriminate.
  - discriminate.
  - left. reflexivity.
  - reflexivity.
Defined.

(** [ensure_wav_audio] removes no file but its own temporary one, so the
    source is still there afterwards whatever the outcome; it runs at most
    one process, the conversion of the source into the temporary file with
    one channel at 16 kHz. *)
Theorem ensure_wav_audio_footprint
    (tmp : string) (run : list string -> CompletedProcess) (source : string)
    (w : world) :
  PyPath.suffix tmp = ".wav" ->
  source ∈ files w ->
  (source ∈ files (ensure_wav_audio tmp run source w).2)
  /\ (forall p, p ∈ files w -> p <> tmp -> p ∈ files (ensure_wav_audio tmp run source w).2)
  /\ (forall p, p ∈ files (ensure_wav_audio tmp run source w).2 -> p ∈ files w \/ p = tmp)
  /\ trace (ensure_wav_audio tmp run source w).2 =
       trace w ++
       (if String.eqb (lower (PyPath.suffix source)) ".wav" then []
        else [Subprocess ["ffmpeg"; "-i"; source; "-ac"; "1"; "-ar"; "16000"; tmp; "-y"]]).
Proof.
  intros Htmp Hsrc.
  destruct (String.eqb_spec (lower (PyPath.suffix source)) ".wav") as [Hwav|Hwav].
  - rewrite ensure_wav_audio_wav by assumption. simpl. rewrite app_nil_r. auto.
  - assert (Hne : source <> tmp).
    { intros ->. apply Hwav. rewrite Htmp. reflexivity. }
    rewrite ensure_wav_audio_convert by assumption. simpl.
    destruct (returncode (run (ffmpeg_cmd source tmp)) =? 0);
      [|destruct (no_audio_marker _)]; simpl;
      repeat split; try reflexivity;
      try (intros p Hp; set_unfold; tauto);
      try (intros p Hp Hpt; set_unfold; tauto);
      set_unfold; tauto.
Qed.

Lemma ensure_wav_audio_footprint_witness :
  "/data/clip.mp4" ∈ files
    (ensure_wav_audio "/tmp/t.wav" (exits 1 "boom") "/data/clip.mp4"
       (mkWorld {["/data/clip.mp4"]} [])).2.
Proof.
  destruct (ensure_wav_audio_footprint "/tmp/t.wav" (exits 1 "boom") "/data/clip.mp4"
              (mkWorld {["/data/clip.mp4"]} [])) as [Hkept _].
  - reflexivity.
  - vm_compute. reflexivity.
  - exact Hkept.
Defined.

End AudioMore.

(** ** More facts about pipelines/asr_pipeline.py *)
Module PipelineMore.
Import PyStr Types Eff EffFacts Files FilesFacts Audio AudioFacts Pipeline PipelineFacts.

(** A computation that leaves the world as it is. *)
Definition stateless {A : Type} (m : M A) : Prop := forall w, (m w).2 = w.

Lemma stateless_ret {A : Type} (a : A) : stateless (ret a).
Proof. intros w. reflexivity. Qed.

Lemma stateless_raise {A : Type} e : stateless (raise (A := A) e).
Proof. intros w. reflexivity. Qed.

Lemma stateless_lift {A : Type} (r : Py.result A) : stateless (lift r).
Proof. intros w. reflexivity. Qed.

Lemma stateless_bind {A B : Type} (m : M A) (k : A -> M B) :
  stateless m -> (forall a, stateless (k a)) -> stateless (bind m k).
Proof.
  intros Hm Hk w. unfold bind. specialize (Hm w).
  destruct (m w) as [[a|e] w1]; simpl in *; subst; [apply Hk|reflexivity].
Qed.

Lemma stateless_catch {A : Type} (m : M A) (h : Py.exn -> option (M A)) :
  stateless m -> (forall e k, h e = Some k -> stateless k) -> stateless (catch m h).
Proof.
  intros Hm Hh w. unfold catch. specialize (Hm w).
  destruct (m w) as [[a|e] w1]; simpl in *; subst; [reflexivity|].
  destruct (h e) as [k|] eqn:He; [apply (Hh e k He)|reflexivity].
Qed.

(** A removed name is not among the files left. *)
Lemma removed_gone (t : string) (X : gset string) : t ∉ X ∖ {[t]}.
Proof.
  intros [_ H]%elem_of_difference. apply H, elem_of_singleton. reflexivity.
Qed.

(** A file made and removed again leaves the others as they were. *)
Lemma made_and_removed (t p : string) (X : gset string) :
  p ∈ ({[t]} ∪ X) ∖ {[t]} -> p ∈ X.
Proof.
  intros [[H|H]%elem_of_union Hn]%elem_of_difference; [contradiction|exact H].
Qed.


Section MoreRuns.
Context {T : Type}.
Variable sha256_hex : list byte -> string.
Variable env : environment (T := T).
Variable self : AsrPipelineLite (T := T).

(** The block of [_describe_video_frames] under [try]. *)
Lemma describe_video_frames_effect backend_result w :
  exists items,
    _describe_video_frames env self backend_result w =
      (Py.Ok items,
       match vision_provider self, b_input backend_result with
       | Some _, IsBytesIO _ =>
           mkWorld (({[source_of env backend_result]} ∪ files w)
                      ∖ {[source_of env backend_result]}) (trace w)
       | _, _ => w
       end)
    /\ (vision_provider self = None -> items = []).
Proof using env self.
  unfold _describe_video_frames, source_of.
  destruct (vision_provider self) as [vp|]; [|exists []; split; reflexivity].
  destruct backend_result as [[p|data] fname]; simpl.
  - unfold bind at 1. simpl. unfold finally.
    match goal with |- context [catch ?m ?h w] =>
      assert (Hs : stateless (catch m h));
        [|pose proof (Hs w) as Hw; destruct (catch m h w) as [[items|e] w1] eqn:Hc]
    end.
    + apply stateless_catch.
      * apply stateless_bind; [intros w0; reflexivity|intros present].
        apply stateless_bind; [apply stateless_lift|intros frames].
        destruct frames; [apply stateless_ret|apply stateless_lift].
      * intros e k [= <-]. apply stateless_ret.
    + simpl in *. subst w1. exists items. split; [reflexivity|discriminate].
    + exfalso. unfold catch in Hc.
      match type of Hc with context [bind ?m ?k w] => destruct (bind m k w) as [[?|?] ?] end;
        discriminate.
  - unfold bind at 1, _write_temp_file, create_file. simpl. unfold finally.
    match goal with |- context [catch ?m ?h ?w0] =>
      assert (Hs : stateless (catch m h));
        [|pose proof (Hs w0) as Hw; destruct (catch m h w0) as [[items|e] w1] eqn:Hc]
    end.
    + apply stateless_catch.
      * apply stateless_bind; [intros w0; reflexivity|intros present].
        apply stateless_bind; [apply stateless_lift|intros frames].
        destruct frames; [apply stateless_ret|apply stateless_lift].
      * intros e k [= <-]. apply stateless_ret.
    + simpl in *. subst w1. exists items. split; [reflexivity|discriminate].
    + exfalso. unfold catch in Hc.
      match type of Hc with context [bind ?m ?k ?w0] =>
        destruct (bind m k w0) as [[?|?] ?] end; discriminate.
Qed.


(** [_prepare_wav_artifact] on an in-memory input, step by step. *)
Lemma prepare_wav_artifact_bytes backend_result data w :
  b_input backend_result = IsBytesIO data ->
  _prepare_wav_artifact env backend_result w =
    let t := source_of env backend_result in
    let '(r, w1) :=
      ensure_wav_audio (env_mkstemp env) (env_ffmpeg env) t
        (mkWorld ({[t]} ∪ files w) (trace w)) in
    match r with
    | Py.Ok wav =>
        (Py.Ok (Some wav),
         if String.eqb wav t then w1 else mkWorld (files w1 ∖ {[t]}) (trace w1))
    | Py.Raise (Py.NoAudioStreamError _) =>
        (Py.Ok None, mkWorld (files w1 ∖ {[t]}) (trace w1))
    | Py.Raise e => (Py.Raise e, mkWorld (files w1 ∖ {[t]}) (trace w1))
    end.
Proof.
  intros Hin. unfold _prepare_wav_artifact, source_of. rewrite Hin.
  unfold bind at 1, _write_temp_file, create_file. simpl.
  unfold finally, catch, bind at 1.
  set (t := env_named_temp env _).
  destruct (ensure_wav_audio (env_mkstemp env) (env_ffmpeg env) t
              (mkWorld ({[t]} ∪ files w) (trace w))) as [[wav|e] w1]; simpl.
  - destruct (String.eqb wav _); reflexivity.
  - destruct e; reflexivity.
Qed.

(** For an in-memory input the temporary copy made by [_prepare_wav_artifact]
    is gone when the function is left, by return or by exception, unless the
    copy itself is what is returned as the WAV artifact. *)
Theorem prepare_wav_artifact_temp_copy
    (backend_result : BackendResult) (data : list byte) (w : world) :
  b_input backend_result = IsBytesIO data ->
  (_prepare_wav_artifact env backend_result w).1
     = Py.Ok (Some (source_of env backend_result))
  \/ source_of env backend_result
       ∉ files (_prepare_wav_artifact env backend_result w).2.
Proof using env.
  intros Hin. rewrite (prepare_wav_artifact_bytes backend_result data w Hin).
  cbv zeta. set (t := source_of env backend_result).
  destruct (ensure_wav_audio (env_mkstemp env) (env_ffmpeg env) t
              (mkWorld ({[t]} ∪ files w) (trace w))) as [[wav|e] w1]; simpl.
  - destruct (String.eqb_spec wav t) as [->|Hne]; simpl.
    + left. reflexivity.
    + right. apply removed_gone.
  - destruct e; simpl; right; apply removed_gone.
Qed.

(** An input that [validate_input] rejects ends the run with that error
    before anything is done: a path that does not exist gives
    [FileNotFoundError], an in-memory input without a file name or without
    bytes gives [ValueError], and the world is as before. *)
Theorem rejected_input_touches_nothing
    (language : string) (summary : option string) (w : world) :
  (forall p filename,
     p ∉ files w ->
     transcribe_with_artifacts sha256_hex env self (IsPath p) filename language summary w
       = (Py.Raise Py.FileNotFoundError, w))
  /\ (forall data,
        transcribe_with_artifacts sha256_hex env self (IsBytesIO data) None language summary w
          = (Py.Raise Py.ValueError, w)
        /\ transcribe_with_artifacts sha256_hex env self (IsBytesIO data) (Some "")
             language summary w
          = (Py.Raise Py.ValueError, w))
  /\ (forall filename,
        transcribe_with_artifacts sha256_hex env self (IsBytesIO []) filename language summary w
          = (Py.Raise Py.ValueError, w)).
Proof.
  split; [|split].
  - intros p filename Hp.
    unfold transcribe_with_artifacts, speech_stage, bind, validate_input.
    destruct (decide (p ∈ files w)); [contradiction|reflexivity].
  - intros data. split; reflexivity.
  - intros [f|]; [|reflexivity].
    unfold transcribe_with_artifacts, speech_stage, bind, validate_input.
    destruct (nonempty f); reflexivity.
Qed.

(** The speech stage for a path that is already WAV: the file is handed to
    the provider as it is and nothing else happens. *)
Lemma speech_stage_wav_path p filename language w :
  p ∈ files w -> lower (PyPath.suffix p) = ".wav" ->
  speech_stage env self (IsPath p) filename language w =
    (match transcribe_path (provider self) p language with
     | Py.Ok conversation =>
         Py.Ok (mkBackend (IsPath p) (PyPath.name p), Some p, conversation)
     | Py.Raise e => Py.Raise e
     end,
     mkWorld (files w) (trace w ++ [SpeechToText p])).
Proof.
  intros Hp Hwav.
  unfold speech_stage, bind at 1, validate_input.
  destruct (decide (p ∈ files w)); [|contradiction].
  unfold bind at 1, _prepare_wav_artifact. simpl.
  unfold bind at 1. simpl. unfold finally, catch, bind at 1.
  rewrite ensure_wav_audio_wav by assumption. simpl.
  unfold bind, emit, lift, ret. simpl.
  destruct (transcribe_path (provider self) p language); reflexivity.
Qed.

(** A path input that is already WAV goes through the pipeline without a
    conversion and without a temporary file: the provider is asked about the
    input file itself, an error of the provider ends the run, and a result
    names the input path as its audio artifact.  No file is made or removed. *)
Theorem wav_path_is_its_own_artifact
    (p : string) (filename : option string) (language : string)
    (summary : option string) (w : world) :
  p ∈ files w -> lower (PyPath.suffix p) = ".wav" ->
  let run := transcribe_with_artifacts sha256_hex env self
               (IsPath p) filename language summary w in
  files run.2 = files w
  /\ (exists events,
        trace run.2 = trace w ++ SpeechToText p :: events
        /\ forall cmd, Subprocess cmd ∉ events)
  /\ (forall e, transcribe_path (provider self) p language = Py.Raise e ->
        run.1 = Py.Raise e)
  /\ (forall r, run.1 = Py.Ok r -> audio_path r = Some p).
Proof.
  intros Hp Hwav run.
  assert (E : run = transcribe_with_artifacts sha256_hex env self
                      (IsPath p) filename language summary w) by reflexivity.
  clearbody run.
  unfold transcribe_with_artifacts in E. unfold bind at 1 in E.
  rewrite (speech_stage_wav_path p filename language w Hp Hwav) in E.
  destruct (transcribe_path (provider self) p language) as [conversation|e0].
  2:{ subst run. simpl. split; [reflexivity|]. split.
      - exists []. split; [reflexivity|]. intros cmd Hin. inversion Hin.
      - split; [intros e [= <-]; reflexivity|discriminate]. }
  set (backend_result := mkBackend (IsPath p) (PyPath.name p)) in E.
  set (w1 := mkWorld (files w) (trace w ++ [SpeechToText p])) in E.
  destruct (_should_use_visual_fallback self _ conversation).
  - unfold bind at 1 in E. unfold bind at 1 in E. unfold emit at 1 in E.
    set (w2 := mkWorld (files w1) (trace w1 ++ [VisualFallback (b_filename backend_result)])) in E.
    destruct (describe_video_frames_effect backend_result w2) as (items & Hrun & _).
    unfold bind at 1 in E. rewrite Hrun in E.
    replace (match vision_provider self with
             | Some _ => match b_input backend_result with
                         | IsPath _ => w2
                         | IsBytesIO _ => _
                         end
             | None => w2
             end) with w2 in E by (destruct (vision_provider self); reflexivity).
    unfold ret at 1 in E. unfold bind, lift, ret in E.
    destruct (DocumentBuilder.build_docling_document _ _ _ _ _); subst run; simpl;
      (split; [reflexivity|]); (split; [|split; [discriminate|]]);
      try (intros r [= <-]; reflexivity); try discriminate;
      (exists [VisualFallback (PyPath.name p)];
       split; [rewrite <- app_assoc; reflexivity|]);
      intros cmd Hin; inversion Hin as [|? ? ? Hin2]; inversion Hin2.
  - unfold bind, lift, ret in E.
    destruct (DocumentBuilder.build_docling_document _ _ _ _ _); subst run; simpl;
      (split; [reflexivity|]); (split; [|split; [discriminate|]]);
      try (intros r [= <-]; reflexivity); try discriminate;
      (exists []; split; [reflexivity|]);
      intros cmd Hin; inversion Hin.
Qed.

End MoreRuns.

Lemma prepare_wav_artifact_temp_copy_witness :
  source_of PipelineRuns.silent_video_env
      (mkBackend (IsBytesIO ["x"%byte]) "clip.mp4") = "/tmp/tmp5h1c0zde.mp4"
  /\ "/tmp/tmp5h1c0zde.mp4"
       ∉ files (_prepare_wav_artifact PipelineRuns.silent_video_env
                  (mkBackend (IsBytesIO ["x"%byte]) "clip.mp4")
                  (mkWorld ∅ [])).2.
Proof.
  split; [reflexivity|].
  destruct (prepare_wav_artifact_temp_copy PipelineRuns.silent_video_env
              (mkBackend (IsBytesIO ["x"%byte]) "clip.mp4") ["x"%byte]
              (mkWorld ∅ []) eq_refl) as [Hret|Hgone].
  - vm_compute in Hret. discriminate Hret.
  - exact Hgone.
Defined.

(** A world that holds one WAV recording. *)
Definition talk_world : world := mkWorld {["/data/talk.wav"]} [].

Lemma wav_path_is_its_own_artifact_witness :
  files (transcribe_with_artifacts PipelineRuns.toy_digest
           PipelineRuns.silent_video_env PipelineRuns.with_vision
           (IsPath "/data/talk.wav") None "zh" None talk_world).2
    = files talk_world
  /\ lower (PyPath.suffix "/data/talk.wav") = ".wav".
Proof.
  split; [|reflexivity].
  destruct (wav_path_is_its_own_artifact PipelineRuns.toy_digest
              PipelineRuns.silent_video_env PipelineRuns.with_vision
              "/data/talk.wav" None "zh" None talk_world) as [Hfiles _].
  - vm_compute. reflexivity.
  - reflexivity.
  - exact Hfiles.
Defined.

End PipelineMore.

(** ** More facts about media/video.py *)
Module VideoMore.
Import Video VideoFacts.

Section PairFacts.
Context {A B : Type}.

Lemma zip_take_min (l : list A) (k : list B) :
  zip (take (Nat.min (length l) (length k)) l)
      (take (Nat.min (length l) (length k)) k) = zip l k.
Proof.
  revert k. induction l as [|x l IH]; intros [|y k]; simpl; try reflexivity.
  rewrite IH. reflexivity.
Qed.

Lemma zip_length (l : list A) (k : list B) :
  length (zip l k) = Nat.min (length l) (length k).
Proof.
  revert k. induction l as [|x l IH]; intros [|y k]; simpl; try reflexivity.
  rewrite IH. reflexivity.
Qed.

Lemma zip_fst (l : list A) (k : list B) : (zip l k).*1 = take (length k) l.
Proof.
  revert k. induction l as [|x l IH]; intros [|y k]; simpl; try reflexivity.
  rewrite IH. reflexivity.
Qed.

Lemma zip_snd (l : list A) (k : list B) : (zip l k).*2 = take (length l) k.
Proof.
  revert k. induction l as [|x l IH]; intros [|y k]; simpl; try reflexivity.
  rewrite IH. reflexivity.
Qed.
End PairFacts.

Section KeyframeFacts.
Context {T : Type}.
Implicit Types pairs out : list (string * T).

Lemma pair_frames_zip (frames : list string) (timestamps : list T) :
  pair_frames frames timestamps = zip frames timestamps.
Proof.
  unfold pair_frames.
  destruct (length frames =? length timestamps)%nat; [reflexivity|apply zip_take_min].
Qed.

(** The protective clamp of frames and time stamps never changes the pairs:
    pairing already stops at the shorter list.  The frames (or time stamps)
    beyond the common length are dropped without an error, so frames without
    any parsed time stamp give no pairs at all. *)
Theorem pair_frames_is_zip (frames : list string) (timestamps : list T) :
  pair_frames frames timestamps = zip frames timestamps
  /\ length (pair_frames frames timestamps)
     = Nat.min (length frames) (length timestamps)
  /\ (pair_frames frames timestamps).*1 = take (length timestamps) frames
  /\ (pair_frames frames timestamps).*2 = take (length frames) timestamps
  /\ pair_frames frames ([] : list T) = [].
Proof.
  rewrite !pair_frames_zip. split; [reflexivity|].
  split; [apply zip_length|]. split; [apply zip_fst|].
  split; [apply zip_snd|]. destruct frames; reflexivity.
Qed.

Lemma slice_to_sublist {X : Type} (m : Z) (l : list X) : sublist (slice_to m l) l.
Proof. unfold slice_to. destruct (m <? 0); apply sublist_take. Qed.

Lemma downsample_ok pairs M out :
  1 <= M -> downsample pairs M = Py.Ok out ->
  sublist out pairs /\ Z.of_nat (length out) <= M.
Proof.
  intros HM. unfold downsample.
  destruct (Z.ltb_spec M (Z.of_nat (length pairs))) as [Hlt|Hge].
  - destruct (Z.eqb_spec M 0) as [|_]; [lia|]. intros [= <-]. split.
    + etransitivity; [apply slice_to_sublist|apply every_nth_sublist].
    + unfold slice_to. destruct (Z.ltb_spec M 0) as [|_]; [lia|].
      rewrite length_take. lia.
  - intros [= <-]. split; [reflexivity|lia].
Qed.

Lemma downsample_raises_when pairs M e :
  downsample pairs M = Py.Raise e -> M = 0.
Proof.
  unfold downsample.
  destruct (M <? Z.of_nat (length pairs)); [|discriminate].
  destruct (Z.eqb_spec M 0); [auto|discriminate].
Qed.

(** The downsampling step fails in one case only: a bound of zero with at
    least one pair, where the stride is a division by zero. *)
Lemma downsample_raises_iff pairs (M : Z) (e : Py.exn) :
  downsample pairs M = Py.Raise e
  <-> (M = 0 /\ pairs <> [] /\ e = Py.ZeroDivisionError).
Proof.
  unfold downsample.
  destruct (Z.ltb_spec M (Z.of_nat (length pairs))) as [Hlt|Hge].
  - destruct (Z.eqb_spec M 0) as [->|Hne].
    + split.
      * intros [= <-]. repeat split. intros ->. simpl in Hlt. lia.
      * intros (_ & _ & ->). reflexivity.
    + split; [discriminate|]. intros (-> & _). contradiction.
  - split; [discriminate|]. intros (-> & Hpairs & _).
    destruct pairs; [contradiction|]. simpl in Hge. lia.
Qed.

(** With a positive bound, as the default 16, the key frames returned are
    at most [max_frames], and they are pairs of one extraction pass that
    succeeded, frame [i] with time stamp [i], in the order of that pass. *)
Theorem extract_keyframes_bounded
    (source_exists : bool)
    (scene uniform1 uniform2 : Py.result (ffmpeg_pass T)) (max_frames : Z) out :
  1 <= max_frames ->
  extract_keyframes_with_timestamps source_exists scene uniform1 uniform2 max_frames
    = Py.Ok out ->
  Z.of_nat (length out) <= max_frames
  /\ exists r,
       (scene = Py.Ok r \/ uniform1 = Py.Ok r \/ uniform2 = Py.Ok r)
       /\ sublist out (zip (p_frames r) (p_timestamps r)).
Proof.
  intros HM. unfold extract_keyframes_with_timestamps.
  destruct source_exists; [|discriminate]. cbn [negb Py.bind].
  assert (Hlast : forall r,
            (scene = Py.Ok r \/ uniform1 = Py.Ok r \/ uniform2 = Py.Ok r) ->
            match p_frames r with
            | [] => Py.Ok []
            | _ :: _ => downsample (pair_frames (p_frames r) (p_timestamps r)) max_frames
            end = Py.Ok out ->
            Z.of_nat (length out) <= max_frames
            /\ exists r0,
                 (scene = Py.Ok r0 \/ uniform1 = Py.Ok r0 \/ uniform2 = Py.Ok r0)
                 /\ sublist out (zip (p_frames r0) (p_timestamps r0))).
  { intros r Hr Hout.
    destruct (p_frames r) as [|f fs] eqn:Hf.
    - injection Hout as <-. split; [simpl; lia|].
      exists r. split; [exact Hr|]. apply sublist_nil_l.
    - apply downsample_ok in Hout as [Hsub Hlen]; [|exact HM].
      split; [exact Hlen|]. exists r. split; [exact Hr|].
      rewrite Hf, <- pair_frames_zip. exact Hsub. }
  destruct scene as [r|e]; simpl.
  - destruct (p_frames r) as [|f fs] eqn:Hf.
    + destruct uniform1 as [r1|e1]; simpl; [|discriminate].
      intros Hout. apply (Hlast r1); auto.
    + simpl. intros Hout. apply (Hlast r); [auto|]. rewrite ?Hf in *. exact Hout.
  - destruct e; simpl; try discriminate.
    destruct uniform1 as [r1|e1]; simpl; [|discriminate].
    destruct (p_frames r1) as [|f fs] eqn:Hf.
    + destruct uniform2 as [r2|e2]; simpl; [|discriminate].
      intros Hout. apply (Hlast r2); auto.
    + simpl. intros Hout. apply (Hlast r1); [auto|]. rewrite ?Hf in *. exact Hout.
Qed.

(** A source that does not exist raises [FileNotFoundError] before any
    pass is run.  For a source that exists and a positive bound the only
    exceptions are those of the extraction passes: the one of the scene pass
    unless it is a [RuntimeError], which starts the uniform sampling instead,
    and any of a uniform pass. *)
Theorem extract_keyframes_errors
    (source_exists : bool)
    (scene uniform1 uniform2 : Py.result (ffmpeg_pass T)) (max_frames : Z) :
  1 <= max_frames ->
  (source_exists = false ->
     extract_keyframes_with_timestamps source_exists scene uniform1 uniform2 max_frames
       = Py.Raise Py.FileNotFoundError)
  /\ (forall e,
        source_exists = true ->
        extract_keyframes_with_timestamps source_exists scene uniform1 uniform2 max_frames
          = Py.Raise e ->
        (scene = Py.Raise e /\ forall msg, e <> Py.RuntimeError msg)
        \/ uniform1 = Py.Raise e \/ uniform2 = Py.Raise e).
Proof.
  intros HM. split; [intros ->; reflexivity|]. intros e ->.
  unfold extract_keyframes_with_timestamps. cbn [negb Py.bind].
  assert (Hlast : forall r : ffmpeg_pass T,
            match p_frames r with
            | [] => Py.Ok ([] : list (string * T))
            | _ :: _ => downsample (pair_frames (p_frames r) (p_timestamps r)) max_frames
            end <> Py.Raise e).
  { intros r Hr. destruct (p_frames r); [discriminate|].
    apply downsample_raises_when in Hr. lia. }
  destruct scene as [r|e0]; simpl.
  - destruct (p_frames r) as [|f fs] eqn:Hf.
    + destruct uniform1 as [r1|e1]; simpl; [|intros [= <-]; auto].
      intros Hout. exfalso. exact (Hlast r1 Hout).
    + simpl. intros Hout. exfalso. apply (Hlast r). rewrite ?Hf in *. exact Hout.
  - destruct e0; simpl; try (intros [= <-]; left; split; [reflexivity|discriminate]).
    destruct uniform1 as [r1|e1]; simpl; [|intros [= <-]; auto].
    destruct (p_frames r1) as [|f fs] eqn:Hf.
    + destruct uniform2 as [r2|e2]; simpl; [|intros [= <-]; auto].
      intros Hout. exfalso. exact (Hlast r2 Hout).
    + simpl. intros Hout. exfalso. apply (Hlast r1). rewrite ?Hf in *. exact Hout.
Qed.

End KeyframeFacts.

(** Three frames of a uniform pass run after a failed scene pass. *)
Definition failed_scene : Py.result (ffmpeg_pass Z) :=
  Py.Raise (Py.RuntimeError "ffmpeg keyframe extraction failed: no scene filter").
Definition uniform_three : Py.result (ffmpeg_pass Z) :=
  Py.Ok (mkPass [0; 1000; 2000] ["frame_0001.jpg"; "frame_0002.jpg"; "frame_0003.jpg"]).

Lemma extract_keyframes_bounded_witness :
  extract_keyframes_with_timestamps true failed_scene uniform_three uniform_three 2
    = Py.Ok [("frame_0001.jpg", 0); ("frame_0002.jpg", 1000)]
  /\ Z.of_nat (length [("frame_0001.jpg", 0); ("frame_0002.jpg", 1000)]) <= 2.
Proof.
  split; [reflexivity|].
  destruct (extract_keyframes_bounded true failed_scene uniform_three uniform_three 2
              [("frame_0001.jpg", 0); ("frame_0002.jpg", 1000)]) as [Hlen _].
  - lia.
  - reflexivity.
  - exact Hlen.
Defined.

Lemma extract_keyframes_errors_witness :
  extract_keyframes_with_timestamps false failed_scene uniform_three uniform_three 16
    = Py.Raise Py.FileNotFoundError
  /\ extract_keyframes_with_timestamps true failed_scene (Py.Raise Py.OSError)
       uniform_three 16
     = Py.Raise Py.OSError
  /\ ((failed_scene = Py.Raise Py.OSError
       /\ forall msg, Py.OSError <> Py.RuntimeError msg)
      \/ Py.Raise Py.OSError = Py.Raise (A := ffmpeg_pass Z) Py.OSError
      \/ uniform_three = Py.Raise Py.OSError).
Proof.
  split; [|split; [reflexivity|]].
  - apply (extract_keyframes_errors false failed_scene uniform_three uniform_three 16);
      [lia|reflexivity].
  - apply (extract_keyframes_errors true failed_scene (Py.Raise Py.OSError)
             uniform_three 16); [lia|reflexivity|reflexivity].
Defined.

End VideoMore.

(** ** More facts about models/aliyun_vision.py *)
Module VisionMore.
Import PyStr Json Net Files Types Vision VisionFacts StrFacts.

(** *** White space stripping *)

(** No white space at the left end. *)
Definition left_trimmed (s : string) : Prop :=
  match s with String c _ => is_space c = false | EmptyString => True end.

Lemma lstrip_left_trimmed s : left_trimmed (lstrip s).
Proof.
  induction s as [|c r IH]; simpl; [exact I|].
  destruct (is_space c) eqn:Hc; [exact IH|]. simpl. exact Hc.
Qed.

Lemma rstrip_left_trimmed s : left_trimmed s -> left_trimmed (rstrip s).
Proof.
  destruct s as [|c r]; simpl; [auto|]. intros Hc.
  destruct (rstrip r); [rewrite Hc|]; simpl; exact Hc.
Qed.

Lemma rstrip_cons c s :
  rstrip (String c s) =
    match rstrip s with
    | EmptyString => if is_space c then EmptyString else String c EmptyString
    | r' => String c r'
    end.
Proof. reflexivity. Qed.

Lemma rstrip_idempotent s : rstrip (rstrip s) = rstrip s.
Proof.
  induction s as [|c r IH]; [reflexivity|]. rewrite rstrip_cons.
  destruct (rstrip r) as [|d r'] eqn:Hr.
  - destruct (is_space c) eqn:Hc; [reflexivity|]. simpl. rewrite Hc. reflexivity.
  - rewrite rstrip_cons, IH. reflexivity.
Qed.

Lemma strip_idempotent s : strip (strip s) = strip s.
Proof.
  unfold strip. rewrite (TypesMore.lstrip_keeps (rstrip (lstrip s))).
  - apply rstrip_idempotent.
  - apply rstrip_left_trimmed, lstrip_left_trimmed.
Qed.

(** *** The text of a response *)

Lemma usable_text_visible v t : usable_text v = Some t -> nonempty (strip t) = true.
Proof.
  destruct v; try discriminate. simpl.
  destruct (nonempty (strip _)) eqn:H; [intros [= <-]; exact H|discriminate].
Qed.

Lemma first_text_visible {A : Type} (f : A -> option string) l t :
  (forall x u, f x = Some u -> nonempty (strip u) = true) ->
  first_text f l = Some t -> nonempty (strip t) = true.
Proof.
  intros Hf. induction l as [|x l IH]; [discriminate|]. simpl.
  destruct (f x) as [u|] eqn:Hx; [intros [= <-]; exact (Hf x u Hx)|exact IH].
Qed.

Lemma or_else_visible a b t :
  (forall u, a = Some u -> nonempty (strip u) = true) ->
  (forall u, b = Some u -> nonempty (strip u) = true) ->
  or_else a b = Some t -> nonempty (strip t) = true.
Proof. destruct a as [u|]; simpl; intros Ha Hb H; [apply Ha|apply Hb]; exact H. Qed.

Lemma block_text_visible block t :
  block_text block = Some t -> nonempty (strip t) = true.
Proof. destruct block; try discriminate. apply usable_text_visible. Qed.

Lemma message_text_visible message t :
  message_text message = Some t -> nonempty (strip t) = true.
Proof.
  destruct message as [| | | | | |m]; try discriminate. simpl.
  apply or_else_visible.
  - intros u. destruct (field m "content"); try discriminate.
    apply first_text_visible. exact block_text_visible.
  - intros u. apply usable_text_visible.
Qed.

Lemma choice_text_visible choice t :
  choice_text choice = Some t -> nonempty (strip t) = true.
Proof.
  destruct choice as [| | | | | |c]; try discriminate. simpl.
  apply or_else_visible.
  - intros u. apply message_text_visible.
  - intros u. apply usable_text_visible.
Qed.

(** [_extract_text] returns a text with a visible character or the empty
    string, never a blank one; it fails only on a payload that is not an
    object. *)
Lemma extract_text_outcomes payload :
  (forall t, _extract_text payload = Py.Ok t -> t = "" \/ nonempty (strip t) = true)
  /\ (forall e, _extract_text payload = Py.Raise e -> e = Py.AttributeError).
Proof.
  destruct payload as [| | | | | |p]; simpl;
    try (split; [discriminate|intros e [= <-]; reflexivity]).
  split; [|discriminate]. intros t [= <-].
  match goal with |- context [or_else ?a ?b] => destruct (or_else a b) as [u|] eqn:Hu end;
    [right|left; reflexivity].
  revert Hu. apply or_else_visible.
  - intros v. destruct (field p "output") as [| | | | | |o]; try discriminate;
      try apply usable_text_visible.
    apply or_else_visible.
    + intros v'. destruct (field o "choices"); try discriminate.
      apply first_text_visible. exact choice_text_visible.
    + intros v'. apply usable_text_visible.
  - intros v. apply usable_text_visible.
Qed.

(** *** Requests *)

Lemma posts_app (a b : list event) : posts (a ++ b) = posts a ++ posts b.
Proof. apply omap_app. Qed.

Section ClientFacts.
Variable settings : AliyunVisionSettings.

Lemma post_loop_raises post remaining attempt e :
  (post_loop settings post remaining attempt).1 = Py.Raise e ->
  exists msg, e = Py.VisionServiceError msg.
Proof.
  revert attempt. induction remaining as [|n IH]; intros attempt.
  - simpl. intros [= <-]. eauto.
  - cbn [post_loop]. unfold bind at 1, emit.
    destruct (post attempt) as [msg|r].
    + destruct (retries settings <=? attempt).
      * simpl. intros [= <-]. eauto.
      * unfold bind, emit. specialize (IH (attempt + 1)).
        destruct (post_loop settings post n (attempt + 1)) as [res log].
        simpl in *. exact IH.
    + destruct (negb (status_code r =? 200)).
      * destruct ((500 <=? status_code r) && (attempt <? retries settings)).
        -- unfold bind, emit. specialize (IH (attempt + 1)).
           destruct (post_loop settings post n (attempt + 1)) as [res log].
           simpl in *. exact IH.
        -- simpl. intros [= <-]. eauto.
      * destruct (body_json r); simpl; [discriminate|intros [= <-]; eauto].
Qed.

Lemma post_loop_posts post remaining attempt :
  (length (posts (post_loop settings post remaining attempt).2) <= remaining)%nat.
Proof.
  revert attempt. induction remaining as [|n IH]; intros attempt.
  - simpl. lia.
  - cbn [post_loop]. unfold bind at 1, emit.
    destruct (post attempt) as [msg|r].
    + destruct (retries settings <=? attempt).
      * simpl. lia.
      * unfold bind, emit. specialize (IH (attempt + 1)).
        destruct (post_loop settings post n (attempt + 1)) as [res log].
        simpl in *. lia.
    + destruct (negb (status_code r =? 200)).
      * destruct ((500 <=? status_code r) && (attempt <? retries settings)).
        -- unfold bind, emit. specialize (IH (attempt + 1)).
           destruct (post_loop settings post n (attempt + 1)) as [res log].
           simpl in *. lia.
        -- simpl. lia.
      * destruct (body_json r); simpl; lia.
Qed.

(** [_post_with_retry] raises nothing but [VisionServiceError] and sends at
    most [retries] requests.  An answer with a status other than 200 and
    below 500 ends it at once, without a sleep or a second request, and so
    does an answer with status 200, whose decoded body is returned. *)
Theorem post_with_retry_contract (post : Z -> exchange) :
  (forall e, (_post_with_retry settings post).1 = Py.Raise e ->
     exists msg, e = Py.VisionServiceError msg)
  /\ (length (posts (_post_with_retry settings post).2)
      <= Z.to_nat (retries settings))%nat
  /\ (forall r, 1 <= retries settings -> post 1 = Answer r ->
       status_code r <> 200 -> status_code r < 500 ->
       _post_with_retry settings post =
         (Py.Raise (Py.VisionServiceError
            ("Aliyun vision request failed with status " +:+
             str_of_int (status_code r) +:+ ": " +:+ body_text r)), [Post 1]))
  /\ (forall r data, 1 <= retries settings -> post 1 = Answer r ->
       status_code r = 200 -> body_json r = Some data ->
       _post_with_retry settings post = (Py.Ok data, [Post 1])).
Proof.
  split; [intros e; apply post_loop_raises|].
  split; [apply post_loop_posts|].
  unfold _post_with_retry.
  split.
  - intros r Htries Hpost Hne Hlt.
    destruct (Z.to_nat (retries settings)) as [|n] eqn:Hn; [lia|].
    cbn [post_loop]. rewrite Hpost.
    destruct (Z.eqb_spec (status_code r) 200) as [|_]; [contradiction|].
    destruct (Z.leb_spec 500 (status_code r)) as [|_]; [lia|]. reflexivity.
  - intros r data Htries Hpost Hok Hjson.
    destruct (Z.to_nat (retries settings)) as [|n] eqn:Hn; [lia|].
    cbn [post_loop]. rewrite Hpost, Hok, Hjson. reflexivity.
Qed.

(** [_describe_single_frame], step by step. *)
Lemma describe_single_frame_run (frame : file_state) (post : Z -> exchange) :
  _describe_single_frame settings frame post =
    match read_whole frame with
    | Py.Raise e => (Py.Raise e, [])
    | Py.Ok _ =>
        match _post_with_retry settings post with
        | (Py.Raise e, log) => (Py.Raise e, log)
        | (Py.Ok data, log) =>
            match _extract_text data with
            | Py.Raise e => (Py.Raise e, log)
            | Py.Ok raw =>
                if nonempty (strip raw) then (Py.Ok (strip raw), log)
                else (Py.Raise (Py.VisionServiceError
                        "Aliyun vision response did not include text output"), log)
            end
        end
    end.
Proof.
  unfold _describe_single_frame, bind, lift, ret, raise.
  destruct (read_whole frame); [|reflexivity]. simpl.
  destruct (_post_with_retry settings post) as [[data|e] log]; [|reflexivity].
  destruct (_extract_text data) as [raw|e]; [|rewrite app_nil_r; reflexivity].
  destruct (nonempty (strip raw)); rewrite !app_nil_r; reflexivity.
Qed.

Lemma describe_single_frame_posts (frame : file_state) (post : Z -> exchange) :
  (length (posts (_describe_single_frame settings frame post).2)
   <= Z.to_nat (retries settings))%nat.
Proof.
  rewrite describe_single_frame_run.
  pose proof (post_loop_posts post (Z.to_nat (retries settings)) 1) as Hposts.
  fold (_post_with_retry settings post) in Hposts.
  destruct (read_whole frame); [|simpl; lia].
  destruct (_post_with_retry settings post) as [[data|e] log]; [|exact Hposts].
  destruct (_extract_text data) as [raw|e]; [|exact Hposts].
  destruct (nonempty (strip raw)); exact Hposts.
Qed.

(** [_describe_single_frame] returns a stripped text that is not empty.  It
    fails with [OSError] when the frame cannot be read, and then no request
    is sent; with [AttributeError] when the decoded body is not an object;
    and with [VisionServiceError] otherwise.  Never more than [retries]
    requests are sent. *)
Theorem describe_single_frame_outcomes (frame : file_state) (post : Z -> exchange) :
  (forall text, (_describe_single_frame settings frame post).1 = Py.Ok text ->
     nonempty text = true /\ strip text = text
     /\ exists content, read_whole frame = Py.Ok content)
  /\ (forall e, (_describe_single_frame settings frame post).1 = Py.Raise e ->
       (e = Py.OSError /\ read_whole frame = Py.Raise Py.OSError
        /\ (_describe_single_frame settings frame post).2 = [])
       \/ (e = Py.AttributeError /\ exists content, read_whole frame = Py.Ok content)
       \/ ((exists msg, e = Py.VisionServiceError msg)
           /\ exists content, read_whole frame = Py.Ok content))
  /\ (length (posts (_describe_single_frame settings frame post).2)
      <= Z.to_nat (retries settings))%nat.
Proof.
  rewrite describe_single_frame_run.
  assert (Hread : read_whole frame = Py.Raise Py.OSError
                  \/ exists content, read_whole frame = Py.Ok content).
  { destruct frame as [|content fail_at]; simpl; [auto|].
    destruct (decide (fail_at = Some 0%nat)); eauto. }
  destruct Hread as [Hread|[content Hread]]; rewrite Hread.
  { simpl. split; [discriminate|]. split; [|lia].
    intros e [= <-]. left. auto. }
  pose proof (post_loop_raises post (Z.to_nat (retries settings)) 1) as Hraise.
  pose proof (post_loop_posts post (Z.to_nat (retries settings)) 1) as Hposts.
  fold (_post_with_retry settings post) in Hraise, Hposts.
  destruct (_post_with_retry settings post) as [[data|e0] log]; simpl in Hraise, Hposts.
  2:{ simpl. split; [discriminate|]. split; [|exact Hposts].
      intros e [= <-]. right. right. split; [apply Hraise; reflexivity|eauto]. }
  destruct (extract_text_outcomes data) as [Hok Herr].
  destruct (_extract_text data) as [raw|e1]; simpl.
  2:{ split; [discriminate|]. split; [|exact Hposts].
      intros e [= <-]. right. left. split; [apply Herr; reflexivity|eauto]. }
  destruct (nonempty (strip raw)) eqn:Hne; simpl.
  - split; [|split; [discriminate|exact Hposts]].
    intros text [= <-]. split; [exact Hne|]. split; [apply strip_idempotent|eauto].
  - split; [discriminate|]. split; [|exact Hposts].
    intros e [= <-]. right. right. eauto.
Qed.

End ClientFacts.

(** *** Batches *)

(** What every item built for a key frame looks like. *)
Definition keyframe_item (it : ConversationItem) : Prop :=
  startswith KEYFRAME_PREFIX (text it) = true
  /\ (exists s, start_time it = Some s /\ end_time it = Some (s + 1))
  /\ speaker_id it = None /\ speaker it = None /\ words it = [].

Section BatchFacts.
Context {T : Type}.
Variable to_ms : T -> Z.
Variable fmt3 : T -> string.
Variable settings : AliyunVisionSettings.
Variable frame_file : string -> file_state.
Variable answers : Z -> Z -> exchange.

Lemma frame_item_keyframe description timestamp_sec idx :
  keyframe_item (frame_item to_ms fmt3 description timestamp_sec idx).
Proof.
  unfold keyframe_item, frame_item, _wrap_keyframe_text.
  cbn [text start_time end_time speaker_id speaker words].
  split; [apply startswith_append|]. split; [eauto|auto].
Qed.

Lemma describe_from_shape idx frames items :
  (describe_from to_ms fmt3 settings frame_file answers idx frames).1 = Py.Ok items ->
  sublist (map start_time items) (map (fun f => Some (to_ms f.2)) frames)
  /\ Forall keyframe_item items.
Proof.
  revert idx items.
  induction frames as [|[frame_path timestamp_sec] rest IH]; intros idx items.
  - simpl. intros [= <-]. split; constructor.
  - rewrite describe_from_cons. specialize (IH (idx + 1)).
    destruct (caption settings frame_file answers idx frame_path) as [d|e].
    + destruct (describe_from to_ms fmt3 settings frame_file answers (idx + 1) rest).1
        as [tail|e]; [|discriminate].
      intros [= <-]. destruct (IH tail eq_refl) as [Hsub Hall].
      split.
      * cbn [map]. apply sublist_skip. exact Hsub.
      * constructor; [apply frame_item_keyframe|exact Hall].
    + destruct e; try discriminate. intros Hrest.
      destruct (IH items Hrest) as [Hsub Hall].
      split; [cbn [map]; apply sublist_cons; exact Hsub|exact Hall].
Qed.

Lemma describe_from_posts idx frames :
  (length (posts (describe_from to_ms fmt3 settings frame_file answers idx frames).2)
   <= length frames * Z.to_nat (retries settings))%nat.
Proof.
  revert idx. induction frames as [|[frame_path timestamp_sec] rest IH]; intros idx.
  - simpl. lia.
  - cbn [describe_from]. unfold bind at 1, catch, bind at 1.
    pose proof (describe_single_frame_posts settings (frame_file frame_path) (answers idx))
      as Hone.
    specialize (IH (idx + 1)).
    destruct (_describe_single_frame settings (frame_file frame_path) (answers idx))
      as [[d|e] log]; simpl in Hone |- *.
    + unfold bind.
      destruct (describe_from to_ms fmt3 settings frame_file answers (idx + 1) rest)
        as [[tail|e] log']; simpl in IH |- *;
        rewrite ?app_nil_r, !posts_app, !length_app; simpl; lia.
    + destruct e; simpl; try lia.
      unfold bind.
      destruct (describe_from to_ms fmt3 settings frame_file answers (idx + 1) rest)
        as [[tail|e] log']; simpl in IH |- *;
        rewrite ?app_nil_r, !posts_app, !length_app; simpl; lia.
Qed.

(** Whatever fails on the way, a list returned by [describe_frames] holds
    key frame items only: each text starts with the keyframe marker, each end
    time is one millisecond after the start time, no speaker and no words are
    set.  Their start times are time stamps of the frames given, in the order
    of the frames, so there are never more items than frames; and the whole
    batch sends at most [retries] requests per frame. *)
Theorem describe_frames_shape (frames : list (string * T)) (items : list ConversationItem) :
  (describe_frames to_ms fmt3 settings frame_file answers frames).1 = Py.Ok items ->
  sublist (map start_time items) (map (fun f => Some (to_ms f.2)) frames)
  /\ Forall keyframe_item items
  /\ (length items <= length frames)%nat
  /\ (length (posts (describe_frames to_ms fmt3 settings frame_file answers frames).2)
      <= length frames * Z.to_nat (retries settings))%nat.
Proof.
  intros Hrun. unfold describe_frames in *.
  destruct (describe_from_shape 1 frames items Hrun) as [Hsub Hall].
  split; [exact Hsub|]. split; [exact Hall|]. split.
  - apply sublist_length in Hsub. rewrite !length_map in Hsub. exact Hsub.
  - apply describe_from_posts.
Qed.

(** The line of the document for a described key frame: [to_string] puts
    the time range of the item into the header written by
    [_wrap_keyframe_text] and keeps the description and the closing marker
    on their own lines. *)
Theorem frame_item_rendering (description : string) (timestamp_sec : T) (idx : Z) :
  no_newline (fmt3 timestamp_sec) = true ->
  to_string (frame_item to_ms fmt3 description timestamp_sec idx) =
    KEYFRAME_PREFIX +:+ " [time: " +:+ _format_ms (Some (to_ms timestamp_sec)) +:+ "-"
    +:+ _format_ms (Some (to_ms timestamp_sec + 1)) +:+ "] frame=" +:+ str_of_int idx
    +:+ ";time=" +:+ fmt3 timestamp_sec +:+ "s"
    +:+ String newline description +:+ String newline KEYFRAME_SUFFIX.
Proof.
  intros Hfmt.
  set (meta := "frame=" +:+ str_of_int idx +:+ ";time=" +:+ fmt3 timestamp_sec +:+ "s").
  assert (Hmeta : no_newline meta = true).
  { unfold meta. rewrite !no_newline_append, str_of_int_no_newline, Hfmt. reflexivity. }
  assert (Htext : text (frame_item to_ms fmt3 description timestamp_sec idx) =
                  KEYFRAME_PREFIX +:+ meta +:+
                  String newline (description +:+ String newline KEYFRAME_SUFFIX))
    by reflexivity.
  rewrite (TypesMore.to_string_keyframe_header meta _ _ Htext Hmeta).
  rewrite (TypesMore.lstrip_keeps meta) by reflexivity.
  unfold time_tag, frame_item. cbn [start_time end_time].
  generalize (_format_ms (Some (to_ms timestamp_sec)))
             (_format_ms (Some (to_ms timestamp_sec + 1))). intros fs fe.
  assert (Htag : nonempty ("[time: " +:+ fs +:+ "-" +:+ fe +:+ "]") = true)
    by reflexivity.
  unfold append_if_truthy. rewrite Htag.
  assert (Hne : nonempty meta = true) by reflexivity. rewrite Hne.
  cbn [app join]. unfold meta. rewrite !append_associative. reflexivity.
Qed.

End BatchFacts.

Lemma describe_frames_shape_witness :
  (describe_frames VisionRuns.ms_of_seconds VisionRuns.three_decimals VisionRuns.three_tries
     (fun _ => VisionRuns.image) VisionRuns.second_rejected VisionRuns.three_frames).1
  = Py.Ok
      [mkItem ("[[KEYFRAME_START]]frame=1;time=0.000s" +:+ String newline "a cat" +:+
               String newline "[[KEYFRAME_END]]") (Some 0) (Some 1) None None [];
       mkItem ("[[KEYFRAME_START]]frame=3;time=7.000s" +:+ String newline "a cat" +:+
               String newline "[[KEYFRAME_END]]") (Some 7000) (Some 7001) None None []]
  /\ sublist [Some 0; Some 7000] [Some 0; Some 3000; Some 7000].
Proof.
  split; [reflexivity|].
  destruct (describe_frames_shape VisionRuns.ms_of_seconds VisionRuns.three_decimals
              VisionRuns.three_tries (fun _ => VisionRuns.image)
              VisionRuns.second_rejected VisionRuns.three_frames _ eq_refl)
    as [Hsub _].
  exact Hsub.
Defined.

Lemma frame_item_rendering_witness :
  to_string (frame_item VisionRuns.ms_of_seconds VisionRuns.three_decimals "a cat" 7 3) =
    "[[KEYFRAME_START]] [time: 00:00:07.000-00:00:07.001] frame=3;time=7.000s"
    +:+ String newline "a cat" +:+ String newline "[[KEYFRAME_END]]".
Proof.
  rewrite (frame_item_rendering VisionRuns.ms_of_seconds VisionRuns.three_decimals
             "a cat" 7 3); reflexivity.
Defined.

End VisionMore.

(** ** Facts about config.py and the default clients *)
Module ConfigFacts.
Import PyStr Config.

(** The environment variable is set to a non-empty value. *)
Definition is_set (getenv : string -> option string) (name : string) : bool :=
  match getenv name with Some k => nonempty k | None => false end.

(** The key found by the loop: the value of the first variable that is set
    to a non-empty string; without one, the value of the last variable
    (unset or empty), or the initial value when there are no names. *)
Lemma first_key_spec getenv names api_key :
  first_key getenv names api_key =
    match List.find (is_set getenv) names with
    | Some name => getenv name
    | None =>
        match last names with
        | Some name => getenv name
        | None => api_key
        end
    end.
Proof.
  revert api_key. induction names as [|n rest IH]; intros api_key; [reflexivity|].
  cbn [first_key List.find]. unfold is_set at 1.
  destruct (match getenv n with Some k => nonempty k | None => false end) eqn:Hn;
    [reflexivity|].
  rewrite IH. destruct (List.find (is_set getenv) rest); [reflexivity|].
  rewrite last_cons. destruct (last rest); reflexivity.
Qed.

Section Defaults.
Context {T : Type}.
Variable getenv : string -> option string.
Variable int_of_str : string -> option Z.
Variable speech : Asr.AliyunBailianSettings -> Pipeline.SpeechToTextProvider.
Variable vision : Vision.AliyunVisionSettings -> Pipeline.ImageCaptionProvider (T := T).

(** The key both [from_env] methods find. *)
Definition env_key : option string := first_key getenv api_key_envs None.

Lemma env_key_spec :
  env_key =
    if is_set getenv "ALIYUN_BAILIAN_API_KEY" then getenv "ALIYUN_BAILIAN_API_KEY"
    else getenv "DASHSCOPE_API_KEY".
Proof.
  unfold env_key. rewrite first_key_spec. unfold api_key_envs. cbn [List.find].
  destruct (is_set getenv "ALIYUN_BAILIAN_API_KEY"); [reflexivity|].
  destruct (is_set getenv "DASHSCOPE_API_KEY"); reflexivity.
Qed.

Lemma env_key_usable :
  match env_key with Some k => nonempty k | None => false end
  = is_set getenv "ALIYUN_BAILIAN_API_KEY" || is_set getenv "DASHSCOPE_API_KEY".
Proof.
  rewrite env_key_spec.
  destruct (is_set getenv "ALIYUN_BAILIAN_API_KEY") eqn:Ha; [exact Ha|reflexivity].
Qed.

(** The pipeline built without arguments needs an API key in the
    environment: [ALIYUN_BAILIAN_API_KEY] if it is set and not empty, else
    [DASHSCOPE_API_KEY]; with neither, [AsrServiceError] is raised.  With a
    key the pipeline is built, and it has a vision provider unless one of the
    numeric vision settings cannot be read as an integer, which is not
    reported. *)
Theorem default_pipeline_outcomes :
  let found := is_set getenv "ALIYUN_BAILIAN_API_KEY"
               || is_set getenv "DASHSCOPE_API_KEY" in
  let key := if is_set getenv "ALIYUN_BAILIAN_API_KEY"
             then getenv "ALIYUN_BAILIAN_API_KEY" else getenv "DASHSCOPE_API_KEY" in
  default_pipeline getenv int_of_str speech vision =
    if found then
      Py.Ok (Pipeline.mkPipeline
               (speech (Asr.mkAsrSettings key 3))
               match int_env getenv int_of_str "ALIYUN_VISION_TIMEOUT" 120,
                     int_env getenv int_of_str "ALIYUN_VISION_RETRIES" 3 with
               | Py.Ok _, Py.Ok retries =>
                   Some (vision (Vision.mkVisionSettings key retries))
               | _, _ => None
               end)
    else Py.Raise (Py.AsrServiceError "Aliyun Bailian API key is missing.").
Proof.
  intros found key. subst found key.
  pose proof env_key_usable as Husable. pose proof env_key_spec as Hkey.
  unfold default_pipeline, Pipeline.new_pipeline, default_asr_client,
    default_vision_client, vision_from_env, bailian_from_env,
    Asr.new_client, Vision.new_client.
  fold env_key. cbn [Asr.api_key].
  rewrite <- Hkey, <- Husable.
  destruct env_key as [k|]; [|reflexivity].
  destruct (nonempty k) eqn:Hk; [|reflexivity]. simpl.
  destruct (int_env getenv int_of_str "ALIYUN_VISION_TIMEOUT" 120); [|reflexivity].
  simpl.
  destruct (int_env getenv int_of_str "ALIYUN_VISION_RETRIES" 3); [|reflexivity].
  simpl. rewrite Hk. reflexivity.
Qed.

End Defaults.
End ConfigFacts.

(** ** Facts about the upload and SDK paths of models/aliyun_bailian.py *)
Module AsrSdkFacts.
Import PyStr Json Net Files Asr AsrSdk.

(** *** The upload *)

Lemma get_raises v key e : get v key = Py.Raise e -> e = Py.AttributeError.
Proof. destruct v; simpl; congruence. Qed.

Lemma get_default_raises v key d e :
  get_default v key d = Py.Raise e -> e = Py.AttributeError.
Proof. destruct v; simpl; congruence. Qed.

Lemma iterate_raises v e : iterate v = Py.Raise e -> e = Py.TypeError.
Proof. destruct v; simpl; congruence. Qed.

Lemma iterate_truthy v l :
  truthy v = true -> iterate v = Py.Ok l -> l <> [].
Proof.
  destruct v as [| | | |s|l'|items]; simpl; try discriminate.
  - destruct s; [discriminate|]. intros _ [= <-]. discriminate.
  - destruct l'; [discriminate|]. intros _ [= <-]. discriminate.
  - destruct items; [discriminate|]. intros _ [= <-]. discriminate.
Qed.

(** The value picked from the payload of the upload, before it is checked. *)
Definition picked (payload : json) : Py.result json :=
  let* output := get_default payload "output" (JDict []) in
  let* a := get output "file_urls" in
  or_get a
    (let* b := get payload "file_urls" in
     or_get b
       (let* data := get_default payload "data" (JDict []) in
        let* c := get data "file_urls" in
        or_get c
          (let* data := get_default payload "data" (JDict []) in
           get data "urls"))).

Lemma picked_raises payload e : picked payload = Py.Raise e -> e = Py.AttributeError.
Proof.
  unfold picked, or_get.
  destruct (get_default payload "output" (JDict [])) as [output|e0] eqn:H1; simpl;
    [|intros [= <-]; exact (get_default_raises _ _ _ _ H1)].
  destruct (get output "file_urls") as [a|e0] eqn:H2; simpl;
    [|intros [= <-]; exact (get_raises _ _ _ H2)].
  destruct (truthy a); [discriminate|].
  destruct (get payload "file_urls") as [b|e0] eqn:H3; simpl;
    [|intros [= <-]; exact (get_raises _ _ _ H3)].
  destruct (truthy b); [discriminate|].
  destruct (get_default payload "data" (JDict [])) as [data|e0] eqn:H4; simpl;
    [|intros [= <-]; exact (get_default_raises _ _ _ _ H4)].
  destruct (get data "file_urls") as [c|e0] eqn:H5; simpl;
    [|intros [= <-]; exact (get_raises _ _ _ H5)].
  destruct (truthy c); [discriminate|].
  apply get_raises.
Qed.

Lemma upload_run upload :
  _upload_file_to_dashscope upload =
    match upload with
    | NetworkError msg =>
        Py.Raise (Py.AsrServiceError ("Failed to upload audio to DashScope: " +:+ msg))
    | Answer r =>
        if negb (status_code r =? 200) then
          Py.Raise (Py.AsrServiceError
                      ("DashScope file upload failed with status " +:+
                       str_of_int (status_code r) +:+ ": " +:+ body_text r))
        else
          match body_json r with
          | None => Py.Raise (Py.AsrServiceError "DashScope file upload returned invalid JSON")
          | Some payload =>
              let* file_urls := picked payload in
              if negb (truthy file_urls) then
                Py.Raise (Py.AsrServiceError
                            "DashScope file upload did not return any file_urls")
              else
                match file_urls with
                | JStr s => Py.Ok [JStr s]
                | _ => iterate file_urls
                end
          end
    end.
Proof.
  unfold _upload_file_to_dashscope, picked.
  destruct upload as [msg|r]; [reflexivity|].
  destruct (negb (status_code r =? 200)); [reflexivity|].
  destruct (body_json r) as [payload|]; [|reflexivity].
  destruct (get_default payload "output" (JDict [])); [|reflexivity]. simpl.
  destruct (get _ "file_urls"); reflexivity.
Qed.

(** The upload never returns an empty list of URLs, and a URL that comes as
    one string is returned as one URL.  It fails with [AsrServiceError] when
    the request fails, the status is not 200, the body is not JSON or no URL
    is found; with [AttributeError] when the body, its [output] or its [data]
    is not an object; with [TypeError] when the URLs are a number. *)
Theorem upload_file_urls (upload : exchange) :
  (forall file_urls, _upload_file_to_dashscope upload = Py.Ok file_urls ->
     file_urls <> [])
  /\ (forall e, _upload_file_to_dashscope upload = Py.Raise e ->
       (exists msg, e = Py.AsrServiceError msg)
       \/ e = Py.AttributeError \/ e = Py.TypeError)
  /\ (forall r payload s,
       upload = Answer r -> status_code r = 200 -> body_json r = Some payload ->
       picked payload = Py.Ok (JStr s) -> nonempty s = true ->
       _upload_file_to_dashscope upload = Py.Ok [JStr s])
  /\ (forall r, upload = Answer r -> status_code r <> 200 ->
       exists msg, _upload_file_to_dashscope upload = Py.Raise (Py.AsrServiceError msg))
  /\ (forall msg0, upload = NetworkError msg0 ->
       exists msg, _upload_file_to_dashscope upload = Py.Raise (Py.AsrServiceError msg))
  /\ (forall p o v,
       lookup "output" p = Some (JDict o) -> lookup "file_urls" o = Some v ->
       truthy v = true -> picked (JDict p) = Py.Ok v).
Proof.
  rewrite upload_run.
  split; [|split; [|split; [|split; [|split]]]];
    [| | | | |intros p o v Hp Ho Hv; unfold picked; simpl;
              rewrite Hp; simpl; rewrite Ho; simpl; unfold or_get; rewrite Hv;
              reflexivity].
  - intros file_urls. destruct upload as [msg|r]; [discriminate|].
    destruct (negb (status_code r =? 200)); [discriminate|].
    destruct (body_json r) as [payload|]; [|discriminate].
    destruct (picked payload) as [v|e]; [|discriminate]. simpl.
    destruct (truthy v) eqn:Hv; [|discriminate]. simpl.
    destruct v; try (apply iterate_truthy; exact Hv).
    intros [= <-]. discriminate.
  - intros e. destruct upload as [msg|r]; [intros [= <-]; eauto|].
    destruct (negb (status_code r =? 200)); [intros [= <-]; eauto|].
    destruct (body_json r) as [payload|]; [|intros [= <-]; eauto].
    destruct (picked payload) as [v|e0] eqn:Hp; simpl;
      [|intros [= <-]; right; left; exact (picked_raises _ _ Hp)].
    destruct (truthy v); simpl; [|intros [= <-]; eauto].
    destruct v; try discriminate; intros H; right; right;
      exact (iterate_raises _ _ H).
  - intros r payload s -> Hok Hjson Hpick Hs.
    rewrite Hok, Hjson, Hpick. simpl. rewrite Hs. reflexivity.
  - intros r -> Hne. destruct (Z.eqb_spec (status_code r) 200); [contradiction|].
    simpl. eauto.
  - intros msg0 ->. eauto.
Qed.

(** *** The paths of [_transcribe] *)

Section Paths.
Variable settings : AliyunBailianSettings.
Variable sdk : list json -> sdk_result.
Variable upload : exchange.
Variable post : Z -> exchange.

(** The requests of the direct path, after the upload. *)
Definition direct_after_upload : Py.result (list RawItem) * list request :=
  ((_transcribe_direct settings post).1,
   Upload :: map Direct (_transcribe_direct settings post).2).

Lemma transcribe_bytes_run (data : list byte) :
  _transcribe settings sdk upload post (Some data) None =
    match _upload_file_to_dashscope upload with
    | Py.Ok file_urls =>
        match sdk file_urls with
        | SdkItems items => (Py.Ok items, [Upload])
        | SdkRaise (Py.AsrServiceError msg) => (Py.Raise (Py.AsrServiceError msg), [Upload])
        | _ => direct_after_upload
        end
    | Py.Raise (Py.AsrServiceError msg) => (Py.Raise (Py.AsrServiceError msg), [Upload])
    | Py.Raise _ => direct_after_upload
    end.
Proof.
  unfold _transcribe, _transcribe_with_sdk_upload, direct_after_upload.
  destruct (_upload_file_to_dashscope upload) as [file_urls|e].
  - destruct (sdk file_urls) as [items| |e]; try reflexivity;
      [|destruct e; try reflexivity];
      destruct (_transcribe_direct settings post); reflexivity.
  - destruct e; try reflexivity;
      destruct (_transcribe_direct settings post); reflexivity.
Qed.

(** Of the upload and the requests of the direct path (what the SDK path
    sends, the download of the transcription included, is not counted): for
    audio bytes the upload is sent once, before any direct request, and a
    failed upload is not followed by the direct request: a network error, a
    status other than 200, a body that is not JSON and a body without URLs
    each end the transcription with [AsrServiceError], no direct request
    made.  The direct request is made only when the SDK is missing or fails
    with another exception, or when the body of the upload has an unexpected
    shape, and then at most [retries] times; an [AsrServiceError] of the SDK
    is passed on. *)
Theorem transcribe_upload_outcomes (data : list byte) :
  let run := _transcribe settings sdk upload post (Some data) None in
  (forall msg0, upload = NetworkError msg0 ->
     exists msg, run = (Py.Raise (Py.AsrServiceError msg), [Upload]))
  /\ (forall r, upload = Answer r ->
       status_code r <> 200 \/ body_json r = None ->
       exists msg, run = (Py.Raise (Py.AsrServiceError msg), [Upload]))
  /\ (forall file_urls, _upload_file_to_dashscope upload = Py.Ok file_urls ->
       match sdk file_urls with
       | SdkItems items => run = (Py.Ok items, [Upload])
       | SdkRaise (Py.AsrServiceError msg) =>
           run = (Py.Raise (Py.AsrServiceError msg), [Upload])
       | _ => run = direct_after_upload
       end)
  /\ (forall e, _upload_file_to_dashscope upload = Py.Raise e ->
       (forall msg, e <> Py.AsrServiceError msg) -> run = direct_after_upload)
  /\ (exists rest, run.2 = Upload :: map Direct rest
       /\ (length (posts rest) <= Z.to_nat (retries settings))%nat).
Proof.
  intros run. subst run. rewrite transcribe_bytes_run.
  split; [|split; [|split; [|split]]].
  - intros msg0 ->. simpl. eauto.
  - intros r -> Hbad. rewrite upload_run.
    destruct (Z.eqb_spec (status_code r) 200) as [Hok|Hne]; simpl; [|eauto].
    destruct Hbad as [Hbad|Hbad]; [contradiction|]. rewrite Hbad. eauto.
  - intros file_urls ->. destruct (sdk file_urls) as [items| |e]; try reflexivity.
    destruct e; reflexivity.
  - intros e -> Hother. destruct e; try reflexivity. exfalso. eapply Hother. reflexivity.
  - assert (Hdirect : exists rest,
              direct_after_upload.2 = Upload :: map Direct rest
              /\ (length (posts rest) <= Z.to_nat (retries settings))%nat).
    { exists (_transcribe_direct settings post).2. split; [reflexivity|].
      rewrite RetryFacts.transcribe_direct_run.
      pose proof (RetryFacts.direct_loop_posts settings post
                    (Z.to_nat (retries settings)) 1 None) as H.
      destruct (direct_loop settings post (Z.to_nat (retries settings)) 1 None).
      exact H. }
    assert (Hnone : exists rest : list event,
              [Upload] = Upload :: map Direct rest
              /\ (length (posts rest) <= Z.to_nat (retries settings))%nat).
    { exists []. split; [reflexivity|simpl; lia]. }
    destruct (_upload_file_to_dashscope upload) as [file_urls|e].
    + destruct (sdk file_urls) as [items| |e]; try assumption.
      destruct e; assumption.
    + destruct e; assumption.
Qed.

(** Transcription of remote URLs sends no upload and no direct request and
    raises nothing but [AsrServiceError]: for an empty list without calling the
    SDK, and for a missing SDK or any exception of the SDK in place of it. *)
Theorem transcribe_remote_urls_contract (file_urls : list string) :
  let run := transcribe_remote_urls settings sdk upload post file_urls in
  run.2 = []
  /\ (forall e, run.1 = Py.Raise e -> exists msg, e = Py.AsrServiceError msg)
  /\ (forall items, run.1 = Py.Ok items ->
       file_urls <> [] /\ sdk (map JStr file_urls) = SdkItems items)
  /\ (file_urls = [] ->
       run.1 = Py.Raise (Py.AsrServiceError "file_urls must not be empty")).
Proof.
  intros run. subst run. unfold transcribe_remote_urls.
  destruct file_urls as [|u us]; simpl.
  - split; [reflexivity|]. split; [intros e [= <-]; eauto|].
    split; [discriminate|reflexivity].
  - destruct (sdk (JStr u :: map JStr us)) as [items| |e]; simpl;
      (split; [reflexivity|]); (split; [|split; [|discriminate]]);
      try discriminate; try (intros e' [= <-]; eauto).
Qed.

End Paths.

End AsrSdkFacts.

(** ** Facts about the transcripts of DashScope *)
Module TranscriptFacts.
Import PyStr Json Net Files Asr AsrSdk.

(** The value under a key of an object, [None] when the key is missing. *)
Definition entry (items : list (string * json)) (key : string) : json :=
  match lookup key items with Some x => x | None => JNull end.

(** [v or None] *)
Definition kept (v : json) : json := if truthy v then v else JNull.

(** What [_parse_items] makes of a word of a transcript. *)
Definition word_of (w : list (string * json)) : RawWord :=
  mkRawWord (py_or (entry w "text") (JStr ""))
            (kept (entry w "begin_time")) (kept (entry w "end_time")).

Lemma parse_word_built t s e :
  parse_word (JDict [("text", t); ("start", s); ("end", e)])
    = Py.Ok (mkRawWord (py_or t (JStr "")) (kept s) (kept e)).
Proof.
  unfold parse_word, alias, kept, py_or. cbn.
  destruct (truthy t) eqn:Ht, (truthy s) eqn:Hs, (truthy e) eqn:He;
    cbn; rewrite ?Ht; reflexivity.
Qed.

Lemma transcript_word_parsed word jw rw :
  transcript_word word = Py.Ok jw -> parse_word jw = Py.Ok rw ->
  exists w, word = JDict w /\ rw = word_of w.
Proof.
  destruct word as [| | | | | |w]; try discriminate.
  unfold transcript_word. cbn [get Py.bind]. fold (entry w "text").
  fold (entry w "begin_time"). fold (entry w "end_time").
  intros [= <-]. rewrite parse_word_built. intros [= <-]. eauto.
Qed.

Lemma parse_segment_built t s e words speaker speaker_label speaker_id :
  parse_segment (JDict [("text", t); ("start", s); ("end", e); ("words", JList words);
                        ("speaker", speaker); ("speaker_label", speaker_label);
                        ("speaker_id", speaker_id)])
  = let* ws := mapM parse_word words in
    let* text :=
      match py_or t (JStr "") with
      | JStr x => Py.Ok (strip x)
      | _ => Py.Raise Py.AttributeError
      end in
    Py.Ok (mkRawItem text (kept s) (kept e) (py_or speaker_id speaker) speaker_label ws).
Proof.
  unfold parse_segment, alias, kept, py_or.
  cbn [get get_default lookup String.eqb Ascii.eqb Bool.eqb Py.bind iterate].
  destruct (mapM parse_word words) as [ws|e0]; [|reflexivity].
  cbn [Py.bind].
  destruct (truthy t) eqn:Ht; cbn [Py.bind truthy]; rewrite ?Ht;
    [destruct t; try reflexivity|];
    destruct (truthy s) eqn:Hs, (truthy e) eqn:He, (truthy speaker_id) eqn:Hi;
    cbn [Py.bind]; rewrite ?Hs, ?He, ?Hi; reflexivity.
Qed.

Lemma mapM_Forall2 {A B : Type} (f : A -> Py.result B) l l' :
  mapM f l = Py.Ok l' -> Forall2 (fun x y => f x = Py.Ok y) l l'.
Proof.
  revert l'. induction l as [|x l IH]; simpl; intros l'.
  - intros [= <-]. constructor.
  - destruct (f x) as [y|] eqn:Hf; simpl; [|discriminate].
    destruct (mapM f l) as [ys|] eqn:Hm; simpl; [|discriminate].
    intros [= <-]. constructor; auto.
Qed.

Lemma mapM_twice {A B C : Type} (f : A -> Py.result B) (g : B -> Py.result C) l l' l'' :
  mapM f l = Py.Ok l' -> mapM g l' = Py.Ok l'' ->
  Forall2 (fun x z => exists y, f x = Py.Ok y /\ g y = Py.Ok z) l l''.
Proof.
  revert l' l''. induction l as [|x l IH]; simpl; intros l' l''.
  - intros [= <-]. simpl. intros [= <-]. constructor.
  - destruct (f x) as [y|] eqn:Hf; simpl; [|discriminate].
    destruct (mapM f l) as [ys|] eqn:Hm; simpl; [|discriminate].
    intros [= <-]. simpl.
    destruct (g y) as [z|] eqn:Hg; simpl; [|discriminate].
    destruct (mapM g ys) as [zs|] eqn:Hn; simpl; [|discriminate].
    intros [= <-]. constructor; eauto.
Qed.

(** What the transcripts path makes of a sentence of a transcript. *)
Definition sentence_item (t s : list (string * json)) (item : RawItem) : Prop :=
  ri_start_time item = kept (entry s "begin_time")
  /\ ri_end_time item = kept (entry s "end_time")
  /\ ri_speaker_id item = py_or (entry t "speaker_id") (entry t "speaker")
  /\ ri_speaker item = entry t "speaker_label"
  /\ (exists text,
        py_or (match lookup "text" s with Some x => x | None => JStr "" end) (JStr "")
          = JStr text
        /\ ri_text item = strip text)
  /\ (exists wl,
        iterate (match lookup "words" s with Some x => x | None => JList [] end) = Py.Ok wl
        /\ Forall2 (fun word rw => exists w, word = JDict w /\ rw = word_of w)
                   wl (ri_words item)).

(** A sentence of a DashScope transcript that is turned into a segment and
    parsed keeps its begin and end time only if they are truthy: a sentence
    or a word that begins at 0 has no start time afterwards.  The speaker
    fields are those of the transcript, and the speaker id falls back to
    [speaker] when [speaker_id] is missing or falsy. *)
Theorem transcript_sentence_item (transcript sentence seg : json) (item : RawItem) :
  transcript_sentence transcript sentence = Py.Ok seg ->
  parse_segment seg = Py.Ok item ->
  exists t s, transcript = JDict t /\ sentence = JDict s /\ sentence_item t s item.
Proof.
  destruct sentence as [| | | | | |s]; try discriminate.
  unfold transcript_sentence. cbn [get_default Py.bind].
  destruct (iterate _) as [wl|] eqn:Hwl; [|discriminate]. cbn [Py.bind].
  destruct (mapM transcript_word wl) as [words|] eqn:Hwords; [|discriminate].
  cbn [Py.bind get].
  destruct transcript as [| | | | | |t]; try discriminate.
  cbn [Py.bind get]. intros [= <-].
  rewrite parse_segment_built.
  destruct (mapM parse_word words) as [ws|] eqn:Hws; [|discriminate].
  cbn [Py.bind].
  destruct (py_or _ (JStr "")) as [| | | |text| |] eqn:Htext; try discriminate.
  cbn [Py.bind]. intros [= <-].
  exists t, s. split; [reflexivity|]. split; [reflexivity|].
  unfold sentence_item. cbn [ri_start_time ri_end_time ri_speaker_id ri_speaker
                             ri_text ri_words].
  repeat split.
  - exists text. split; [exact Htext|reflexivity].
  - exists wl. split; [exact Hwl|].
    eapply Forall2_impl; [exact (mapM_twice _ _ _ _ _ Hwords Hws)|].
    intros word rw (jw & H1 & H2). exact (transcript_word_parsed _ _ _ H1 H2).
Qed.

(** A sentence beginning at 0 ms. *)
Definition first_sentence : json :=
  JDict [("text", JStr " hello "); ("begin_time", JInt 0); ("end_time", JInt 1200)].
Definition one_speaker : json := JDict [("speaker", JInt 2)].

Lemma transcript_sentence_item_witness :
  exists seg item,
    transcript_sentence one_speaker first_sentence = Py.Ok seg
    /\ parse_segment seg = Py.Ok item
    /\ ri_start_time item = JNull /\ ri_end_time item = JInt 1200
    /\ ri_speaker_id item = JInt 2.
Proof.
  eexists _, _. split; [reflexivity|]. split; [reflexivity|].
  destruct (transcript_sentence_item one_speaker first_sentence _ _ eq_refl eq_refl)
    as (t & s & Ht & Hs & Hstart & Hend & Hid & _).
  injection Ht as <-. injection Hs as <-.
  rewrite Hstart, Hend, Hid. repeat split.
Defined.

(** *** All sentences of all transcripts *)

Lemma mapM_app {A B : Type} (f : A -> Py.result B) l1 l2 l :
  mapM f (l1 ++ l2) = Py.Ok l ->
  exists a b, l = a ++ b /\ mapM f l1 = Py.Ok a /\ mapM f l2 = Py.Ok b.
Proof.
  revert l. induction l1 as [|x l1 IH]; simpl; intros l.
  - intros H. exists [], l. auto.
  - destruct (f x) as [y|] eqn:Hf; simpl; [|discriminate].
    destruct (mapM f (l1 ++ l2)) as [ys|] eqn:Hm; simpl; [|discriminate].
    intros [= <-]. destruct (IH ys eq_refl) as (a & b & -> & Ha & Hb).
    exists (y :: a), b. rewrite Ha. auto.
Qed.

Lemma parse_items_segments segments :
  _parse_items (JDict [("segments", JList segments)]) = mapM parse_segment segments.
Proof.
  unfold _parse_items, alias, py_or. cbn [get lookup String.eqb Ascii.eqb Bool.eqb Py.bind].
  destruct segments; reflexivity.
Qed.

(** [transcript.get("sentences", [])], iterated. *)
Definition sentences_of (transcript : json) : Py.result (list json) :=
  let* ss := get_default transcript "sentences" (JList []) in
  iterate ss.

(** The sentences of the transcripts, each with its transcript, in the order
    of the two loops. *)
Definition flattened (tl : list json) (sls : list (list json)) : list (json * json) :=
  concat (zip_with (fun transcript sl => map (pair transcript) sl) tl sls).

Lemma transcript_sentences_split transcript group :
  transcript_sentences transcript = Py.Ok group ->
  exists sl, sentences_of transcript = Py.Ok sl
             /\ mapM (transcript_sentence transcript) sl = Py.Ok group.
Proof.
  unfold transcript_sentences, sentences_of.
  destruct (get_default transcript "sentences" (JList [])) as [ss|]; [|discriminate].
  cbn [Py.bind]. destruct (iterate ss) as [sl|]; [|discriminate].
  cbn [Py.bind]. eauto.
Qed.

Lemma groups_parsed tl groups items :
  mapM transcript_sentences tl = Py.Ok groups ->
  mapM parse_segment (concat groups) = Py.Ok items ->
  exists sls,
    Forall2 (fun transcript sl => sentences_of transcript = Py.Ok sl) tl sls
    /\ Forall2 (fun pair item =>
                  exists seg, transcript_sentence pair.1 pair.2 = Py.Ok seg
                              /\ parse_segment seg = Py.Ok item)
               (flattened tl sls) items.
Proof.
  revert groups items. induction tl as [|transcript tl IH]; simpl; intros groups items.
  - intros [= <-]. simpl. intros [= <-]. exists []. split; constructor.
  - destruct (transcript_sentences transcript) as [group|] eqn:Hg; simpl; [|discriminate].
    destruct (mapM transcript_sentences tl) as [rest|] eqn:Hrest; simpl; [|discriminate].
    intros [= <-]. simpl. intros Hparse.
    apply mapM_app in Hparse as (a & b & -> & Ha & Hb).
    destruct (IH rest b eq_refl Hb) as (sls & Hsls & Hitems).
    destruct (transcript_sentences_split _ _ Hg) as (sl & Hsl & Hsegs).
    exists (sl :: sls). split; [constructor; assumption|].
    unfold flattened. cbn [zip_with concat]. apply Forall2_app; [|exact Hitems].
    pose proof (mapM_twice _ _ _ _ _ Hsegs Ha) as Hboth.
    clear -Hboth. induction Hboth; simpl; constructor; auto.
Qed.

(** A downloaded transcription with transcripts gives one item per
    sentence, none dropped, in the order of the transcripts and of the
    sentences within each; every item is the parsed segment of its sentence.
    Without transcripts (missing, [null] or empty) the transcription is parsed
    as it is. *)
Theorem parse_transcription_sentences (d : list (string * json)) :
  (truthy (entry d "transcripts") = false ->
     parse_transcription (JDict d) = _parse_items (JDict d))
  /\ (truthy (entry d "transcripts") = true ->
      forall items, parse_transcription (JDict d) = Py.Ok items ->
      exists tl sls,
        iterate (entry d "transcripts") = Py.Ok tl
        /\ Forall2 (fun transcript sl => sentences_of transcript = Py.Ok sl) tl sls
        /\ Forall2 (fun pair item =>
                      exists seg, transcript_sentence pair.1 pair.2 = Py.Ok seg
                                  /\ parse_segment seg = Py.Ok item)
                   (flattened tl sls) items
        /\ length items = length (flattened tl sls)).
Proof.
  unfold parse_transcription. cbn [get Py.bind]. fold (entry d "transcripts").
  split; intros Htr; rewrite Htr; [reflexivity|].
  intros items. unfold _segments_from_transcripts.
  destruct (iterate (entry d "transcripts")) as [tl|] eqn:Htl; [|discriminate].
  cbn [Py.bind].
  destruct (mapM transcript_sentences tl) as [groups|] eqn:Hgroups; [|discriminate].
  cbn [Py.bind]. rewrite parse_items_segments. intros Hitems.
  destruct (groups_parsed tl groups items Hgroups Hitems) as (sls & Hsls & Hall).
  exists tl, sls. split; [reflexivity|]. split; [exact Hsls|]. split; [exact Hall|].
  symmetry. exact (Forall2_length _ _ _ Hall).
Qed.

End TranscriptFacts.

(** ** The files a run of the pipeline touches *)
Module TempFiles.
Import PyStr Types Eff Files Audio Pipeline.

Section Confined.
(** The names a computation may create or remove. *)
Variable temps : gset string.













End Confined.

Section Runs.
Context {T : Type}.
Variable sha256_hex : list byte -> string.
Variable env : environment (T := T).
Variable self : AsrPipelineLite (T := T).
















End Runs.


End TempFiles.

(** ** The audio artifact of a run on a path *)
Module ArtifactFacts.
Import PyStr Types Eff Files Audio AudioFacts Pipeline PipelineFacts.








Section Runs.
Context {T : Type}.
Variable sha256_hex : list byte -> string.
Variable env : environment (T := T).
Variable self : AsrPipelineLite (T := T).




End Runs.


End ArtifactFacts.
